(** * DOMElement: the DOM renderable of famous/engine

    A shallow embedding of [dom-renderables/DOMElement.js].  A [DOMElement]
    keeps a local description of a DOM element (tag, classes, attributes,
    properties, content, cutout) and turns changes of it into draw commands
    that its node sends to the compositor.

    The JavaScript object becomes a record, every method a function from
    record to record.  Methods that dereference [this._node] can throw a
    [TypeError]; they return a [Result].  What the element does to its
    collaborators (the node and the callback store) is kept in logs inside
    those collaborators. *)

From Stdlib Require Import ZArith List String Ascii Bool Lia.
Import ListNotations.
Open Scope string_scope.
Open Scope list_scope.
Open Scope Z_scope.

(** ** JavaScript values *)

Module Commands.

(** Modelled from the spec: the opcode table [core/Commands] is not part
    of the sources.  The spec calls its entries opaque symbolic opcodes;
    the constructors carry the names [DOMElement.js] uses. *)
Inductive t : Set :=
| WITH | INIT_DOM | DOM_RENDER_SIZE
| ADD_CLASS | REMOVE_CLASS
| CHANGE_PROPERTY | CHANGE_ATTRIBUTE | CHANGE_CONTENT
| GL_CUTOUT_STATE | CHANGE_TRANSFORM | CHANGE_SIZE
| SUBSCRIBE | UNSUBSCRIBE | PREVENT_DEFAULT | ALLOW_DEFAULT.

Definition eq_dec (a b : t) : {a = b} + {a <> b}.
Proof. decide equality. Defined.

Definition eqb (a b : t) : bool := if eq_dec a b then true else false.

End Commands.

Module Size.

(** Modelled from the spec: the sizing modes of [core/Size] are not part
    of the sources.  [RENDER] is the mode in which the renderer measures
    the element; the source compares against it and nothing else. *)
Inductive mode : Set :=
| RENDER
| Other (k : Z).

Definition is_RENDER (m : mode) : bool :=
  match m with RENDER => true | Other _ => false end.

End Size.

(** The values that travel through the element: what callers store in the
    attribute and property maps, what a map answers when read, and what
    ends up in the change queue.  Numbers are integers or [NaN]: the
    source does no arithmetic on them, but it compares them, and [NaN] is
    the one value that differs from itself.  [Builtin name] is the value
    that a plain object inherits under [name] from [Object.prototype] (a
    function, or the prototype itself for [__proto__]). *)
Inductive JSval : Set :=
| Undefined
| Null
| Bool (b : bool)
| Number (z : Z)
| NaN
| Str (s : string)
| Opcode (c : Commands.t)
| Builtin (name : string).

(** [a === b] *)
Definition strict_eq (a b : JSval) : bool :=
  match a, b with
| Undefined, Undefined => true
| Null, Null => true
| Bool x, Bool y => Bool.eqb x y
| Number x, Number y => Z.eqb x y
| Str x, Str y => String.eqb x y
| Opcode x, Opcode y => Commands.eqb x y
| Builtin x, Builtin y => String.eqb x y
| _, _ => false
  end.

(** [a !== b] *)
Definition strict_neq (a b : JSval) : bool := negb (strict_eq a b).

(** [if (v)] *)
Definition truthy (v : JSval) : bool :=
  match v with
| Undefined | Null | NaN => false
| Bool b => b
| Number z => negb (z =? 0)
| Str s => negb (s =? "")%string
| Opcode _ | Builtin _ => true
  end.

(** Storing into an [Int32Array]: the number modulo 2^32, read as signed. *)
Definition toInt32 (z : Z) : Z := (z + 2 ^ 31) mod 2 ^ 32 - 2 ^ 31.

Definition int32 (z : Z) : Prop := - 2 ^ 31 <= z < 2 ^ 31.

(** ** Plain objects used as maps

    [classes], [attributes] and [properties] are plain objects keyed by
    strings.  An object is the list of its own properties in the order in
    which [for (key in o)] and [Object.keys(o)] visit them: first the keys
    that are array indices, in ascending numeric order, then the other
    keys in the order of their creation.  [onMount] and [reset] push
    commands in that order.  Reading a key that the object does not own
    falls through to [Object.prototype]. *)

(** The decimal digit a character stands for. *)
Definition digit (c : ascii) : option N :=
  let n := N_of_ascii c in
  if ((48 <=? n) && (n <=? 57))%N then Some (n - 48)%N else None.

(** The number a string of decimal digits stands for. *)
Fixpoint digits (s : string) (acc : N) : option N :=
  match s with
  | EmptyString => Some acc
  | String c s' =>
      match digit c with
      | Some d => digits s' (10 * acc + d)%N
      | None => None
      end
  end.

(** The array index a key stands for, if it is one: a decimal numeral
    without a leading zero, below 2^32 - 1. *)
Definition array_index (k : string) : option N :=
  match k with
  | EmptyString => None
  | String "0"%char EmptyString => Some 0%N
  | String "0"%char _ => None
  | _ =>
      match digits k 0 with
      | Some n => if (n <? 2 ^ 32 - 1)%N then Some n else None
      | None => None
      end
  end.

(** The names of the properties of [Object.prototype]. *)
Definition Object_prototype : list string :=
  ["constructor"; "__defineGetter__"; "__defineSetter__"; "hasOwnProperty";
   "__lookupGetter__"; "__lookupSetter__"; "isPrototypeOf";
   "propertyIsEnumerable"; "toString"; "valueOf"; "__proto__";
   "toLocaleString"].

(** [k] is read from [Object.prototype] by an object that does not own it. *)
Definition inherited (k : string) : bool :=
  existsb (String.eqb k) Object_prototype.

(** A key that is no array index. *)
Definition plain (k : string) : bool :=
  match array_index k with Some _ => false | None => true end.

(** A list of keys in the order of enumeration: array indices ascending,
    then the keys that are no indices. *)
Fixpoint enumerated (ks : list string) : bool :=
  match ks with
  | [] => true
  | k :: ks' =>
      match array_index k with
      | None => forallb plain ks'
      | Some i =>
          forallb
            (fun k' =>
               match array_index k' with
               | Some j => (i <=? j)%N
               | None => true
               end) ks' && enumerated ks'
      end
  end.

Section Obj.

Context {V : Type}.

Definition Obj := list (string * V).

(** The own property [k] of [o], if there is one. *)
Fixpoint get (k : string) (o : Obj) : option V :=
  match o with
  | [] => None
  | (k', v) :: o' => if (k' =? k)%string then Some v else get k o'
  end.

(** Writing an own property: it keeps its place. *)
Fixpoint overwrite (k : string) (v : V) (o : Obj) : Obj :=
  match o with
  | [] => []
  | (k', v') :: o' =>
      if (k' =? k)%string then (k', v) :: o' else (k', v') :: overwrite k v o'
  end.

(** Creating the array index [i]: it goes before the first key that is a
    larger index or no index at all. *)
Fixpoint insert_index (i : N) (k : string) (v : V) (o : Obj) : Obj :=
  match o with
  | [] => [(k, v)]
  | (k', v') :: o' =>
      match array_index k' with
      | Some j =>
          if (j <? i)%N then (k', v') :: insert_index i k v o'
          else (k, v) :: o
      | None => (k, v) :: o
      end
  end.

(** Creating a property: an array index goes to its place among the
    indices, any other key goes last. *)
Definition create (k : string) (v : V) (o : Obj) : Obj :=
  match array_index k with
  | Some i => insert_index i k v o
  | None => o ++ [(k, v)]
  end.

(** [o[k] = v].  An own property is overwritten; otherwise the property is
    created, except under [__proto__]: that assignment reaches the setter
    of [Object.prototype], which ignores a value that is neither an object
    nor [null] (the setters of the element take strings, numbers and
    booleans), so nothing is stored. *)
Definition set (k : string) (v : V) (o : Obj) : Obj :=
  match get k o with
  | Some _ => overwrite k v o
  | None => if (k =? "__proto__")%string then o else create k v o
  end.

(** [Object.keys(o)], also the order of [for (key in o)] *)
Definition keys (o : Obj) : list string := map fst o.

(** [o[k] = v] stores: every key but a [__proto__] that [o] does not own. *)
Definition storable (k : string) (o : Obj) : Prop :=
  k <> "__proto__" \/ get k o <> None.

End Obj.

Arguments Obj : clear implicits.

(** [o[k]] as a value: the own property, or the inherited one, or
    [undefined] *)
Definition lookup (k : string) (o : Obj JSval) : JSval :=
  match get k o with
  | Some v => v
  | None => if inherited k then Builtin k else Undefined
  end.

(** [o[k]] of a map of flags, as a condition; an inherited property is an
    object and counts as true. *)
Definition flag (k : string) (o : Obj bool) : bool :=
  match get k o with Some b => b | None => inherited k end.

(** ** Results *)

Inductive Result (A : Type) : Type :=
| Ok (a : A)
| TypeError.

Arguments Ok {A} a.
Arguments TypeError {A}.

Definition bind {A B : Type} (r : Result A) (f : A -> Result B) : Result B :=
  match r with
  | Ok a => f a
  | TypeError => TypeError
  end.

Notation "x <- r ;; k" := (bind r (fun x => k))
  (at level 61, r at next level, right associativity).

(** ** Collaborators *)

(** The payload of an inbound event.  [val] is the only part the element
    looks at: the measured size of a ['resize'] event. *)
Record Payload := mkPayload { val : list Z }.

(** [payload.val[i]] stored into an [Int32Array]: a missing entry is
    [undefined], which is stored as 0. *)
Definition val_at (i : nat) (p : Payload) : Z := toInt32 (nth i (val p) 0).

Module CallbackStore.

(** Modelled from the spec: [utilities/CallbackStore] is not part of the
    sources.  The spec describes a simple publish/subscribe registry:
    listeners are registered under an event name and an event is dispatched
    to the listeners registered under its name.  Listeners are opaque, so
    a listener is a number and a call of it an entry of the log [called]. *)
Record t := mk {
  listeners : Obj (list nat);
  called : list (nat * Payload)
}.

Definition empty : t := mk [] [].

Definition registered (event : string) (cs : t) : list nat :=
  match get event (listeners cs) with Some ls => ls | None => [] end.

Definition on (event : string) (listener : nat) (cs : t) : t :=
  mk (match get event (listeners cs) with
      | Some _ =>
          overwrite event (registered event cs ++ [listener]) (listeners cs)
      | None => listeners cs ++ [(event, [listener])]
      end)
     (called cs).

Definition trigger (event : string) (payload : Payload) (cs : t) : t :=
  mk (listeners cs)
     (called cs ++ map (fun l => (l, payload)) (registered event cs)).

End CallbackStore.

Module Node.

(** Modelled from the spec: the scene-graph node is not part of the
    sources.  The element asks it for its location, UI events, size mode,
    opacity and size, hands it draw commands and asks it for an update;
    [TransformSystem] is keyed by the node's location, so the node's entry
    there ([transform], [breakPoint]) is kept with the node.  The two logs
    hold what the node has been sent, oldest first. *)
Record t := mk {
  location : string;
  uiEvents : list string;
  sizeMode : Size.mode * Size.mode * Size.mode;
  opacity : Z;
  size : Z * Z * Z;
  transform : list Z;
  breakPoint : bool;
  drawCommands : list JSval;
  updateRequests : list JSval
}.

(** [node.sendDrawCommand(c)] *)
Definition sendDrawCommand (c : JSval) (n : t) : t :=
  mk (location n) (uiEvents n) (sizeMode n) (opacity n) (size n)
     (transform n) (breakPoint n) (drawCommands n ++ [c]) (updateRequests n).

(** [node.requestUpdate(id)] *)
Definition requestUpdate (id : JSval) (n : t) : t :=
  mk (location n) (uiEvents n) (sizeMode n) (opacity n) (size n)
     (transform n) (breakPoint n) (drawCommands n) (updateRequests n ++ [id]).

(** [TransformSystem.makeBreakPointAt(node.getLocation())] *)
Definition makeBreakPoint (n : t) : t :=
  mk (location n) (uiEvents n) (sizeMode n) (opacity n) (size n)
     (transform n) true (drawCommands n) (updateRequests n).

End Node.

(** ** The element *)

Module Spec.

(** [DOMElement.Spec]: the serialisable state. *)
Record t := mk {
  tagName : string;
  renderSize : Z * Z;
  classes : Obj bool;
  attributes : Obj JSval;
  properties : Obj JSval;
  content : string;
  cutout : bool;
  allowDefault : Obj bool;
  preventDefault : Obj bool
}.

Definition with_renderSize (r : Z * Z) (s : t) : t :=
  mk (tagName s) r (classes s) (attributes s) (properties s) (content s)
     (cutout s) (allowDefault s) (preventDefault s).

Definition with_classes (c : Obj bool) (s : t) : t :=
  mk (tagName s) (renderSize s) c (attributes s) (properties s) (content s)
     (cutout s) (allowDefault s) (preventDefault s).

Definition with_attributes (a : Obj JSval) (s : t) : t :=
  mk (tagName s) (renderSize s) (classes s) a (properties s) (content s)
     (cutout s) (allowDefault s) (preventDefault s).

Definition with_properties (p : Obj JSval) (s : t) : t :=
  mk (tagName s) (renderSize s) (classes s) (attributes s) p (content s)
     (cutout s) (allowDefault s) (preventDefault s).

Definition with_content (c : string) (s : t) : t :=
  mk (tagName s) (renderSize s) (classes s) (attributes s) (properties s) c
     (cutout s) (allowDefault s) (preventDefault s).

Definition with_cutout (c : bool) (s : t) : t :=
  mk (tagName s) (renderSize s) (classes s) (attributes s) (properties s)
     (content s) c (allowDefault s) (preventDefault s).

End Spec.

(** The fields of a [DOMElement].  [_initialized], [_inDraw] and
    [_requestRenderSize] are not set by the constructor; unset they read as
    [undefined], which is [false] wherever the source tests them. *)
Record DOMElement := mkDOMElement {
  _node : option Node.t;
  _id : JSval;
  _requestingUpdate : bool;
  _renderSized : bool;
  _requestingRenderSize : bool;
  _requestRenderSize : bool;
  _initialized : bool;
  _inDraw : bool;
  _changeQueue : list JSval;
  _callbackStore : CallbackStore.t;
  value : Spec.t;
  _UIEvents : list string
}.

Definition with_node (n : option Node.t) (e : DOMElement) : DOMElement :=
  mkDOMElement n (_id e) (_requestingUpdate e) (_renderSized e)
    (_requestingRenderSize e) (_requestRenderSize e) (_initialized e)
    (_inDraw e) (_changeQueue e) (_callbackStore e) (value e) (_UIEvents e).

Definition with_id (i : JSval) (e : DOMElement) : DOMElement :=
  mkDOMElement (_node e) i (_requestingUpdate e) (_renderSized e)
    (_requestingRenderSize e) (_requestRenderSize e) (_initialized e)
    (_inDraw e) (_changeQueue e) (_callbackStore e) (value e) (_UIEvents e).

Definition with_requestingUpdate (b : bool) (e : DOMElement) : DOMElement :=
  mkDOMElement (_node e) (_id e) b (_renderSized e)
    (_requestingRenderSize e) (_requestRenderSize e) (_initialized e)
    (_inDraw e) (_changeQueue e) (_callbackStore e) (value e) (_UIEvents e).

Definition with_requestingRenderSize (b : bool) (e : DOMElement) : DOMElement :=
  mkDOMElement (_node e) (_id e) (_requestingUpdate e) (_renderSized e)
    b (_requestRenderSize e) (_initialized e)
    (_inDraw e) (_changeQueue e) (_callbackStore e) (value e) (_UIEvents e).

Definition with_requestRenderSize (b : bool) (e : DOMElement) : DOMElement :=
  mkDOMElement (_node e) (_id e) (_requestingUpdate e) (_renderSized e)
    (_requestingRenderSize e) b (_initialized e)
    (_inDraw e) (_changeQueue e) (_callbackStore e) (value e) (_UIEvents e).

Definition with_initialized (b : bool) (e : DOMElement) : DOMElement :=
  mkDOMElement (_node e) (_id e) (_requestingUpdate e) (_renderSized e)
    (_requestingRenderSize e) (_requestRenderSize e) b
    (_inDraw e) (_changeQueue e) (_callbackStore e) (value e) (_UIEvents e).

Definition with_inDraw (b : bool) (e : DOMElement) : DOMElement :=
  mkDOMElement (_node e) (_id e) (_requestingUpdate e) (_renderSized e)
    (_requestingRenderSize e) (_requestRenderSize e) (_initialized e)
    b (_changeQueue e) (_callbackStore e) (value e) (_UIEvents e).

Definition with_changeQueue (q : list JSval) (e : DOMElement) : DOMElement :=
  mkDOMElement (_node e) (_id e) (_requestingUpdate e) (_renderSized e)
    (_requestingRenderSize e) (_requestRenderSize e) (_initialized e)
    (_inDraw e) q (_callbackStore e) (value e) (_UIEvents e).

Definition with_callbackStore (c : CallbackStore.t) (e : DOMElement) : DOMElement :=
  mkDOMElement (_node e) (_id e) (_requestingUpdate e) (_renderSized e)
    (_requestingRenderSize e) (_requestRenderSize e) (_initialized e)
    (_inDraw e) (_changeQueue e) c (value e) (_UIEvents e).

Definition with_value (v : Spec.t) (e : DOMElement) : DOMElement :=
  mkDOMElement (_node e) (_id e) (_requestingUpdate e) (_renderSized e)
    (_requestingRenderSize e) (_requestRenderSize e) (_initialized e)
    (_inDraw e) (_changeQueue e) (_callbackStore e) v (_UIEvents e).

Definition with_UIEvents (u : list string) (e : DOMElement) : DOMElement :=
  mkDOMElement (_node e) (_id e) (_requestingUpdate e) (_renderSized e)
    (_requestingRenderSize e) (_requestRenderSize e) (_initialized e)
    (_inDraw e) (_changeQueue e) (_callbackStore e) (value e) u.

(** [this._changeQueue.push(c1, ..., cn)] *)
Definition push (cs : list JSval) (e : DOMElement) : DOMElement :=
  with_changeQueue (_changeQueue e ++ cs) e.

(** *** Construction *)

(** The [options] of the constructor; [None] is an absent option.  The
    maps are plain objects, each given as its own properties in the order
    of enumeration. *)
Record Options := mkOptions {
  o_tagName : option string;
  o_classes : option (Obj bool);
  o_attributes : option (Obj JSval);
  o_properties : option (Obj JSval);
  o_content : option string;
  o_cutout : option bool;
  o_allowDefault : option (Obj bool);
  o_preventDefault : option (Obj bool);
  o_id : option string
}.

Definition no_options : Options :=
  mkOptions None None None None None None None None None.

Definition upper (c : ascii) : ascii :=
  let n := nat_of_ascii c in
  if ((97 <=? n) && (n <=? 122))%nat then ascii_of_nat (n - 32) else c.

(** [s.toUpperCase()] on a tag name.  It maps the letters a to z; the
    code's [toUpperCase] also maps letters outside ASCII, which element
    names do not contain. *)
Fixpoint toUpperCase (s : string) : string :=
  match s with
  | EmptyString => EmptyString
  | String c s' => String (upper c) (toUpperCase s')
  end.

Definition or_else {A : Type} (o : option A) (d : A) : A :=
  match o with Some a => a | None => d end.

(** [new DOMElement.Spec(options)].  (The code keeps the three maps of the
    options by reference and writes the marker class and the id into
    them; the element is taken to be their only user.) *)
Definition Spec_new (options : Options) : Spec.t :=
  let tagName :=
    match o_tagName options with
    | Some t => if (t =? "")%string then "DIV" else toUpperCase t
    | None => "DIV"
    end in
  let classes := or_else (o_classes options) [] in
  let attributes := or_else (o_attributes options) [] in
  let classes := set "famous-dom-element" true classes in
  let attributes :=
    match o_id options with
    | Some i => if (i =? "")%string then attributes
                else set "id" (Str i) attributes
    | None => attributes
    end in
  Spec.mk tagName (0, 0) classes attributes
    (or_else (o_properties options) [])
    (or_else (o_content options) "")
    (or_else (o_cutout options) true)
    (or_else (o_allowDefault options) [])
    (or_else (o_preventDefault options) []).

(** [new DOMElement(undefined, options)]: an element that no node owns
    yet.  (With a node the constructor hands the element to
    [node.addComponent], which is the node's business.) *)
Definition DOMElement_new (options : Options) : DOMElement :=
  mkDOMElement None Null false false false false false false []
    CallbackStore.empty (Spec_new options) [].

(** *** Scheduling *)

(** [_requestUpdate]: ask the node for an update, unless one has been
    asked for already or there is no node. *)
Definition _requestUpdate (e : DOMElement) : DOMElement :=
  match negb (_requestingUpdate e), _node e with
  | true, Some node =>
      with_requestingUpdate true
        (with_node (Some (Node.requestUpdate (_id e) node)) e)
  | _, _ => e
  end.

(** [while (len--) node.sendDrawCommand(queue.shift())]; shifting an empty
    array yields [undefined]. *)
Fixpoint flush (len : nat) (queue : list JSval) (node : Node.t)
  : list JSval * Node.t :=
  match len with
  | O => (queue, node)
  | S len' =>
      match queue with
      | [] => flush len' [] (Node.sendDrawCommand Undefined node)
      | c :: queue' => flush len' queue' (Node.sendDrawCommand c node)
      end
  end.

(** [onUpdate]: [node.getLocation()] is evaluated before [node] is tested,
    so without a node the method throws. *)
Definition onUpdate (e : DOMElement) : Result DOMElement :=
  match _node e with
  | None => TypeError
  | Some node =>
      let queue := _changeQueue e in
      let len := List.length queue in
      let location := Str (Node.location node) in
      let e :=
        if negb (len =? 0)%nat then
          let node := Node.sendDrawCommand (Opcode Commands.WITH) node in
          let node := Node.sendDrawCommand location node in
          let '(queue, node) := flush len queue node in
          let e := with_changeQueue queue e in
          if _requestRenderSize e then
            let node :=
              Node.sendDrawCommand (Opcode Commands.DOM_RENDER_SIZE) node in
            let node := Node.sendDrawCommand location node in
            with_requestRenderSize false (with_node (Some node) e)
          else with_node (Some node) e
        else e in
      Ok (with_requestingUpdate false e)
  end.

(** *** Mutators *)

Definition setCutoutState (usesCutout : bool) (e : DOMElement) : DOMElement :=
  if negb (Bool.eqb (Spec.cutout (value e)) usesCutout) || _inDraw e then
    let e := with_value (Spec.with_cutout usesCutout (value e)) e in
    let e :=
      if _initialized e
      then push [Opcode Commands.GL_CUTOUT_STATE; Bool usesCutout] e
      else e in
    if _requestingUpdate e then _requestUpdate e else e
  else e.

Definition addClass (value_ : string) (e : DOMElement) : DOMElement :=
  if negb (flag value_ (Spec.classes (value e))) || _inDraw e then
    let e :=
      with_value
        (Spec.with_classes (set value_ true (Spec.classes (value e))) (value e))
        e in
    let e :=
      if _initialized e
      then push [Opcode Commands.ADD_CLASS; Str value_] e
      else e in
    if negb (_requestingUpdate e) then _requestUpdate e else e
  else e.

Definition removeClass (value_ : string) (e : DOMElement) : DOMElement :=
  if flag value_ (Spec.classes (value e)) || _inDraw e then
    let e :=
      with_value
        (Spec.with_classes (set value_ true (Spec.classes (value e))) (value e))
        e in
    let e :=
      if _initialized e
      then push [Opcode Commands.REMOVE_CLASS; Str value_] e
      else e in
    if negb (_requestingUpdate e) then _requestUpdate e else e
  else e.

Definition getClasses (e : DOMElement) : list string :=
  keys (Spec.classes (value e)).

Definition hasClass (value_ : string) (e : DOMElement) : bool :=
  flag value_ (Spec.classes (value e)).

Definition setAttribute (name : string) (v : JSval) (e : DOMElement)
  : DOMElement :=
  if strict_neq (lookup name (Spec.attributes (value e))) v || _inDraw e then
    let e :=
      with_value
        (Spec.with_attributes (set name v (Spec.attributes (value e))) (value e))
        e in
    let e :=
      if _initialized e
      then push [Opcode Commands.CHANGE_ATTRIBUTE; Str name; v] e
      else e in
    if negb (_requestingUpdate e) then _requestUpdate e else e
  else e.

Definition getAttribute (name : string) (e : DOMElement) : JSval :=
  lookup name (Spec.attributes (value e)).

Definition setId (id : JSval) (e : DOMElement) : DOMElement :=
  setAttribute "id" id e.

Definition getId (e : DOMElement) : JSval :=
  lookup "id" (Spec.attributes (value e)).

Definition setProperty (name : string) (v : JSval) (e : DOMElement)
  : DOMElement :=
  if strict_neq (lookup name (Spec.properties (value e))) v || _inDraw e then
    let e :=
      with_value
        (Spec.with_properties (set name v (Spec.properties (value e))) (value e))
        e in
    let e :=
      if _initialized e
      then push [Opcode Commands.CHANGE_PROPERTY; Str name; v] e
      else e in
    let e := if _renderSized e then with_requestingRenderSize true e else e in
    if negb (_requestingUpdate e) then _requestUpdate e else e
  else e.

Definition getProperty (name : string) (e : DOMElement) : JSval :=
  lookup name (Spec.properties (value e)).

Definition setContent (content : string) (e : DOMElement) : DOMElement :=
  if negb (Spec.content (value e) =? content)%string || _inDraw e then
    let e := with_value (Spec.with_content content (value e)) e in
    let e :=
      if _initialized e
      then push [Opcode Commands.CHANGE_CONTENT; Str content] e
      else e in
    let e := if _renderSized e then with_requestingRenderSize true e else e in
    if negb (_requestingUpdate e) then _requestUpdate e else e
  else e.

Definition getContent (e : DOMElement) : string := Spec.content (value e).

Definition getRenderSize (e : DOMElement) : Z * Z :=
  Spec.renderSize (value e).

Definition onShow (e : DOMElement) : DOMElement :=
  setProperty "display" (Str "block") e.

Definition onHide (e : DOMElement) : DOMElement :=
  setProperty "display" (Str "none") e.

(** *** Hooks driven by the node *)

(** [onTransformChange(transform)]; the argument is what
    [transform.getLocalTransform()] returns.  The loop pushes the entries
    one by one. *)
Definition onTransformChange (transform : list Z) (e : DOMElement)
  : DOMElement :=
  let e := push [Opcode Commands.CHANGE_TRANSFORM] e in
  let e := fold_left (fun e x => push [Number x] e) transform e in
  if negb (_requestingUpdate e) then _requestUpdate e else e.

(** [onSizeChange(width, height)]; [this._node.getSizeMode()] throws
    without a node. *)
Definition onSizeChange (width height : Z) (e : DOMElement)
  : Result DOMElement :=
  e <- (if _initialized e then
          match _node e with
          | None => TypeError
          | Some node =>
              let '(mx, my, _) := Node.sizeMode node in
              let sizedX := negb (Size.is_RENDER mx) in
              let sizedY := negb (Size.is_RENDER my) in
              Ok (push [Opcode Commands.CHANGE_SIZE;
                        if sizedX then Number width else Bool sizedX;
                        if sizedY then Number height else Bool sizedY] e)
          end
        else Ok e) ;;
  Ok (if negb (_requestingUpdate e) then _requestUpdate e else e).

Definition onOpacityChange (opacity : Z) (e : DOMElement) : DOMElement :=
  setProperty "opacity" (Number opacity) e.

(** [onSizeModeChange(x, y, z)] reads the size from the node and does not
    look at its arguments. *)
Definition onSizeModeChange (x y z : Size.mode) (e : DOMElement)
  : Result DOMElement :=
  match _node e with
  | None => TypeError
  | Some node =>
      let '(w, h, _) := Node.size node in
      onSizeChange w h e
  end.

(** *** UI events *)

Definition _subscribe (uiEvent : string) (e : DOMElement) : DOMElement :=
  let e :=
    if _initialized e
    then push [Opcode Commands.SUBSCRIBE; Str uiEvent] e
    else e in
  if negb (_requestingUpdate e) then _requestUpdate e else e.

Definition _unsubscribe (UIEvent : string) (e : DOMElement) : DOMElement :=
  let e :=
    if _initialized e
    then push [Opcode Commands.UNSUBSCRIBE; Str UIEvent] e
    else e in
  if negb (_requestingUpdate e) then _requestUpdate e else e.

Definition preventDefault (uiEvent : string) (e : DOMElement) : DOMElement :=
  let e :=
    if _initialized e
    then push [Opcode Commands.PREVENT_DEFAULT; Str uiEvent] e
    else e in
  if negb (_requestingUpdate e) then _requestUpdate e else e.

Definition allowDefault (uiEvent : string) (e : DOMElement) : DOMElement :=
  let e :=
    if _initialized e
    then push [Opcode Commands.ALLOW_DEFAULT; Str uiEvent] e
    else e in
  if negb (_requestingUpdate e) then _requestUpdate e else e.

Definition onAddUIEvent (uiEvent : string) (e : DOMElement) : DOMElement :=
  _subscribe uiEvent e.

(** [a.indexOf(x)], [None] for -1 *)
Fixpoint indexOf (x : string) (a : list string) : option nat :=
  match a with
  | [] => None
  | y :: a' =>
      if (y =? x)%string then Some O
      else match indexOf x a' with Some i => Some (S i) | None => None end
  end.

(** [a.splice(index, 1)] *)
Fixpoint splice (index : nat) (a : list string) : list string :=
  match index, a with
  | _, [] => []
  | O, _ :: a' => a'
  | S i, y :: a' => y :: splice i a'
  end.

Definition onRemoveUIEvent (UIEvent : string) (e : DOMElement) : DOMElement :=
  match indexOf UIEvent (_UIEvents e) with
  | Some index =>
      let e := _unsubscribe UIEvent e in
      with_UIEvents (splice index (_UIEvents e)) e
  | None => if _inDraw e then _unsubscribe UIEvent e else e
  end.

Definition on (event : string) (listener : nat) (e : DOMElement) : DOMElement :=
  with_callbackStore (CallbackStore.on event listener (_callbackStore e)) e.

Definition onReceive (event : string) (payload : Payload) (e : DOMElement)
  : DOMElement :=
  let e :=
    if (event =? "resize")%string then
      let e :=
        with_value
          (Spec.with_renderSize
             (val_at 0 payload, snd (Spec.renderSize (value e))) (value e)) e in
      let e :=
        with_value
          (Spec.with_renderSize
             (fst (Spec.renderSize (value e)), val_at 1 payload) (value e)) e in
      if negb (_requestingUpdate e) then _requestUpdate e else e
    else e in
  with_callbackStore (CallbackStore.trigger event payload (_callbackStore e)) e.

(** *** Mounting and dismounting *)

Definition onMount (node : Node.t) (id : JSval) (e : DOMElement)
  : Result DOMElement :=
  let e := with_node (Some (Node.makeBreakPoint node)) e in
  let e := with_id id e in
  let e := with_initialized true e in
  let e := with_inDraw true e in
  let e := push [Opcode Commands.INIT_DOM; Str (Spec.tagName (value e))] e in
  let e :=
    fold_left
      (fun e key =>
         if flag key (Spec.classes (value e)) then addClass key e else e)
      (keys (Spec.classes (value e))) e in
  let e :=
    fold_left
      (fun e key =>
         let val := lookup key (Spec.properties (value e)) in
         if truthy val then setProperty key val e else e)
      (keys (Spec.properties (value e))) e in
  let e :=
    fold_left
      (fun e key =>
         let val := lookup key (Spec.attributes (value e)) in
         if truthy val then setAttribute key val e else e)
      (keys (Spec.attributes (value e))) e in
  let e :=
    if negb (Spec.content (value e) =? "")%string
    then setContent (Spec.content (value e)) e
    else e in
  let e := fold_left (fun e ev => onAddUIEvent ev e) (Node.uiEvents node) e in
  let e := setAttribute "data-fa-path" (Str (Node.location node)) e in
  let e := setProperty "display" (Str "block") e in
  let '(mx, my, mz) := Node.sizeMode node in
  e <- onSizeModeChange mx my mz e ;;
  let e := onOpacityChange (Node.opacity node) e in
  e <- match _node e with
       | None => TypeError
       | Some n => Ok (onTransformChange (Node.transform n) e)
       end ;;
  e <- match _node e with
       | None => TypeError
       | Some n => let '(w, h, _) := Node.size n in onSizeChange w h e
       end ;;
  Ok (with_inDraw false e).

(** [reset] pushes a clearing command for every key of the three maps,
    whatever its value. *)
Definition reset (e : DOMElement) : DOMElement :=
  let e :=
    fold_left
      (fun e className =>
         push [Opcode Commands.REMOVE_CLASS; Str className] e)
      (keys (Spec.classes (value e))) e in
  let e :=
    fold_left
      (fun e property =>
         push [Opcode Commands.CHANGE_PROPERTY; Str property; Str ""] e)
      (keys (Spec.properties (value e))) e in
  let e :=
    fold_left
      (fun e attribute =>
         push [Opcode Commands.CHANGE_ATTRIBUTE; Str attribute; Str ""] e)
      (keys (Spec.attributes (value e))) e in
  let e :=
    if negb (Spec.content (value e) =? "")%string
    then push [Opcode Commands.CHANGE_CONTENT; Str ""] e
    else e in
  push [Opcode Commands.GL_CUTOUT_STATE; Bool false] e.

Definition onDismount (e : DOMElement) : Result DOMElement :=
  let e := reset e in
  let e := setProperty "display" (Str "none") e in
  e <- onUpdate e ;;
  Ok (with_initialized false e).

(** ** Observations *)

(** The update requests the owning node has received from the element. *)
Definition requests (e : DOMElement) : list JSval :=
  match _node e with
  | Some node => Node.updateRequests node
  | None => []
  end.

(** The draw commands the owning node has been sent. *)
Definition sent (e : DOMElement) : list JSval :=
  match _node e with
  | Some node => Node.drawCommands node
  | None => []
  end.

(** The operand of a size-change command for one axis, in the words of the
    specification: the pixel value, unless the axis is measured by the
    renderer, and then the boolean [false]. *)
Definition size_operand (m : Size.mode) (pixels : Z) : JSval :=
  match m with
  | Size.RENDER => Bool false
  | Size.Other _ => Number pixels
  end.

(** The mutators of the element's description, as data. *)
Inductive Mutation : Set :=
| SetProperty (name : string) (v : JSval)
| SetAttribute (name : string) (v : JSval)
| SetContent (content : string)
| AddClass (c : string)
| RemoveClass (c : string)
| SetCutoutState (usesCutout : bool).

Definition mutate (m : Mutation) (e : DOMElement) : DOMElement :=
  match m with
  | SetProperty name v => setProperty name v e
  | SetAttribute name v => setAttribute name v e
  | SetContent c => setContent c e
  | AddClass c => addClass c e
  | RemoveClass c => removeClass c e
  | SetCutoutState b => setCutoutState b e
  end.

(** A run of mutators with no drain in between. *)
Definition run (ms : list Mutation) (e : DOMElement) : DOMElement :=
  fold_left (fun e m => mutate m e) ms e.

(** The queue [after] is the queue [before] with at most the one command
    [cmd] appended. *)
Definition at_most_one_command (cmd : list JSval) (before after : list JSval)
  : Prop :=
  after = before \/ after = before ++ cmd.

(** Over a stretch of calls the node has received either no request, or
    exactly one, and that one only if none was outstanding at the start. *)
Definition coalesced (e e' : DOMElement) : Prop :=
  _id e' = _id e /\
  ((requests e' = requests e /\ _requestingUpdate e' = _requestingUpdate e) \/
   (_requestingUpdate e = false /\ _requestingUpdate e' = true /\
    requests e' = requests e ++ [_id e])).

(** In the middle of [onMount]: initialized, in forced resync, node bound. *)
Definition mounting (e : DOMElement) : Prop :=
  _initialized e = true /\ _inDraw e = true /\ _node e <> None.

(** After [onMount]: initialized, out of forced resync, node bound. *)
Definition attached (e : DOMElement) : Prop :=
  _initialized e = true /\ _inDraw e = false /\ _node e <> None.

(** ** Sample elements *)

(** A node at location [body/0] with one UI event, whose second axis is
    measured by the renderer. *)
Definition sampleNode : Node.t :=
  Node.mk "body/0" ["click"] (Size.Other 0, Size.RENDER, Size.Other 0)
    1 (100, 50, 0) [1; 0; 0; 0; 0; 1; 0; 0; 0; 0; 1; 0; 0; 0; 0; 1]
    false [] [].

(** [new DOMElement()] *)
Definition detached : DOMElement := DOMElement_new no_options.

Definition force (r : Result DOMElement) : DOMElement :=
  match r with Ok e => e | TypeError => detached end.

(** A [<span>hi</span>] mounted on [sampleNode] and drained once. *)
Definition mounted : DOMElement :=
  Eval vm_compute in
  force (e <- onMount sampleNode (Number 0)
                (DOMElement_new
                   (mkOptions (Some "span") None None None (Some "hi")
                      None None None None)) ;;
         onUpdate e).

(** [mounted] after [addClass('b')], [addClass('1')] and a drain: the
    class map enumerates the array index [1] first. *)
Definition indexed : DOMElement :=
  Eval vm_compute in
  force (onUpdate (addClass "1" (addClass "b" mounted))).

(** ** Serialisation *)

(** What [getValue] returns.  [styles] and [id] are the deprecated
    duplicates of [properties] and [attributes.id]. *)
Record Serialized := mkSerialized {
  s_tagName : string;
  s_renderSize : Z * Z;
  s_classes : list string;
  s_attributes : Obj JSval;
  s_properties : Obj JSval;
  s_content : string;
  s_cutout : bool;
  s_styles : Obj JSval;
  s_id : JSval
}.

Definition getValue (e : DOMElement) : Serialized :=
  mkSerialized
    (Spec.tagName (value e))
    (Spec.renderSize (value e))
    (keys (Spec.classes (value e)))
    (Spec.attributes (value e))
    (Spec.properties (value e))
    (Spec.content (value e))
    (Spec.cutout (value e))
    (Spec.properties (value e))
    (lookup "id" (Spec.attributes (value e))).

(** ** Calls from outside *)

(** The public methods that can change the element, as data.  The private
    ones ([reset], [_subscribe], [_unsubscribe], [_requestUpdate]) are only
    reached through these. *)
Inductive Call : Type :=
| Mutate (m : Mutation)
| SetId (id : JSval)
| OnShow
| OnHide
| OnOpacityChange (opacity : Z)
| OnTransformChange (transform : list Z)
| OnSizeChange (width height : Z)
| OnSizeModeChange (x y z : Size.mode)
| OnAddUIEvent (uiEvent : string)
| OnRemoveUIEvent (uiEvent : string)
| PreventDefault (uiEvent : string)
| AllowDefault (uiEvent : string)
| On (event : string) (listener : nat)
| OnReceive (event : string) (payload : Payload)
| OnUpdate
| OnMount (node : Node.t) (id : JSval)
| OnDismount.

Definition perform (c : Call) (e : DOMElement) : Result DOMElement :=
  match c with
  | Mutate m => Ok (mutate m e)
  | SetId id => Ok (setId id e)
  | OnShow => Ok (onShow e)
  | OnHide => Ok (onHide e)
  | OnOpacityChange opacity => Ok (onOpacityChange opacity e)
  | OnTransformChange transform => Ok (onTransformChange transform e)
  | OnSizeChange width height => onSizeChange width height e
  | OnSizeModeChange x y z => onSizeModeChange x y z e
  | OnAddUIEvent uiEvent => Ok (onAddUIEvent uiEvent e)
  | OnRemoveUIEvent uiEvent => Ok (onRemoveUIEvent uiEvent e)
  | PreventDefault uiEvent => Ok (preventDefault uiEvent e)
  | AllowDefault uiEvent => Ok (allowDefault uiEvent e)
  | On event listener => Ok (on event listener e)
  | OnReceive event payload => Ok (onReceive event payload e)
  | OnUpdate => onUpdate e
  | OnMount node id => onMount node id e
  | OnDismount => onDismount e
  end.

(** The element as a call leaves it, whether the call returns or throws.
    [onUpdate], [onSizeModeChange] and [onSizeChange] throw at their first
    use of the node, before any write.  [onDismount] throws inside its
    final [onUpdate], after [reset] and [setProperty] have run.  [onMount]
    is given its node and does not throw ([onMount_attaches]). *)
Definition leaves (c : Call) (e : DOMElement) : DOMElement :=
  match perform c e with
  | Ok e' => e'
  | TypeError =>
      match c with
      | OnDismount => setProperty "display" (Str "none") (reset e)
      | _ => e
      end
  end.

(** The element after a series of calls. *)
Definition after (cs : list Call) (e : DOMElement) : DOMElement :=
  fold_left (fun e c => leaves c e) cs e.

(** Calls that neither drain nor mount nor dismount. *)
Definition between_drains (c : Call) : bool :=
  match c with
  | OnUpdate | OnMount _ _ | OnDismount => false
  | _ => true
  end.

(** What holds of an element between calls, once it has been built by the
    constructor. *)
Definition settled (e : DOMElement) : Prop :=
  _inDraw e = false /\
  _UIEvents e = [] /\
  _renderSized e = false /\
  _requestingRenderSize e = false /\
  _requestRenderSize e = false /\
  (_initialized e = true -> _node e <> None) /\
  (_requestingUpdate e = true -> _node e <> None).

(** ** Commands of a description *)

(** The command a mutator pushes when it runs. *)
Definition command_of (m : Mutation) : list JSval :=
  match m with
  | SetProperty name v => [Opcode Commands.CHANGE_PROPERTY; Str name; v]
  | SetAttribute name v => [Opcode Commands.CHANGE_ATTRIBUTE; Str name; v]
  | SetContent c => [Opcode Commands.CHANGE_CONTENT; Str c]
  | AddClass c => [Opcode Commands.ADD_CLASS; Str c]
  | RemoveClass c => [Opcode Commands.REMOVE_CLASS; Str c]
  | SetCutoutState b => [Opcode Commands.GL_CUTOUT_STATE; Bool b]
  end.

(** The description a mutator leaves when it runs. *)
Definition described (m : Mutation) (s : Spec.t) : Spec.t :=
  match m with
  | SetProperty name v =>
      Spec.with_properties (set name v (Spec.properties s)) s
  | SetAttribute name v =>
      Spec.with_attributes (set name v (Spec.attributes s)) s
  | SetContent c => Spec.with_content c s
  | AddClass c => Spec.with_classes (set c true (Spec.classes s)) s
  | RemoveClass c => Spec.with_classes (set c true (Spec.classes s)) s
  | SetCutoutState b => Spec.with_cutout b s
  end.

(** The guard of a mutator: the new value differs from the stored one, or
    the element is inside [onMount]. *)
Definition guard (m : Mutation) (e : DOMElement) : bool :=
  match m with
  | SetProperty name v =>
      strict_neq (lookup name (Spec.properties (value e))) v || _inDraw e
  | SetAttribute name v =>
      strict_neq (lookup name (Spec.attributes (value e))) v || _inDraw e
  | SetContent c => negb (Spec.content (value e) =? c)%string || _inDraw e
  | AddClass c => negb (flag c (Spec.classes (value e))) || _inDraw e
  | RemoveClass c => flag c (Spec.classes (value e)) || _inDraw e
  | SetCutoutState b => negb (Bool.eqb (Spec.cutout (value e)) b) || _inDraw e
  end.

(** The clearing commands of [reset], loop by loop.  Each loop visits the
    keys in the order in which the object enumerates them. *)
Definition reset_commands (s : Spec.t) : list JSval :=
  flat_map (fun k => [Opcode Commands.REMOVE_CLASS; Str k])
    (keys (Spec.classes s)) ++
  flat_map (fun k => [Opcode Commands.CHANGE_PROPERTY; Str k; Str ""])
    (keys (Spec.properties s)) ++
  flat_map (fun k => [Opcode Commands.CHANGE_ATTRIBUTE; Str k; Str ""])
    (keys (Spec.attributes s)) ++
  (if negb (Spec.content s =? "")%string
   then [Opcode Commands.CHANGE_CONTENT; Str ""] else []) ++
  [Opcode Commands.GL_CUTOUT_STATE; Bool false].

(** The commands with which [onMount] replays a description: the classes
    that are set, the properties and the attributes with a truthy value,
    and the content if there is any.  Each loop visits the keys in the
    order in which the object enumerates them. *)
Definition replay_commands (s : Spec.t) : list JSval :=
  flat_map
    (fun k =>
       if flag k (Spec.classes s)
       then [Opcode Commands.ADD_CLASS; Str k] else [])
    (keys (Spec.classes s)) ++
  flat_map
    (fun k =>
       if truthy (lookup k (Spec.properties s))
       then [Opcode Commands.CHANGE_PROPERTY; Str k;
             lookup k (Spec.properties s)]
       else [])
    (keys (Spec.properties s)) ++
  flat_map
    (fun k =>
       if truthy (lookup k (Spec.attributes s))
       then [Opcode Commands.CHANGE_ATTRIBUTE; Str k;
             lookup k (Spec.attributes s)]
       else [])
    (keys (Spec.attributes s)) ++
  (if negb (Spec.content s =? "")%string
   then [Opcode Commands.CHANGE_CONTENT; Str (Spec.content s)] else []).

(** The size-change command for a node's size and size mode. *)
Definition size_command (node : Node.t) : list JSval :=
  [Opcode Commands.CHANGE_SIZE;
   size_operand (fst (fst (Node.sizeMode node))) (fst (fst (Node.size node)));
   size_operand (snd (fst (Node.sizeMode node))) (snd (fst (Node.size node)))].

(** Everything [onMount] queues, in order. *)
Definition mount_commands (node : Node.t) (s : Spec.t) : list JSval :=
  [Opcode Commands.INIT_DOM; Str (Spec.tagName s)] ++
  replay_commands s ++
  flat_map (fun ev => [Opcode Commands.SUBSCRIBE; Str ev])
    (Node.uiEvents node) ++
  [Opcode Commands.CHANGE_ATTRIBUTE; Str "data-fa-path";
   Str (Node.location node)] ++
  [Opcode Commands.CHANGE_PROPERTY; Str "display"; Str "block"] ++
  size_command node ++
  [Opcode Commands.CHANGE_PROPERTY; Str "opacity";
   Number (Node.opacity node)] ++
  Opcode Commands.CHANGE_TRANSFORM :: map Number (Node.transform node) ++
  size_command node.

(** The description [onMount] leaves: the one it found, with the path
    attribute and the two properties it forces. *)
Definition mounted_description (node : Node.t) (s : Spec.t) : Spec.t :=
  let s :=
    Spec.with_attributes
      (set "data-fa-path" (Str (Node.location node)) (Spec.attributes s)) s in
  let s :=
    Spec.with_properties
      (set "display" (Str "block") (Spec.properties s)) s in
  Spec.with_properties
    (set "opacity" (Number (Node.opacity node)) (Spec.properties s)) s.

(** What a node answers when asked, apart from what it has been sent. *)
Definition node_data (n : Node.t) :=
  (Node.location n, Node.uiEvents n, Node.sizeMode n, Node.opacity n,
   Node.size n, Node.transform n).

(** Inside [onMount] on [node]. *)
Definition mounting_on (node : Node.t) (e : DOMElement) : Prop :=
  _initialized e = true /\ _inDraw e = true /\
  exists n : Node.t, _node e = Some n /\ node_data n = node_data node.

(** ** Stretches of execution *)

(** A stretch of execution that neither drains nor mounts: it keeps the
    mode flags, sends no draw command, keeps the node (up to what it has
    been sent), asks for at most one update, and leaves the measurement
    mark and an empty event list as they are. *)
Definition quiet (e e' : DOMElement) : Prop :=
  _initialized e' = _initialized e /\
  _inDraw e' = _inDraw e /\
  _renderSized e' = _renderSized e /\
  _requestRenderSize e' = _requestRenderSize e /\
  sent e' = sent e /\
  (forall n, _node e = Some n ->
             exists n', _node e' = Some n' /\ node_data n' = node_data n) /\
  (_node e = None -> _node e' = None) /\
  coalesced e e' /\
  (_renderSized e = false ->
   _requestingRenderSize e' = _requestingRenderSize e) /\
  (_UIEvents e = [] -> _UIEvents e' = []).

(** From [e] a quiet stretch has led to [e'], which now has the
    description [s] and has queued [cmds] on top of the queue of [e]. *)
Definition tracks (e e' : DOMElement) (s : Spec.t) (cmds : list JSval)
  : Prop :=
  value e' = s /\ quiet e e' /\ _changeQueue e' = _changeQueue e ++ cmds.

(** ** Calls and what they leave *)

(** The description a mutator call leaves: the one [described], if the
    guard lets the mutator run. *)
Definition mutated (m : Mutation) (e : DOMElement) : Spec.t :=
  if guard m e then described m (value e) else value e.

(** The description each public call leaves behind. *)
Definition description_after (c : Call) (e : DOMElement) : Spec.t :=
  match c with
  | Mutate m => mutated m e
  | SetId id => mutated (SetAttribute "id" id) e
  | OnShow => mutated (SetProperty "display" (Str "block")) e
  | OnHide => mutated (SetProperty "display" (Str "none")) e
  | OnOpacityChange opacity =>
      mutated (SetProperty "opacity" (Number opacity)) e
  | OnReceive event payload =>
      if (event =? "resize")%string
      then Spec.with_renderSize (val_at 0 payload, val_at 1 payload) (value e)
      else value e
  | OnMount node _ => mounted_description node (value e)
  | OnDismount => mutated (SetProperty "display" (Str "none")) e
  | _ => value e
  end.

(** The command of a call that pushes exactly one, on an initialized
    element, and nothing otherwise. *)
Definition guarded_command (c : Call) (e : DOMElement) : option (list JSval) :=
  match c with
  | Mutate m => Some (if guard m e then command_of m else [])
  | SetId id =>
      Some (if guard (SetAttribute "id" id) e
            then command_of (SetAttribute "id" id) else [])
  | OnShow =>
      Some (if guard (SetProperty "display" (Str "block")) e
            then command_of (SetProperty "display" (Str "block")) else [])
  | OnHide =>
      Some (if guard (SetProperty "display" (Str "none")) e
            then command_of (SetProperty "display" (Str "none")) else [])
  | OnOpacityChange opacity =>
      Some (if guard (SetProperty "opacity" (Number opacity)) e
            then command_of (SetProperty "opacity" (Number opacity)) else [])
  | OnAddUIEvent ev => Some [Opcode Commands.SUBSCRIBE; Str ev]
  | PreventDefault ev => Some [Opcode Commands.PREVENT_DEFAULT; Str ev]
  | AllowDefault ev => Some [Opcode Commands.ALLOW_DEFAULT; Str ev]
  | OnRemoveUIEvent ev =>
      Some (match indexOf ev (_UIEvents e) with
            | Some _ => [Opcode Commands.UNSUBSCRIBE; Str ev]
            | None => if _inDraw e
                      then [Opcode Commands.UNSUBSCRIBE; Str ev] else []
            end)
  | OnSizeChange width height =>
      Some (match _node e with
            | Some node =>
                [Opcode Commands.CHANGE_SIZE;
                 size_operand (fst (fst (Node.sizeMode node))) width;
                 size_operand (snd (fst (Node.sizeMode node))) height]
            | None => []
            end)
  | OnSizeModeChange _ _ _ =>
      Some (match _node e with
            | Some node => size_command node
            | None => []
            end)
  | On _ _ | OnReceive _ _ => Some []
  | OnTransformChange _ | OnUpdate | OnMount _ _ | OnDismount => None
  end.

(** The burst of a drain: nothing for an empty queue; otherwise the scope
    prefix, the queue, and the measurement request if it is marked. *)
Definition burst (location : string) (queue : list JSval) (measure : bool)
  : list JSval :=
  match queue with
  | [] => []
  | _ :: _ =>
      [Opcode Commands.WITH; Str location] ++ queue ++
      (if measure
       then [Opcode Commands.DOM_RENDER_SIZE; Str location] else [])
  end.

(** The calls that are no setters and write no part of the description:
    the drain, the geometry hooks, the event calls, and the delivery of
    any event but ['resize']. *)
Definition keeps_description (c : Call) : bool :=
  match c with
  | OnUpdate | OnTransformChange _ | OnSizeChange _ _
  | OnSizeModeChange _ _ _ | OnAddUIEvent _ | OnRemoveUIEvent _
  | PreventDefault _ | AllowDefault _ | On _ _ => true
  | OnReceive event _ => negb (event =? "resize")%string
  | _ => false
  end.


(** ** Proof steps *)

(** Split an element into its fields and the cases of the flags that the
    mutators test. *)
Ltac run_mutator :=
  unfold _requestUpdate, push;
  match goal with
  | e : DOMElement |- _ =>
      let n := fresh "n" in
      let ru := fresh "ru" in
      let rs := fresh "rs" in
      let ini := fresh "ini" in
      destruct e as [n ? ru rs ? ? ini ? ? ? ? ?];
      simpl in *; destruct n, ru, rs, ini; simpl
  end.

(** Close the clauses of [quiet] once the element is split. *)
Ltac solve_quiet :=
  unfold quiet, coalesced, sent, requests; simpl;
  repeat split; auto; try discriminate;
  try (intros ? [= <-]; eexists; split; reflexivity).

(** ** Maps and values *)

Section ObjFacts.

Context {V : Type}.

Lemma get_overwrite_same (k : string) (v : V) (o : Obj V) :
  get k o <> None -> get k (overwrite k v o) = Some v.
Proof.
  induction o as [|[k' v'] o IH]; simpl; [congruence|].
  destruct (k' =? k)%string eqn:E; simpl; rewrite E; auto.
Qed.

Lemma get_overwrite_other (k k' : string) (v : V) (o : Obj V) :
  k <> k' -> get k' (overwrite k v o) = get k' o.
Proof.
  intros Hk. induction o as [|[k0 v0] o IH]; simpl; [reflexivity|].
  destruct (k0 =? k)%string eqn:E; simpl.
  - apply String.eqb_eq in E. subst k0.
    destruct (k =? k')%string eqn:E'; [|reflexivity].
    apply String.eqb_eq in E'. contradiction.
  - now rewrite IH.
Qed.

Lemma overwrite_same (k : string) (v : V) (o : Obj V) :
  get k o = Some v -> overwrite k v o = o.
Proof.
  induction o as [|[k' v'] o IH]; simpl; [reflexivity|].
  destruct (k' =? k)%string.
  - now intros [= ->].
  - intros H. now rewrite IH.
Qed.

Lemma keys_overwrite (k : string) (v : V) (o : Obj V) :
  keys (overwrite k v o) = keys o.
Proof.
  unfold keys. induction o as [|[k' v'] o IH]; simpl; [reflexivity|].
  destruct (k' =? k)%string; simpl; congruence.
Qed.

Lemma get_insert_index (i : N) (k k' : string) (v : V) (o : Obj V) :
  get k o = None ->
  get k' (insert_index i k v o) = if (k =? k')%string then Some v else get k' o.
Proof.
  induction o as [|[k0 v0] o IH]; simpl; intros H.
  - reflexivity.
  - destruct (k0 =? k)%string eqn:E0; [discriminate|].
    destruct (array_index k0) as [j|]; [destruct (j <? i)%N|]; simpl;
      try reflexivity.
    rewrite IH by exact H.
    destruct (k =? k')%string eqn:E; [|reflexivity].
    apply String.eqb_eq in E. subst k'. now rewrite E0.
Qed.

Lemma get_app_last (k k' : string) (v : V) (o : Obj V) :
  get k o = None ->
  get k' (o ++ [(k, v)]) = if (k =? k')%string then Some v else get k' o.
Proof.
  induction o as [|[k0 v0] o IH]; simpl; intros H.
  - reflexivity.
  - destruct (k0 =? k)%string eqn:E0; [discriminate|].
    rewrite IH by exact H.
    destruct (k0 =? k')%string eqn:E1; [|reflexivity].
    destruct (k =? k')%string eqn:E; [|reflexivity].
    apply String.eqb_eq in E, E1. subst. now rewrite String.eqb_refl in E0.
Qed.

Lemma get_create (k k' : string) (v : V) (o : Obj V) :
  get k o = None ->
  get k' (create k v o) = if (k =? k')%string then Some v else get k' o.
Proof.
  intros H. unfold create. destruct (array_index k).
  - now apply get_insert_index.
  - now apply get_app_last.
Qed.

Lemma keys_insert_index (i : N) (k k' : string) (v : V) (o : Obj V) :
  In k' (keys (insert_index i k v o)) <-> k' = k \/ In k' (keys o).
Proof.
  unfold keys. induction o as [|[k0 v0] o IH]; simpl.
  - split; [intros [H|[]]; auto | intros [H|[]]; auto].
  - destruct (array_index k0) as [j|]; [destruct (j <? i)%N|]; simpl;
      rewrite ?IH; intuition auto.
Qed.

Lemma keys_create (k k' : string) (v : V) (o : Obj V) :
  In k' (keys (create k v o)) <-> k' = k \/ In k' (keys o).
Proof.
  unfold create. destruct (array_index k).
  - apply keys_insert_index.
  - unfold keys. rewrite map_app, in_app_iff. simpl. intuition auto.
Qed.

(** Reading back what was written, where the write stores. *)
Lemma get_set_same (k : string) (v : V) (o : Obj V) :
  storable k o -> get k (set k v o) = Some v.
Proof.
  unfold storable, set. intros S. destruct (get k o) eqn:G.
  - apply get_overwrite_same. congruence.
  - destruct (k =? "__proto__")%string eqn:E.
    + apply String.eqb_eq in E. destruct S; congruence.
    + rewrite get_create by exact G. now rewrite String.eqb_refl.
Qed.

Lemma get_set_other (k k' : string) (v : V) (o : Obj V) :
  k <> k' -> get k' (set k v o) = get k' o.
Proof.
  intros Hk. unfold set. destruct (get k o) eqn:G.
  - now apply get_overwrite_other.
  - destruct (k =? "__proto__")%string; [reflexivity|].
    rewrite get_create by exact G.
    destruct (k =? k')%string eqn:E; [|reflexivity].
    apply String.eqb_eq in E. contradiction.
Qed.

(** A write under [__proto__] that the object does not own is lost. *)
Lemma set_proto (v : V) (o : Obj V) :
  get "__proto__" o = None -> set "__proto__" v o = o.
Proof. unfold set. now intros ->. Qed.

Lemma set_get_id (k : string) (v : V) (o : Obj V) :
  get k o = Some v -> set k v o = o.
Proof. intros H. unfold set. rewrite H. now apply overwrite_same. Qed.

Lemma keys_set_present (k : string) (v : V) (o : Obj V) :
  get k o <> None -> keys (set k v o) = keys o.
Proof.
  intros H. unfold set. destruct (get k o); [|congruence].
  apply keys_overwrite.
Qed.

Lemma keys_set_incl (k k' : string) (v : V) (o : Obj V) :
  In k' (keys o) -> In k' (keys (set k v o)).
Proof.
  intros H. unfold set. destruct (get k o).
  - now rewrite keys_overwrite.
  - destruct (k =? "__proto__")%string; [exact H|].
    apply keys_create. auto.
Qed.

Lemma get_keys (k : string) (o : Obj V) :
  In k (keys o) <-> get k o <> None.
Proof.
  unfold keys. induction o as [|[k' v'] o IH]; simpl.
  - split; [tauto | congruence].
  - destruct (k' =? k)%string eqn:E.
    + apply String.eqb_eq in E. split; [discriminate | auto].
    + apply String.eqb_neq in E. rewrite <- IH. split; [|tauto].
      intros [H|H]; [contradiction | exact H].
Qed.

Lemma enumerated_plain (ks : list string) :
  forallb plain ks = true -> enumerated ks = true.
Proof.
  induction ks as [|k ks IH]; cbn [forallb enumerated]; [reflexivity|].
  unfold plain at 1. destruct (array_index k); [discriminate|]. now intros H.
Qed.

Lemma enumerated_app_plain (ks : list string) (k : string) :
  array_index k = None -> enumerated ks = true -> enumerated (ks ++ [k]) = true.
Proof.
  intros Hk. induction ks as [|k' ks IH].
  - cbn [app enumerated forallb]. now rewrite Hk.
  - rewrite <- app_comm_cons. cbn [enumerated].
    destruct (array_index k').
    + rewrite forallb_app. cbn [forallb]. rewrite Hk.
      intros H. apply andb_true_iff in H. destruct H as (-> & H).
      cbn [andb]. now apply IH.
    + rewrite forallb_app. cbn [forallb]. intros ->.
      unfold plain. now rewrite Hk.
Qed.

Lemma keys_insert_index_eq (i : N) (k : string) (v : V) (o : Obj V) :
  exists l1 l2,
    keys o = l1 ++ l2 /\ keys (insert_index i k v o) = l1 ++ k :: l2 /\
    forallb
      (fun k' =>
         match array_index k' with Some j => (j <? i)%N | None => false end)
      l1 = true /\
    match l2 with
    | [] => True
    | k' :: _ =>
        match array_index k' with Some j => (i <= j)%N | None => True end
    end.
Proof.
  unfold keys. induction o as [|[k' v'] o IH]; cbn [insert_index map fst].
  - exists [], []. auto.
  - destruct (array_index k') as [j|] eqn:E.
    + destruct (j <? i)%N eqn:L.
      * destruct IH as (l1 & l2 & H1 & H2 & H3 & H4).
        exists (k' :: l1), l2. cbn [forallb map fst app]. rewrite E, L, H1, H2.
        auto.
      * exists [], (k' :: map fst o). cbn [forallb map fst app]. rewrite E.
        apply N.ltb_ge in L. auto.
    + exists [], (k' :: map fst o). cbn [forallb map fst app]. rewrite E. auto.
Qed.

Lemma enumerated_insert (i : N) (k : string) (l1 l2 : list string) :
  array_index k = Some i ->
  forallb
    (fun k' =>
       match array_index k' with Some j => (j <? i)%N | None => false end)
    l1 = true ->
  match l2 with
  | [] => True
  | k' :: _ =>
      match array_index k' with Some j => (i <= j)%N | None => True end
  end ->
  enumerated (l1 ++ l2) = true -> enumerated (l1 ++ k :: l2) = true.
Proof.
  intros Hk. induction l1 as [|a l1 IH]; cbn [app forallb].
  - intros _ H2 E. cbn [enumerated]. rewrite Hk, E, andb_true_r.
    destruct l2 as [|b l2]; [reflexivity|]. cbn [enumerated forallb] in *.
    destruct (array_index b) as [j|] eqn:Eb.
    + apply andb_true_iff in E. destruct E as (E1 & E2).
      apply andb_true_iff. split; [now apply N.leb_le|].
      rewrite forallb_forall in *. intros x Hx. specialize (E1 x Hx).
      destruct (array_index x); [|reflexivity].
      apply N.leb_le in E1. apply N.leb_le. lia.
    + cbn [andb]. rewrite forallb_forall in *. intros x Hx.
      specialize (E x Hx). unfold plain in E.
      destruct (array_index x); [discriminate|reflexivity].
  - cbn [enumerated]. destruct (array_index a) as [j|] eqn:Ea; [|discriminate].
    intros H1 H2 E. apply andb_true_iff in H1. destruct H1 as (Hj & H1).
    apply andb_true_iff in E. destruct E as (E1 & E2).
    apply andb_true_iff. split; [|now apply IH].
    rewrite forallb_app in *. apply andb_true_iff in E1. destruct E1 as (A & B).
    apply andb_true_iff. split; [exact A|]. cbn [forallb]. rewrite Hk, B.
    apply N.ltb_lt in Hj. replace (j <=? i)%N with true; [reflexivity|].
    symmetry. apply N.leb_le. lia.
Qed.

(** A write keeps the keys in the order of enumeration, and creates no key
    twice: the list stays the one that [for (key in o)] visits. *)
Lemma set_enumerated (k : string) (v : V) (o : Obj V) :
  enumerated (keys o) = true -> enumerated (keys (set k v o)) = true.
Proof.
  intros E. unfold set. destruct (get k o) eqn:G.
  - now rewrite keys_overwrite.
  - destruct (k =? "__proto__")%string; [exact E|].
    unfold create. destruct (array_index k) as [i|] eqn:Hk.
    + destruct (keys_insert_index_eq i k v o) as (l1 & l2 & H1 & H2 & H3 & H4).
      rewrite H2. rewrite H1 in E. now apply (enumerated_insert i).
    + unfold keys. rewrite map_app. now apply enumerated_app_plain.
Qed.

Lemma set_NoDup (k : string) (v : V) (o : Obj V) :
  NoDup (keys o) -> NoDup (keys (set k v o)).
Proof.
  intros D. unfold set. destruct (get k o) eqn:G.
  - now rewrite keys_overwrite.
  - destruct (k =? "__proto__")%string; [exact D|].
    assert (N : ~ In k (keys o)) by (rewrite get_keys; tauto).
    unfold create. destruct (array_index k) as [i|] eqn:Hk.
    + destruct (keys_insert_index_eq i k v o) as (l1 & l2 & H1 & H2 & _).
      rewrite H2. rewrite H1 in D, N.
      apply (NoDup_Add (Add_app k l1 l2)). auto.
    + unfold keys in *. rewrite map_app. simpl.
      apply (NoDup_Add (Add_app k (map fst o) [])).
      rewrite app_nil_r. auto.
Qed.
End ObjFacts.

Lemma flag_set_true (k : string) (o : Obj bool) : flag k (set k true o) = true.
Proof.
  unfold flag, set. destruct (get k o) eqn:G.
  - rewrite get_overwrite_same; congruence.
  - destruct (k =? "__proto__")%string eqn:E.
    + rewrite G. apply String.eqb_eq in E. now subst.
    + rewrite get_create by exact G. now rewrite String.eqb_refl.
Qed.

Lemma lookup_set_same (k : string) (v : JSval) (o : Obj JSval) :
  storable k o -> lookup k (set k v o) = v.
Proof. intros S. unfold lookup. now rewrite get_set_same. Qed.

(** Every value but [NaN] equals itself. *)
Lemma strict_eq_refl (v : JSval) : v <> NaN -> strict_eq v v = true.
Proof.
  destruct v; simpl; trivial; try congruence; intros _.
  - apply Bool.eqb_reflx.
  - apply Z.eqb_refl.
  - apply String.eqb_refl.
  - unfold Commands.eqb. destruct (Commands.eq_dec c c); congruence.
  - apply String.eqb_refl.
Qed.

Lemma strict_neq_refl (v : JSval) : v <> NaN -> strict_neq v v = false.
Proof. intros H. unfold strict_neq. now rewrite strict_eq_refl. Qed.

Lemma toInt32_int32 (z : Z) : int32 z -> toInt32 z = z.
Proof.
  unfold int32, toInt32. intros H.
  rewrite Z.mod_small; lia.
Qed.

Lemma toInt32_range (z : Z) : int32 (toInt32 z).
Proof.
  unfold int32, toInt32.
  pose proof (Z.mod_pos_bound (z + 2 ^ 31) (2 ^ 32) ltac:(lia)). lia.
Qed.

(** ** Scheduling facts *)

Lemma _requestUpdate_no_node (e : DOMElement) :
  _node e = None -> _requestUpdate e = e.
Proof.
  intros H. unfold _requestUpdate. rewrite H.
  now destruct (negb (_requestingUpdate e)).
Qed.

Lemma _requestUpdate_pending (e : DOMElement) :
  _requestingUpdate e = true -> _requestUpdate e = e.
Proof. intros H. unfold _requestUpdate. now rewrite H. Qed.

(** What [if (!this._requestingUpdate) this._requestUpdate()] does when a
    node is bound: afterwards a request is outstanding, and the node has
    received one exactly when none was outstanding before. *)
Lemma arm_with_node (e : DOMElement) (n : Node.t) :
  _node e = Some n ->
  let e' := if negb (_requestingUpdate e) then _requestUpdate e else e in
  _requestingUpdate e' = true /\
  requests e' =
    (if _requestingUpdate e then requests e else requests e ++ [_id e]) /\
  sent e' = sent e /\
  _changeQueue e' = _changeQueue e /\ value e' = value e /\
  _initialized e' = _initialized e /\ _inDraw e' = _inDraw e /\
  _id e' = _id e.
Proof.
  intros H. unfold _requestUpdate, requests, sent. destruct e; simpl in *.
  subst. destruct _requestingUpdate0; simpl; repeat split; reflexivity.
Qed.

(** ** Class removal *)

(** C1 (the code departs from the claim): [removeClass(c)] writes [true]
    under [c], the same write as [addClass].  Whenever its guard lets it
    run (the class is present, or the element is inside [onMount]), the
    class is still present afterwards: [hasClass(c)] answers [true], not
    [false]. *)
Theorem removeClass_leaves_class_present (c : string) (e : DOMElement) :
  hasClass c e || _inDraw e = true ->
  hasClass c (removeClass c e) = true.
Proof.
  intros H. unfold removeClass, hasClass in *. rewrite H.
  assert (G : forall e', value e' =
              Spec.with_classes (set c true (Spec.classes (value e))) (value e) ->
              flag c (Spec.classes (value e')) = true).
  { intros e' ->. simpl. apply flag_set_true. }
  apply G. unfold _requestUpdate, push.
  destruct e; simpl. destruct _initialized0, _requestingUpdate0, _node0;
    reflexivity.
Qed.

Lemma removeClass_leaves_class_present_witness :
  hasClass "famous-dom-element" detached || _inDraw detached = true /\
  hasClass "famous-dom-element" (removeClass "famous-dom-element" detached)
  = true.
Proof.
  split; [reflexivity|].
  apply (removeClass_leaves_class_present "famous-dom-element" detached).
  reflexivity.
Defined.

(** ** The cutout mutator *)

(** [setCutoutState] leaves the node and the request flag alone. *)
Lemma setCutoutState_leaves_schedule
  (usesCutout : bool) (e : DOMElement) :
  _node (setCutoutState usesCutout e) = _node e /\
  requests (setCutoutState usesCutout e) = requests e /\
  _requestingUpdate (setCutoutState usesCutout e) = _requestingUpdate e.
Proof.
  unfold requests, setCutoutState, _requestUpdate, push.
  destruct e; simpl.
  destruct (negb (Bool.eqb (Spec.cutout value0) usesCutout) || _inDraw0);
    simpl; [|auto].
  destruct _initialized0, _requestingUpdate0; simpl; auto.
Qed.

(** ** Subscriptions *)

(** C6 (the code departs from the claim): [onAddUIEvent] only calls
    [_subscribe], which never writes [_UIEvents].  The name is not
    recorded, and a later [onRemoveUIEvent] of it outside [onMount] does
    not find it: it emits no unsubscribe command and changes nothing. *)
Theorem onAddUIEvent_records_nothing (uiEvent : string) (e : DOMElement) :
  indexOf uiEvent (_UIEvents e) = None ->
  _inDraw e = false ->
  _UIEvents (onAddUIEvent uiEvent e) = _UIEvents e /\
  onRemoveUIEvent uiEvent (onAddUIEvent uiEvent e) = onAddUIEvent uiEvent e.
Proof.
  intros Hi Hd.
  assert (K : _UIEvents (onAddUIEvent uiEvent e) = _UIEvents e /\
              _inDraw (onAddUIEvent uiEvent e) = _inDraw e).
  { unfold onAddUIEvent, _subscribe, _requestUpdate, push.
    destruct e; simpl.
    destruct _initialized0, _requestingUpdate0, _node0; simpl; auto. }
  destruct K as [K1 K2]. split; [exact K1|].
  unfold onRemoveUIEvent. now rewrite K1, Hi, K2, Hd.
Qed.

Lemma onAddUIEvent_records_nothing_witness :
  _UIEvents (onAddUIEvent "click" mounted) = [] /\
  _changeQueue (onRemoveUIEvent "click" (onAddUIEvent "click" mounted))
  = [Opcode Commands.SUBSCRIBE; Str "click"].
Proof.
  destruct (onAddUIEvent_records_nothing "click" mounted eq_refl eq_refl)
    as [H1 H2].
  split.
  - rewrite H1. reflexivity.
  - rewrite H2. reflexivity.
Defined.

(** ** Pushing without a mount *)

Lemma push_push (a b : list JSval) (e : DOMElement) :
  push b (push a e) = push (a ++ b) e.
Proof. unfold push, with_changeQueue. simpl. now rewrite app_assoc. Qed.

Lemma push_nil (e : DOMElement) : push [] e = e.
Proof. unfold push, with_changeQueue. rewrite app_nil_r. now destruct e. Qed.

(** A loop that pushes one command per element pushes their
    concatenation. *)
Lemma fold_left_push {A : Type} (f : A -> list JSval) (l : list A)
  (e : DOMElement) :
  fold_left (fun e x => push (f x) e) l e = push (flat_map f l) e.
Proof.
  revert e. induction l as [|x l IH]; intros e; simpl.
  - symmetry. apply push_nil.
  - now rewrite IH, push_push.
Qed.

Lemma reset_pushes (e : DOMElement) :
  exists q : list JSval,
    reset e = push (q ++ [Opcode Commands.GL_CUTOUT_STATE; Bool false]) e.
Proof.
  unfold reset.
  rewrite (fold_left_push
             (fun k => [Opcode Commands.REMOVE_CLASS; Str k])).
  set (e1 := push _ e).
  assert (V1 : value e1 = value e) by reflexivity. rewrite V1.
  rewrite (fold_left_push
             (fun k => [Opcode Commands.CHANGE_PROPERTY; Str k; Str ""])).
  set (e2 := push _ e1).
  assert (V2 : value e2 = value e) by reflexivity. rewrite V2.
  rewrite (fold_left_push
             (fun k => [Opcode Commands.CHANGE_ATTRIBUTE; Str k; Str ""])).
  set (e3 := push _ e2).
  assert (V3 : value e3 = value e) by reflexivity. rewrite V3.
  subst e3 e2 e1. rewrite !push_push.
  destruct (negb (Spec.content (value e) =? "")%string);
    rewrite !push_push; eexists; reflexivity.
Qed.

Lemma onTransformChange_pushes (transform : list Z) (e : DOMElement) :
  onTransformChange transform e =
  let e' := push (Opcode Commands.CHANGE_TRANSFORM :: map Number transform) e in
  if negb (_requestingUpdate e') then _requestUpdate e' else e'.
Proof.
  unfold onTransformChange.
  rewrite (fold_left_push (fun x => [Number x])), push_push.
  simpl. replace (flat_map (fun x => [Number x]) transform)
    with (map Number transform); [reflexivity|].
  induction transform; simpl; congruence.
Qed.

(** C4 (the code departs from the claim): [onTransformChange] and [reset]
    push without looking at [_initialized], unlike [onSizeChange] and the
    mutators.  On an element that is not initialized, [onTransformChange]
    appends the transform command with all its scalars and [reset] appends
    at least the cutout command, and the element stays uninitialized. *)
Theorem uninitialized_pushes (transform : list Z) (e : DOMElement) :
  _initialized e = false ->
  (_changeQueue (onTransformChange transform e) =
     _changeQueue e ++ Opcode Commands.CHANGE_TRANSFORM :: map Number transform
   /\ _initialized (onTransformChange transform e) = false) /\
  ((exists q : list JSval,
      _changeQueue (reset e) =
        _changeQueue e ++ q ++ [Opcode Commands.GL_CUTOUT_STATE; Bool false])
   /\ _initialized (reset e) = false).
Proof.
  intros Hi. split.
  - rewrite onTransformChange_pushes. unfold _requestUpdate, push.
    destruct e; simpl in *.
    destruct _requestingUpdate0, _node0; simpl; auto.
  - destruct (reset_pushes e) as [q Hq]. rewrite Hq. split.
    + exists q. reflexivity.
    + exact Hi.
Qed.

Lemma uninitialized_pushes_witness :
  _initialized detached = false /\
  _changeQueue (onTransformChange [1; 0; 0; 1] detached) =
    [Opcode Commands.CHANGE_TRANSFORM; Number 1; Number 0; Number 0; Number 1].
Proof.
  split; [reflexivity|].
  exact (proj1 (proj1 (uninitialized_pushes [1; 0; 0; 1] detached eq_refl))).
Defined.

(** ** Dismounting a detached element *)

Lemma setProperty_no_node (name : string) (v : JSval) (e : DOMElement) :
  _node e = None -> _node (setProperty name v e) = None.
Proof.
  intros H. unfold setProperty, _requestUpdate, push.
  destruct e; simpl in *. subst.
  destruct (strict_neq _ _ || _inDraw0); simpl; [|reflexivity].
  destruct _initialized0, _renderSized0, _requestingUpdate0; reflexivity.
Qed.

(** C5 (the code departs from the claim): [onDismount] ends in [onUpdate],
    which calls [node.getLocation()] before it tests [node].  On an element
    with no node bound the call throws: dismounting a detached element
    faults instead of doing nothing. *)
Theorem onDismount_detached_throws (e : DOMElement) :
  _node e = None -> onDismount e = TypeError.
Proof.
  intros H. unfold onDismount.
  assert (N : _node (setProperty "display" (Str "none") (reset e)) = None).
  { apply setProperty_no_node.
    destruct (reset_pushes e) as [q ->]. exact H. }
  unfold onUpdate, bind. now rewrite N.
Qed.

Lemma onDismount_detached_throws_witness :
  _node detached = None /\ _initialized detached = false /\
  onDismount detached = TypeError.
Proof.
  split; [reflexivity|]. split; [reflexivity|].
  apply (onDismount_detached_throws detached). reflexivity.
Defined.

(** ** Repeating a mutator *)

(** What a mutator whose guard holds leaves behind: the new description,
    the same mode, and the queue with at most its one command appended. *)
Lemma setProperty_runs (name : string) (v : JSval) (e : DOMElement) :
  strict_neq (lookup name (Spec.properties (value e))) v || _inDraw e = true ->
  value (setProperty name v e) =
    Spec.with_properties (set name v (Spec.properties (value e))) (value e) /\
  _inDraw (setProperty name v e) = _inDraw e /\
  _changeQueue (setProperty name v e) =
    _changeQueue e ++
    (if _initialized e
     then [Opcode Commands.CHANGE_PROPERTY; Str name; v] else []).
Proof.
  intros G. unfold setProperty. rewrite G. clear G.
  run_mutator; rewrite ?app_nil_r; auto.
Qed.

Lemma setAttribute_runs (name : string) (v : JSval) (e : DOMElement) :
  strict_neq (lookup name (Spec.attributes (value e))) v || _inDraw e = true ->
  value (setAttribute name v e) =
    Spec.with_attributes (set name v (Spec.attributes (value e))) (value e) /\
  _inDraw (setAttribute name v e) = _inDraw e /\
  _changeQueue (setAttribute name v e) =
    _changeQueue e ++
    (if _initialized e
     then [Opcode Commands.CHANGE_ATTRIBUTE; Str name; v] else []).
Proof.
  intros G. unfold setAttribute. rewrite G. clear G.
  run_mutator; rewrite ?app_nil_r; auto.
Qed.

Lemma setContent_runs (content : string) (e : DOMElement) :
  negb (Spec.content (value e) =? content)%string || _inDraw e = true ->
  value (setContent content e) = Spec.with_content content (value e) /\
  _inDraw (setContent content e) = _inDraw e /\
  _changeQueue (setContent content e) =
    _changeQueue e ++
    (if _initialized e
     then [Opcode Commands.CHANGE_CONTENT; Str content] else []).
Proof.
  intros G. unfold setContent. rewrite G. clear G.
  run_mutator; rewrite ?app_nil_r; auto.
Qed.

Lemma addClass_runs (c : string) (e : DOMElement) :
  negb (flag c (Spec.classes (value e))) || _inDraw e = true ->
  value (addClass c e) =
    Spec.with_classes (set c true (Spec.classes (value e))) (value e) /\
  _inDraw (addClass c e) = _inDraw e /\
  _changeQueue (addClass c e) =
    _changeQueue e ++
    (if _initialized e then [Opcode Commands.ADD_CLASS; Str c] else []).
Proof.
  intros G. unfold addClass. rewrite G. clear G.
  run_mutator; rewrite ?app_nil_r; auto.
Qed.

Lemma setCutoutState_runs (b : bool) (e : DOMElement) :
  negb (Bool.eqb (Spec.cutout (value e)) b) || _inDraw e = true ->
  value (setCutoutState b e) = Spec.with_cutout b (value e) /\
  _inDraw (setCutoutState b e) = _inDraw e /\
  _changeQueue (setCutoutState b e) =
    _changeQueue e ++
    (if _initialized e then [Opcode Commands.GL_CUTOUT_STATE; Bool b] else []).
Proof.
  intros G. unfold setCutoutState. rewrite G. clear G.
  run_mutator; rewrite ?app_nil_r; auto.
Qed.

(** C3 (the code departs from the claim): [setCutoutState] tests
    [this._requestingUpdate] where every other mutator tests its negation,
    and [_requestUpdate] does nothing once a request is outstanding.  So a
    call with a new value, made while no request is outstanding, stores
    the value and queues its command (on an initialized element) but
    issues no scheduling request: the node and its log of requests are as
    before, and still no request is outstanding. *)
Theorem setCutoutState_never_requests_update
  (usesCutout : bool) (e : DOMElement) :
  Spec.cutout (value e) <> usesCutout ->
  _requestingUpdate e = false ->
  let e' := setCutoutState usesCutout e in
  Spec.cutout (value e') = usesCutout /\
  _changeQueue e' =
    _changeQueue e ++
    (if _initialized e
     then [Opcode Commands.GL_CUTOUT_STATE; Bool usesCutout] else []) /\
  _node e' = _node e /\
  requests e' = requests e /\
  _requestingUpdate e' = false.
Proof.
  intros Hc Hu e'.
  destruct (setCutoutState_leaves_schedule usesCutout e) as (N & R & U).
  assert (G : negb (Bool.eqb (Spec.cutout (value e)) usesCutout)
              || _inDraw e = true).
  { destruct (Spec.cutout (value e)), usesCutout; simpl; congruence. }
  destruct (setCutoutState_runs usesCutout e G) as (V & _ & Q).
  subst e'. rewrite V, Q, N, R, U, Hu. repeat split; reflexivity.
Qed.

Lemma setCutoutState_never_requests_update_witness :
  Spec.cutout (value mounted) <> false /\
  _requestingUpdate mounted = false /\
  _changeQueue (setCutoutState false mounted) =
    [Opcode Commands.GL_CUTOUT_STATE; Bool false] /\
  requests (setCutoutState false mounted) = requests mounted /\
  _requestingUpdate (setCutoutState false mounted) = false.
Proof.
  split; [discriminate|]. split; [reflexivity|].
  destruct (setCutoutState_never_requests_update false mounted)
    as (_ & Q & _ & R & U); [discriminate | reflexivity |].
  split; [exact Q|]. split; [exact R | exact U].
Defined.

(** The first call either did nothing or established the value; in both
    cases the guard of the second call fails, provided the value can be
    stored and equals itself. *)

Lemma setProperty_twice (name : string) (v : JSval) (e : DOMElement) :
  _inDraw e = false ->
  v <> NaN ->
  storable name (Spec.properties (value e)) ->
  setProperty name v (setProperty name v e) = setProperty name v e.
Proof.
  intros Hd Hv Hs.
  destruct (strict_neq (lookup name (Spec.properties (value e))) v || _inDraw e) eqn:G.
  - destruct (setProperty_runs name v e G) as (V & D & _).
    unfold setProperty at 1. rewrite V, D, Hd. simpl.
    now rewrite lookup_set_same, strict_neq_refl.
  - unfold setProperty. now rewrite !G.
Qed.

Lemma setProperty_queue (name : string) (v : JSval) (e : DOMElement) :
  at_most_one_command [Opcode Commands.CHANGE_PROPERTY; Str name; v]
    (_changeQueue e) (_changeQueue (setProperty name v e)).
Proof.
  unfold at_most_one_command.
  destruct (strict_neq (lookup name (Spec.properties (value e))) v || _inDraw e) eqn:G.
  - destruct (setProperty_runs name v e G) as (_ & _ & Q). rewrite Q.
    destruct (_initialized e); rewrite ?app_nil_r; auto.
  - left. unfold setProperty. now rewrite G.
Qed.

Lemma setAttribute_twice (name : string) (v : JSval) (e : DOMElement) :
  _inDraw e = false ->
  v <> NaN ->
  storable name (Spec.attributes (value e)) ->
  setAttribute name v (setAttribute name v e) = setAttribute name v e.
Proof.
  intros Hd Hv Hs.
  destruct (strict_neq (lookup name (Spec.attributes (value e))) v || _inDraw e) eqn:G.
  - destruct (setAttribute_runs name v e G) as (V & D & _).
    unfold setAttribute at 1. rewrite V, D, Hd. simpl.
    now rewrite lookup_set_same, strict_neq_refl.
  - unfold setAttribute. now rewrite !G.
Qed.

Lemma setAttribute_queue (name : string) (v : JSval) (e : DOMElement) :
  at_most_one_command [Opcode Commands.CHANGE_ATTRIBUTE; Str name; v]
    (_changeQueue e) (_changeQueue (setAttribute name v e)).
Proof.
  unfold at_most_one_command.
  destruct (strict_neq (lookup name (Spec.attributes (value e))) v || _inDraw e) eqn:G.
  - destruct (setAttribute_runs name v e G) as (_ & _ & Q). rewrite Q.
    destruct (_initialized e); rewrite ?app_nil_r; auto.
  - left. unfold setAttribute. now rewrite G.
Qed.

Lemma setContent_twice (content : string) (e : DOMElement) :
  _inDraw e = false ->
  setContent content (setContent content e) = setContent content e.
Proof.
  intros Hd.
  destruct (negb (Spec.content (value e) =? content)%string || _inDraw e) eqn:G.
  - destruct (setContent_runs content e G) as (V & D & _).
    unfold setContent at 1. rewrite V, D, Hd. simpl.
    now rewrite String.eqb_refl.
  - unfold setContent. now rewrite !G.
Qed.

Lemma setContent_queue (content : string) (e : DOMElement) :
  at_most_one_command [Opcode Commands.CHANGE_CONTENT; Str content]
    (_changeQueue e) (_changeQueue (setContent content e)).
Proof.
  unfold at_most_one_command.
  destruct (negb (Spec.content (value e) =? content)%string || _inDraw e) eqn:G.
  - destruct (setContent_runs content e G) as (_ & _ & Q). rewrite Q.
    destruct (_initialized e); rewrite ?app_nil_r; auto.
  - left. unfold setContent. now rewrite G.
Qed.

Lemma addClass_twice (c : string) (e : DOMElement) :
  _inDraw e = false ->
  addClass c (addClass c e) = addClass c e.
Proof.
  intros Hd.
  destruct (negb (flag c (Spec.classes (value e))) || _inDraw e) eqn:G.
  - destruct (addClass_runs c e G) as (V & D & _).
    unfold addClass at 1. rewrite V, D, Hd. simpl.
    now rewrite flag_set_true.
  - unfold addClass. now rewrite !G.
Qed.

Lemma addClass_queue (c : string) (e : DOMElement) :
  at_most_one_command [Opcode Commands.ADD_CLASS; Str c]
    (_changeQueue e) (_changeQueue (addClass c e)).
Proof.
  unfold at_most_one_command.
  destruct (negb (flag c (Spec.classes (value e))) || _inDraw e) eqn:G.
  - destruct (addClass_runs c e G) as (_ & _ & Q). rewrite Q.
    destruct (_initialized e); rewrite ?app_nil_r; auto.
  - left. unfold addClass. now rewrite G.
Qed.

Lemma setCutoutState_twice (b : bool) (e : DOMElement) :
  _inDraw e = false ->
  setCutoutState b (setCutoutState b e) = setCutoutState b e.
Proof.
  intros Hd.
  destruct (negb (Bool.eqb (Spec.cutout (value e)) b) || _inDraw e) eqn:G.
  - destruct (setCutoutState_runs b e G) as (V & D & _).
    unfold setCutoutState at 1. rewrite V, D, Hd. simpl.
    now rewrite Bool.eqb_reflx.
  - unfold setCutoutState. now rewrite !G.
Qed.

Lemma setCutoutState_queue (b : bool) (e : DOMElement) :
  at_most_one_command [Opcode Commands.GL_CUTOUT_STATE; Bool b]
    (_changeQueue e) (_changeQueue (setCutoutState b e)).
Proof.
  unfold at_most_one_command.
  destruct (negb (Bool.eqb (Spec.cutout (value e)) b) || _inDraw e) eqn:G.
  - destruct (setCutoutState_runs b e G) as (_ & _ & Q). rewrite Q.
    destruct (_initialized e); rewrite ?app_nil_r; auto.
  - left. unfold setCutoutState. now rewrite G.
Qed.

(** C7 (as amended): outside [onMount] ([_inDraw] is false), calling a
    mutator twice in succession with the same arguments enqueues at most
    one command in total, and the second call changes nothing: the element
    after two calls is the element after one.  This holds for
    [setContent], [addClass] and [setCutoutState] with every argument, and
    for [setProperty] and [setAttribute] when the value is not [NaN] and
    the write is stored (the name is not [__proto__], or the map owns
    it). *)
Theorem mutators_idempotent (e : DOMElement) :
  _inDraw e = false ->
  (forall name v,
      v <> NaN ->
      storable name (Spec.properties (value e)) ->
      setProperty name v (setProperty name v e) = setProperty name v e /\
      at_most_one_command [Opcode Commands.CHANGE_PROPERTY; Str name; v]
        (_changeQueue e)
        (_changeQueue (setProperty name v (setProperty name v e)))) /\
  (forall name v,
      v <> NaN ->
      storable name (Spec.attributes (value e)) ->
      setAttribute name v (setAttribute name v e) = setAttribute name v e /\
      at_most_one_command [Opcode Commands.CHANGE_ATTRIBUTE; Str name; v]
        (_changeQueue e)
        (_changeQueue (setAttribute name v (setAttribute name v e)))) /\
  (forall content,
      setContent content (setContent content e) = setContent content e /\
      at_most_one_command [Opcode Commands.CHANGE_CONTENT; Str content]
        (_changeQueue e)
        (_changeQueue (setContent content (setContent content e)))) /\
  (forall c,
      addClass c (addClass c e) = addClass c e /\
      at_most_one_command [Opcode Commands.ADD_CLASS; Str c]
        (_changeQueue e)
        (_changeQueue (addClass c (addClass c e)))) /\
  (forall b,
      setCutoutState b (setCutoutState b e) = setCutoutState b e /\
      at_most_one_command [Opcode Commands.GL_CUTOUT_STATE; Bool b]
        (_changeQueue e)
        (_changeQueue (setCutoutState b (setCutoutState b e)))).
Proof.
  intros Hd. repeat split.
  - now apply setProperty_twice.
  - rewrite setProperty_twice by assumption. apply setProperty_queue.
  - now apply setAttribute_twice.
  - rewrite setAttribute_twice by assumption. apply setAttribute_queue.
  - now apply setContent_twice.
  - rewrite setContent_twice by exact Hd. apply setContent_queue.
  - now apply addClass_twice.
  - rewrite addClass_twice by exact Hd. apply addClass_queue.
  - now apply setCutoutState_twice.
  - rewrite setCutoutState_twice by exact Hd. apply setCutoutState_queue.
Qed.

Lemma mutators_idempotent_witness :
  _inDraw mounted = false /\
  setProperty "color" (Str "red") (setProperty "color" (Str "red") mounted)
  = setProperty "color" (Str "red") mounted /\
  _changeQueue
    (setProperty "color" (Str "red") (setProperty "color" (Str "red") mounted))
  = [Opcode Commands.CHANGE_PROPERTY; Str "color"; Str "red"].
Proof.
  split; [reflexivity|]. split.
  - refine (proj1 (proj1 (mutators_idempotent mounted eq_refl)
                     "color" (Str "red") _ _)).
    + discriminate.
    + left. discriminate.
  - reflexivity.
Defined.

(** C7 (the claim as stated fails): a value of [NaN] differs from itself,
    so the guard of [setProperty] holds again on the second call; and a
    write under [__proto__] is not stored, so the guard of [setAttribute]
    holds again as well.  In both cases, outside [onMount], the second
    call queues the command a second time. *)
Lemma mutators_idempotent_counterexample :
  _inDraw mounted = false /\
  _changeQueue (setProperty "width" NaN (setProperty "width" NaN mounted)) =
    [Opcode Commands.CHANGE_PROPERTY; Str "width"; NaN;
     Opcode Commands.CHANGE_PROPERTY; Str "width"; NaN] /\
  setProperty "width" NaN (setProperty "width" NaN mounted) <>
    setProperty "width" NaN mounted /\
  _changeQueue
    (setAttribute "__proto__" (Str "red")
       (setAttribute "__proto__" (Str "red") mounted)) =
    [Opcode Commands.CHANGE_ATTRIBUTE; Str "__proto__"; Str "red";
     Opcode Commands.CHANGE_ATTRIBUTE; Str "__proto__"; Str "red"] /\
  setAttribute "__proto__" (Str "red")
    (setAttribute "__proto__" (Str "red") mounted) <>
    setAttribute "__proto__" (Str "red") mounted.
Proof.
  split; [reflexivity|]. split; [reflexivity|].
  split; [intros H; apply (f_equal _changeQueue) in H; discriminate H|].
  split; [reflexivity|].
  intros H. apply (f_equal _changeQueue) in H. discriminate H.
Qed.

(** ** Size changes *)

Lemma size_operand_sized (m : Size.mode) (pixels : Z) :
  (if negb (Size.is_RENDER m) then Number pixels
   else Bool (negb (Size.is_RENDER m)))
  = size_operand m pixels.
Proof. now destruct m. Qed.

(** C8: on a mounted element (initialized, with its node bound)
    [onSizeChange(width, height)] returns normally and appends one
    size-change command.  Its operand for an axis is the pixel value when
    the axis' size mode is not [Size.RENDER] and the boolean [false]
    otherwise.  Afterwards an update request is outstanding, and the node
    has received one exactly when none was outstanding before. *)
Theorem onSizeChange_mounted
  (width height : Z) (e : DOMElement) (node : Node.t) :
  _initialized e = true ->
  _node e = Some node ->
  exists e' : DOMElement,
    onSizeChange width height e = Ok e' /\
    _changeQueue e' =
      _changeQueue e ++
      [Opcode Commands.CHANGE_SIZE;
       size_operand (fst (fst (Node.sizeMode node))) width;
       size_operand (snd (fst (Node.sizeMode node))) height] /\
    _requestingUpdate e' = true /\
    requests e' =
      (if _requestingUpdate e then requests e else requests e ++ [_id e]).
Proof.
  intros Hi Hn. unfold onSizeChange. rewrite Hi, Hn.
  destruct (Node.sizeMode node) as [[mx my] mz] eqn:Hm. simpl.
  rewrite !size_operand_sized.
  eexists. split; [reflexivity|].
  set (e1 := push _ e).
  assert (N1 : _node e1 = Some node) by exact Hn.
  destruct (arm_with_node e1 node N1) as (A & B & _ & C & _).
  change (_requestingUpdate e1) with (_requestingUpdate e) in A, B, C.
  repeat split; [now rewrite C | exact A | exact B].
Qed.

Lemma onSizeChange_mounted_witness :
  _initialized mounted = true /\
  exists e' : DOMElement,
    onSizeChange 320 200 mounted = Ok e' /\
    _changeQueue e' = [Opcode Commands.CHANGE_SIZE; Number 320; Bool false] /\
    _requestingUpdate e' = true /\
    requests e' = [Number 0; Number 0].
Proof.
  split; [reflexivity|].
  destruct (onSizeChange_mounted 320 200 mounted _ eq_refl eq_refl)
    as (e' & H1 & H2 & H3 & H4).
  exists e'. repeat split; assumption.
Defined.

(** ** Draining *)

(** The loop of [onUpdate] sends the whole queue, oldest command first,
    and leaves it empty. *)
Lemma flush_all (queue : list JSval) (node : Node.t) :
  flush (List.length queue) queue node =
  ([], fold_left (fun n c => Node.sendDrawCommand c n) queue node).
Proof.
  revert node. induction queue as [|c queue IH]; intros node; simpl.
  - reflexivity.
  - apply IH.
Qed.

Lemma sendDrawCommands_log (queue : list JSval) (node : Node.t) :
  let node' := fold_left (fun n c => Node.sendDrawCommand c n) queue node in
  Node.drawCommands node' = Node.drawCommands node ++ queue /\
  Node.updateRequests node' = Node.updateRequests node /\
  Node.location node' = Node.location node.
Proof.
  revert node. induction queue as [|c queue IH]; intros node; simpl.
  - now rewrite app_nil_r.
  - destruct (IH (Node.sendDrawCommand c node)) as (D & U & L).
    simpl in D, U, L. rewrite D, U, L, <- app_assoc. auto.
Qed.

(** One drain, with a node bound: the burst is the scope prefix, then the
    queue in order, then the measurement request if [_requestRenderSize]
    is set; an empty queue sends nothing.  The drain reads and clears
    [_requestRenderSize] and does not touch [_requestingRenderSize]. *)
Lemma onUpdate_drains (e : DOMElement) (node : Node.t) :
  _node e = Some node ->
  exists e' : DOMElement,
    onUpdate e = Ok e' /\
    _changeQueue e' = [] /\
    _requestingUpdate e' = false /\
    sent e' =
      sent e ++
      match _changeQueue e with
      | [] => []
      | _ :: _ =>
          [Opcode Commands.WITH; Str (Node.location node)] ++
          _changeQueue e ++
          (if _requestRenderSize e
           then [Opcode Commands.DOM_RENDER_SIZE; Str (Node.location node)]
           else [])
      end /\
    requests e' = requests e /\
    _requestingRenderSize e' = _requestingRenderSize e /\
    value e' = value e /\
    _initialized e' = _initialized e /\
    _inDraw e' = _inDraw e.
Proof.
  intros Hn. unfold onUpdate. rewrite Hn.
  destruct (_changeQueue e) as [|c q] eqn:Hq.
  - simpl. eexists. split; [reflexivity|].
    unfold sent, requests. destruct e; simpl in *. subst.
    rewrite app_nil_r. repeat split; reflexivity.
  - rewrite flush_all.
    set (n1 := Node.sendDrawCommand _ (Node.sendDrawCommand _ node)).
    destruct (sendDrawCommands_log (c :: q) n1) as (D & U & L).
    set (n2 := fold_left _ (c :: q) n1) in *.
    cbv zeta in D, U, L.
    eexists. split; [reflexivity|].
    unfold sent, requests. destruct e; simpl in *. subst _node0.
    destruct _requestRenderSize0; simpl;
      rewrite ?D, ?U; subst n1; simpl;
      rewrite <- ?app_assoc; simpl; rewrite ?app_nil_r;
      repeat split; reflexivity.
Qed.

(** ** Coalescing of update requests *)

Lemma coalesced_refl (e : DOMElement) : coalesced e e.
Proof. unfold coalesced. auto. Qed.

Lemma coalesced_trans (e1 e2 e3 : DOMElement) :
  coalesced e1 e2 -> coalesced e2 e3 -> coalesced e1 e3.
Proof.
  unfold coalesced.
  intros (I1 & [(R1 & U1) | (A1 & B1 & R1)]) (I2 & [(R2 & U2) | (A2 & B2 & R2)]);
    split; try congruence.
  - left. split; congruence.
  - right. repeat split; congruence.
  - right. repeat split; congruence.
Qed.

Lemma mutate_coalesced (m : Mutation) (e : DOMElement) :
  coalesced e (mutate m e).
Proof.
  unfold coalesced, requests.
  destruct m; simpl;
    [ unfold setProperty | unfold setAttribute | unfold setContent
    | unfold addClass | unfold removeClass | unfold setCutoutState ];
    match goal with
    | |- context [if ?g then _ else _] => destruct g
    end; auto;
    run_mutator; auto.
Qed.

(** However many mutators run between two drains, the node receives at
    most one update request, and none while one is outstanding. *)
Lemma run_coalesced (ms : list Mutation) (e : DOMElement) :
  coalesced e (run ms e).
Proof.
  unfold run. revert e. induction ms as [|m ms IH]; intros e; simpl.
  - apply coalesced_refl.
  - eapply coalesced_trans; [apply mutate_coalesced | apply IH].
Qed.

(** Every mutator but [setCutoutState] that gets past its guard on an
    element with a node leaves a request outstanding. *)
Lemma mutate_arms (m : Mutation) (e : DOMElement) (node : Node.t) :
  _node e = Some node ->
  mutate m e <> e ->
  (forall b, m <> SetCutoutState b) ->
  _requestingUpdate (mutate m e) = true.
Proof.
  intros Hn Hc Hm. destruct m; simpl in *;
    try (exfalso; eapply Hm; reflexivity);
    revert Hc;
    [ unfold setProperty | unfold setAttribute | unfold setContent
    | unfold addClass | unfold removeClass ];
    match goal with
    | |- context [if ?g then _ else _] => destruct g
    end; try congruence; intros _;
    run_mutator; try discriminate; reflexivity.
Qed.

(** Mutators only append: what is queued stays queued, in order. *)
Lemma mutate_appends (m : Mutation) (e : DOMElement) :
  exists q : list JSval, _changeQueue (mutate m e) = _changeQueue e ++ q.
Proof.
  destruct m; simpl;
    [ unfold setProperty | unfold setAttribute | unfold setContent
    | unfold addClass | unfold removeClass | unfold setCutoutState ];
    match goal with
    | |- context [if ?g then _ else _] => destruct g
    end;
    try (exists []; now rewrite app_nil_r);
    run_mutator; eexists; try reflexivity;
    symmetry; apply app_nil_r.
Qed.

Lemma run_appends (ms : list Mutation) (e : DOMElement) :
  exists q : list JSval, _changeQueue (run ms e) = _changeQueue e ++ q.
Proof.
  unfold run. revert e. induction ms as [|m ms IH]; intros e; simpl.
  - exists []. now rewrite app_nil_r.
  - destruct (mutate_appends m e) as [q1 H1].
    destruct (IH (mutate m e)) as [q2 H2].
    exists (q1 ++ q2). now rewrite H2, H1, app_assoc.
Qed.

(** C9 (the code departs from the claim): after a drain no request is
    outstanding.  If the mutations that follow on a mounted element are
    calls of [setCutoutState], none of them issues a scheduling request,
    however many there are, although the first one that changes the value
    does queue its command: the queue is not empty, no request has been
    issued and none is outstanding, so no drain is on its way.  (This is
    the defect of C3, seen over a sequence.) *)
Theorem cutout_mutations_are_not_scheduled
  (bs : list bool) (e : DOMElement) :
  _initialized e = true ->
  _inDraw e = false ->
  _requestingUpdate e = false ->
  let flip := SetCutoutState (negb (Spec.cutout (value e))) in
  requests (run (map SetCutoutState bs) e) = requests e /\
  _requestingUpdate (run (map SetCutoutState bs) e) = false /\
  _changeQueue (run [flip] e) =
    _changeQueue e ++
    [Opcode Commands.GL_CUTOUT_STATE; Bool (negb (Spec.cutout (value e)))] /\
  requests (run [flip] e) = requests e /\
  _requestingUpdate (run [flip] e) = false.
Proof.
  intros Hi Hd Hu flip.
  assert (K : forall bs e,
             requests (run (map SetCutoutState bs) e) = requests e /\
             _requestingUpdate (run (map SetCutoutState bs) e) =
               _requestingUpdate e).
  { clear. induction bs as [|b bs IH]; intros e; simpl; [auto|].
    destruct (setCutoutState_leaves_schedule b e) as (_ & R & U).
    destruct (IH (setCutoutState b e)) as (R' & U').
    unfold run in *. simpl. split; congruence. }
  destruct (K bs e) as (R & U). rewrite Hu in U.
  destruct (K [negb (Spec.cutout (value e))] e) as (R1 & U1).
  rewrite Hu in U1. simpl in R1, U1.
  repeat split; try assumption.
  unfold flip, run. simpl.
  assert (G : negb (Bool.eqb (Spec.cutout (value e))
                      (negb (Spec.cutout (value e)))) || _inDraw e = true).
  { now destruct (Spec.cutout (value e)). }
  destruct (setCutoutState_runs _ e G) as (_ & _ & Q).
  now rewrite Q, Hi.
Qed.

Lemma cutout_mutations_are_not_scheduled_witness :
  _initialized mounted = true /\ _requestingUpdate mounted = false /\
  _changeQueue (run [SetCutoutState false] mounted) =
    [Opcode Commands.GL_CUTOUT_STATE; Bool false] /\
  requests (run [SetCutoutState false] mounted) = requests mounted.
Proof.
  split; [reflexivity|]. split; [reflexivity|].
  destruct (cutout_mutations_are_not_scheduled [] mounted
              eq_refl eq_refl eq_refl) as (_ & _ & Q & R & _).
  split; [exact Q | exact R].
Defined.

(** ** Inbound events *)

Lemma trigger_calls (event : string) (payload : Payload)
  (cs : CallbackStore.t) :
  CallbackStore.called (CallbackStore.trigger event payload cs) =
  CallbackStore.called cs ++
  map (fun l => (l, payload)) (CallbackStore.registered event cs).
Proof. reflexivity. Qed.

Lemma onReceive_callbackStore (event : string) (payload : Payload)
  (e : DOMElement) :
  _callbackStore (onReceive event payload e) =
  CallbackStore.trigger event payload (_callbackStore e).
Proof.
  unfold onReceive, _requestUpdate. destruct e; simpl.
  destruct (event =? "resize")%string; [|reflexivity].
  destruct _requestingUpdate0, _node0; reflexivity.
Qed.

(** C10 (as amended): every event delivery.  For ['resize'] both
    components of [renderSize] are overwritten with the two payload values
    as the [Int32Array] stores them, which is the values themselves when
    they are 32-bit integers, and nothing is queued.  A flush is armed if
    a node is bound: then an update request is outstanding afterwards, and
    the node has received one exactly when none was outstanding.  Without
    a node nothing is armed: the request flag is as before.  Every event,
    ['resize'] included, is handed to the callback store, so each listener
    registered under its name is called with the payload. *)
Theorem onReceive_resize_and_dispatch
  (event : string) (payload : Payload) (e : DOMElement) :
  (let e' := onReceive "resize" payload e in
   getRenderSize e' = (val_at 0 payload, val_at 1 payload) /\
   (forall w h, val payload = [w; h] -> int32 w -> int32 h ->
                getRenderSize e' = (w, h)) /\
   (_node e <> None ->
    _requestingUpdate e' = true /\
    requests e' =
      (if _requestingUpdate e then requests e else requests e ++ [_id e])) /\
   (_node e = None ->
    _requestingUpdate e' = _requestingUpdate e /\ _node e' = None) /\
   _changeQueue e' = _changeQueue e) /\
  (let e' := onReceive event payload e in
   (event <> "resize" -> getRenderSize e' = getRenderSize e) /\
   _callbackStore e' =
     CallbackStore.trigger event payload (_callbackStore e) /\
   CallbackStore.called (_callbackStore e') =
     CallbackStore.called (_callbackStore e) ++
     map (fun l => (l, payload))
       (CallbackStore.registered event (_callbackStore e))).
Proof.
  split.
  - assert (R : getRenderSize (onReceive "resize" payload e) =
                (val_at 0 payload, val_at 1 payload)).
    { unfold onReceive, getRenderSize, _requestUpdate. simpl.
      destruct e; simpl in *.
      destruct _requestingUpdate0, _node0; reflexivity. }
    cbv zeta. split; [exact R|]. split.
    { intros w h Hv Hw Hh. rewrite R. unfold val_at. rewrite Hv. simpl.
      now rewrite !toInt32_int32. }
    unfold onReceive, requests, _requestUpdate. simpl.
    destruct e; simpl in *.
    destruct _requestingUpdate0, _node0; simpl; repeat split;
      intros; auto; try congruence.
  - cbv zeta. split; [|split].
    + intros Hne. apply String.eqb_neq in Hne.
      unfold onReceive. rewrite Hne. reflexivity.
    + now rewrite onReceive_callbackStore.
    + now rewrite onReceive_callbackStore, trigger_calls.
Qed.

Lemma onReceive_resize_and_dispatch_witness :
  getRenderSize
    (onReceive "resize" (mkPayload [640; 480]) (on "resize" 7 mounted)) =
    (640, 480) /\
  _requestingUpdate
    (onReceive "resize" (mkPayload [640; 480]) (on "resize" 7 mounted)) =
    true /\
  requests
    (onReceive "resize" (mkPayload [640; 480]) (on "resize" 7 mounted)) =
    requests (on "resize" 7 mounted) ++ [Number 0] /\
  CallbackStore.called
    (_callbackStore
       (onReceive "resize" (mkPayload [640; 480]) (on "resize" 7 mounted))) =
    [(7%nat, mkPayload [640; 480])].
Proof.
  destruct (onReceive_resize_and_dispatch
              "resize" (mkPayload [640; 480]) (on "resize" 7 mounted))
    as [(_ & R & A & _) (_ & _ & C)].
  destruct A as (U & Q); [discriminate|].
  split; [|split; [exact U|split; [exact Q|exact C]]].
  apply R; [reflexivity | unfold int32; lia | unfold int32; lia].
Defined.

(** C10 (the claim as stated fails): an element that no node owns receives
    the measurement event.  The render size is written and the listener is
    called, but no flush is armed: no request is outstanding afterwards,
    and there is no node that could have been asked. *)
Lemma onReceive_resize_and_dispatch_counterexample :
  getRenderSize
    (onReceive "resize" (mkPayload [640; 480]) (on "resize" 7 detached)) =
    (640, 480) /\
  CallbackStore.called
    (_callbackStore
       (onReceive "resize" (mkPayload [640; 480]) (on "resize" 7 detached))) =
    [(7%nat, mkPayload [640; 480])] /\
  _requestingUpdate
    (onReceive "resize" (mkPayload [640; 480]) (on "resize" 7 detached)) <>
    true /\
  _node
    (onReceive "resize" (mkPayload [640; 480]) (on "resize" 7 detached)) =
    None.
Proof. repeat split. discriminate. Qed.

(** ** Mounting *)

Lemma fold_left_preserves {A : Type} (P : DOMElement -> Prop)
  (f : DOMElement -> A -> DOMElement) (l : list A) (e : DOMElement) :
  (forall e x, P e -> P (f e x)) -> P e -> P (fold_left f l e).
Proof.
  intros Hf. revert e. induction l as [|x l IH]; intros e He; simpl; auto.
Qed.

Lemma mutate_mounting (m : Mutation) (e : DOMElement) :
  mounting e -> mounting (mutate m e).
Proof.
  unfold mounting. intros (Hi & Hd & Hn).
  destruct m; simpl;
    [ unfold setProperty | unfold setAttribute | unfold setContent
    | unfold addClass | unfold removeClass | unfold setCutoutState ];
    rewrite Hd, orb_true_r;
    run_mutator; repeat split; congruence.
Qed.

Lemma _subscribe_mounting (uiEvent : string) (e : DOMElement) :
  mounting e -> mounting (_subscribe uiEvent e).
Proof.
  unfold mounting, _subscribe. intros (Hi & Hd & Hn).
  run_mutator; repeat split; congruence.
Qed.

Lemma onTransformChange_mounting (transform : list Z) (e : DOMElement) :
  mounting e -> mounting (onTransformChange transform e).
Proof.
  unfold mounting. intros (Hi & Hd & Hn).
  rewrite onTransformChange_pushes. cbv zeta.
  run_mutator; repeat split; congruence.
Qed.

Lemma onSizeChange_mounting (width height : Z) (e : DOMElement) :
  mounting e ->
  exists e' : DOMElement, onSizeChange width height e = Ok e' /\ mounting e'.
Proof.
  unfold mounting. intros (Hi & Hd & Hn).
  unfold onSizeChange. rewrite Hi.
  destruct (_node e) as [node|] eqn:N; [|congruence].
  destruct (Node.sizeMode node) as [[mx my] mz]. simpl.
  eexists. split; [reflexivity|].
  revert N. run_mutator; intros; repeat split; congruence.
Qed.

(** [onMount] returns normally, whatever the element and the node, and
    leaves the element attached. *)
Lemma onMount_attaches (node : Node.t) (id : JSval) (e : DOMElement) :
  exists e' : DOMElement, onMount node id e = Ok e' /\ attached e'.
Proof.
  unfold onMount.
  set (e0 := push _ _).
  assert (M0 : mounting e0) by (repeat split; discriminate).
  clearbody e0.
  set (e1 := fold_left _ (keys (Spec.classes (value e0))) e0).
  assert (M1 : mounting e1).
  { apply fold_left_preserves; [|exact M0]. intros e' k H.
    destruct (flag k _); [apply (mutate_mounting (AddClass k))|]; exact H. }
  clearbody e1.
  set (e2 := fold_left _ (keys (Spec.properties (value e1))) e1).
  assert (M2 : mounting e2).
  { apply fold_left_preserves; [|exact M1]. intros e' k H. cbv zeta.
    destruct (truthy _); [apply (mutate_mounting (SetProperty k _))|];
      exact H. }
  clearbody e2.
  set (e3 := fold_left _ (keys (Spec.attributes (value e2))) e2).
  assert (M3 : mounting e3).
  { apply fold_left_preserves; [|exact M2]. intros e' k H. cbv zeta.
    destruct (truthy _); [apply (mutate_mounting (SetAttribute k _))|];
      exact H. }
  clearbody e3.
  set (e4 := if negb _ then setContent _ e3 else e3).
  assert (M4 : mounting e4).
  { subst e4. destruct (negb _);
      [apply (mutate_mounting (SetContent _))|]; exact M3. }
  clearbody e4.
  set (e5 := fold_left _ (Node.uiEvents node) e4).
  assert (M5 : mounting e5).
  { apply fold_left_preserves; [|exact M4]. intros e' k H.
    now apply _subscribe_mounting. }
  clearbody e5.
  set (e6 := setProperty "display" _ (setAttribute "data-fa-path" _ e5)).
  assert (M6 : mounting e6).
  { apply (mutate_mounting (SetProperty _ _)).
    now apply (mutate_mounting (SetAttribute _ _)). }
  clearbody e6.
  destruct (Node.sizeMode node) as [[mx my] mz].
  unfold onSizeModeChange.
  destruct (_node e6) as [n6|] eqn:N6; [|now destruct M6 as (_ & _ & K)].
  destruct (Node.size n6) as [[w h] d].
  destruct (onSizeChange_mounting w h e6 M6) as (e7 & -> & M7). simpl.
  set (e8 := onOpacityChange _ e7).
  assert (M8 : mounting e8)
    by now apply (mutate_mounting (SetProperty _ _)).
  clearbody e8.
  destruct (_node e8) as [n8|] eqn:N8; [|now destruct M8 as (_ & _ & K)].
  simpl.
  pose proof (onTransformChange_mounting (Node.transform n8) e8 M8) as M9.
  set (e9 := onTransformChange _ e8) in *. clearbody e9.
  destruct (_node e9) as [n9|] eqn:N9; [|now destruct M9 as (_ & _ & K)].
  destruct (Node.size n9) as [[w' h'] d'].
  destruct (onSizeChange_mounting w' h' e9 M9) as (e10 & -> & (I & D & N)).
  simpl. eexists. split; [reflexivity|].
  repeat split; assumption.
Qed.

(** ** A stretch of mutations and its drain *)

Lemma mutate_keeps_node (m : Mutation) (e : DOMElement) (node : Node.t) :
  _node e = Some node ->
  exists node' : Node.t,
    _node (mutate m e) = Some node' /\
    Node.location node' = Node.location node /\
    sent (mutate m e) = sent e /\
    _requestRenderSize (mutate m e) = _requestRenderSize e.
Proof.
  intros Hn. unfold sent.
  destruct m; simpl;
    [ unfold setProperty | unfold setAttribute | unfold setContent
    | unfold addClass | unfold removeClass | unfold setCutoutState ];
    match goal with
    | |- context [if ?g then _ else _] => destruct g
    end;
    try (exists node; rewrite Hn; now auto);
    revert Hn; run_mutator; intros Hn; inversion Hn; subst;
    eexists; repeat split; reflexivity.
Qed.

Lemma run_keeps_node (ms : list Mutation) (e : DOMElement) (node : Node.t) :
  _node e = Some node ->
  exists node' : Node.t,
    _node (run ms e) = Some node' /\
    Node.location node' = Node.location node /\
    sent (run ms e) = sent e /\
    _requestRenderSize (run ms e) = _requestRenderSize e.
Proof.
  unfold run. revert e node.
  induction ms as [|m ms IH]; intros e node Hn; simpl.
  - exists node. auto.
  - destruct (mutate_keeps_node m e node Hn) as (n1 & N1 & L1 & S1 & R1).
    destruct (IH (mutate m e) n1 N1) as (n2 & N2 & L2 & S2 & R2).
    exists n2. repeat split; congruence.
Qed.

(** Mutations followed by one drain, on an element whose node is bound:
    the node receives at most one update request, and the drain sends,
    after the scope prefix, the whole queue as the mutators left it, in
    the order of the calls ([run_appends]). *)
Lemma run_then_drain (ms : list Mutation) (e : DOMElement) (node : Node.t) :
  _node e = Some node ->
  _requestRenderSize e = false ->
  coalesced e (run ms e) /\
  exists e' : DOMElement,
    onUpdate (run ms e) = Ok e' /\
    requests e' = requests (run ms e) /\
    _requestingUpdate e' = false /\
    _changeQueue e' = [] /\
    sent e' =
      sent e ++
      match _changeQueue (run ms e) with
      | [] => []
      | q => Opcode Commands.WITH :: Str (Node.location node) :: q
      end.
Proof.
  intros Hn Hr. split; [apply run_coalesced|].
  destruct (run_keeps_node ms e node Hn) as (n' & N & L & S & R).
  destruct (onUpdate_drains (run ms e) n' N)
    as (e' & U & Q & F & S' & R' & _).
  exists e'. split; [exact U|]. split; [exact R'|].
  split; [exact F|]. split; [exact Q|].
  rewrite S', S, R, Hr, L.
  destruct (_changeQueue (run ms e)); simpl; now rewrite ?app_nil_r.
Qed.

(** ** Reading back what was written *)

Lemma strict_eq_eq (a b : JSval) : strict_eq a b = true -> a = b.
Proof.
  destruct a, b; simpl; try discriminate; intros H; trivial.
  - f_equal. now apply Bool.eqb_prop.
  - f_equal. now apply Z.eqb_eq.
  - f_equal. now apply String.eqb_eq.
  - f_equal. unfold Commands.eqb in H.
    now destruct (Commands.eq_dec c c0).
  - f_equal. now apply String.eqb_eq.
Qed.

Lemma strict_neq_false (a b : JSval) : strict_neq a b = false -> a = b.
Proof.
  unfold strict_neq. intros H. apply strict_eq_eq.
  now destruct (strict_eq a b).
Qed.

(** A mutator whose guard fails returns the element as it is. *)
Lemma mutate_skips (m : Mutation) (e : DOMElement) :
  guard m e = false -> mutate m e = e.
Proof.
  destruct m; simpl; intros G;
    [ unfold setProperty | unfold setAttribute | unfold setContent
    | unfold addClass | unfold removeClass | unfold setCutoutState ];
    now rewrite G.
Qed.

(** A mutator whose guard holds stores its value, pushes its command on an
    initialized element, and leaves the rest of the element alone, apart
    from the node and the two request flags. *)
Lemma mutate_runs (m : Mutation) (e : DOMElement) :
  guard m e = true ->
  value (mutate m e) = described m (value e) /\
  _changeQueue (mutate m e) =
    _changeQueue e ++ (if _initialized e then command_of m else []) /\
  _initialized (mutate m e) = _initialized e /\
  _inDraw (mutate m e) = _inDraw e /\
  _id (mutate m e) = _id e /\
  _UIEvents (mutate m e) = _UIEvents e /\
  _callbackStore (mutate m e) = _callbackStore e /\
  _renderSized (mutate m e) = _renderSized e /\
  _requestRenderSize (mutate m e) = _requestRenderSize e.
Proof.
  destruct m; simpl; intros G;
    [ unfold setProperty | unfold setAttribute | unfold setContent
    | unfold addClass | unfold removeClass | unfold setCutoutState ];
    rewrite G; clear G;
    run_mutator; rewrite ?app_nil_r; repeat split; reflexivity.
Qed.

Lemma mutate_value (m : Mutation) (e : DOMElement) :
  value (mutate m e) = if guard m e then described m (value e) else value e.
Proof.
  destruct (guard m e) eqn:G.
  - now destruct (mutate_runs m e G).
  - now rewrite mutate_skips.
Qed.

(** ** Quiet stretches *)

Lemma quiet_refl (e : DOMElement) : quiet e e.
Proof.
  unfold quiet. repeat split; auto using coalesced_refl.
  intros n H. exists n. auto.
Qed.

Lemma quiet_trans (e1 e2 e3 : DOMElement) :
  quiet e1 e2 -> quiet e2 e3 -> quiet e1 e3.
Proof.
  unfold quiet.
  intros (I1 & D1 & R1 & Q1 & S1 & N1 & O1 & C1 & M1 & U1)
         (I2 & D2 & R2 & Q2 & S2 & N2 & O2 & C2 & M2 & U2).
  do 5 (split; [congruence|]).
  split.
  { intros n H. destruct (N1 n H) as (n' & H' & E').
    destruct (N2 n' H') as (n'' & H'' & E''). exists n''. split; congruence. }
  split; [auto|].
  split; [eapply coalesced_trans; eassumption|].
  split; [|auto].
  intros H. rewrite M2, M1; congruence.
Qed.

Lemma mutate_quiet (m : Mutation) (e : DOMElement) : quiet e (mutate m e).
Proof.
  destruct (guard m e) eqn:G; [|rewrite mutate_skips; auto using quiet_refl].
  clear G.
  destruct m; simpl;
    [ unfold setProperty | unfold setAttribute | unfold setContent
    | unfold addClass | unfold removeClass | unfold setCutoutState ];
    match goal with
    | |- context [if ?g then _ else _] => destruct g
    end; auto using quiet_refl;
    run_mutator; solve_quiet.
Qed.

Lemma event_calls_quiet (uiEvent : string) (e : DOMElement) :
  quiet e (_subscribe uiEvent e) /\
  quiet e (_unsubscribe uiEvent e) /\
  quiet e (preventDefault uiEvent e) /\
  quiet e (allowDefault uiEvent e).
Proof.
  unfold _subscribe, _unsubscribe, preventDefault, allowDefault.
  repeat split; run_mutator; solve_quiet.
Qed.

Lemma onRemoveUIEvent_quiet (uiEvent : string) (e : DOMElement) :
  quiet e (onRemoveUIEvent uiEvent e).
Proof.
  unfold onRemoveUIEvent.
  destruct (indexOf uiEvent (_UIEvents e)) as [i|] eqn:I.
  - destruct (event_calls_quiet uiEvent e) as (_ & Q & _).
    revert Q. unfold quiet, coalesced, sent, requests. simpl.
    intros (I1 & D1 & R1 & Q1 & S1 & N1 & O1 & C1 & M1 & U1).
    do 9 (split; [assumption|]).
    intros H. rewrite H in I. discriminate.
  - destruct (_inDraw e); [|apply quiet_refl].
    apply event_calls_quiet.
Qed.

Lemma onTransformChange_quiet (transform : list Z) (e : DOMElement) :
  quiet e (onTransformChange transform e).
Proof.
  rewrite onTransformChange_pushes. cbv zeta.
  run_mutator; solve_quiet.
Qed.

Lemma onSizeChange_quiet (width height : Z) (e e' : DOMElement) :
  onSizeChange width height e = Ok e' -> quiet e e'.
Proof.
  unfold onSizeChange.
  destruct (_initialized e) eqn:I.
  - destruct (_node e) as [node|] eqn:N; [|discriminate].
    destruct (Node.sizeMode node) as [[mx my] mz]. simpl.
    intros [= <-]. revert I N.
    run_mutator; intros; try discriminate; solve_quiet.
  - simpl. intros [= <-]. revert I.
    run_mutator; intros; try discriminate; solve_quiet.
Qed.

Lemma onReceive_quiet (event : string) (payload : Payload) (e : DOMElement) :
  quiet e (onReceive event payload e).
Proof.
  unfold onReceive. destruct (event =? "resize")%string.
  - run_mutator; solve_quiet.
  - destruct e; solve_quiet.
    intros n H. exists n. auto.
Qed.

(** Every call that is not a drain, a mount or a dismount is quiet. *)
Lemma perform_quiet (c : Call) (e e' : DOMElement) :
  between_drains c = true -> perform c e = Ok e' -> quiet e e'.
Proof.
  destruct c; simpl; try discriminate; intros _ H;
    try (injection H as <-).
  - apply mutate_quiet.
  - apply (mutate_quiet (SetAttribute "id" id)).
  - apply (mutate_quiet (SetProperty "display" (Str "block"))).
  - apply (mutate_quiet (SetProperty "display" (Str "none"))).
  - apply (mutate_quiet (SetProperty "opacity" (Number opacity))).
  - apply onTransformChange_quiet.
  - eapply onSizeChange_quiet; eassumption.
  - unfold onSizeModeChange in H.
    destruct (_node e); [|discriminate].
    destruct (Node.size t) as [[w h] d].
    eapply onSizeChange_quiet; eassumption.
  - apply event_calls_quiet.
  - apply onRemoveUIEvent_quiet.
  - apply event_calls_quiet.
  - apply event_calls_quiet.
  - destruct e; solve_quiet. intros n H. exists n. auto.
  - apply onReceive_quiet.
Qed.

(** ** Inside [onMount] *)

Lemma quiet_mounting_on (node : Node.t) (e e' : DOMElement) :
  mounting_on node e -> quiet e e' -> mounting_on node e'.
Proof.
  unfold mounting_on, quiet.
  intros (I & D & n & N & E) (I' & D' & _ & _ & _ & N' & _).
  split; [congruence|]. split; [congruence|].
  destruct (N' n N) as (n' & H & E'). exists n'. split; congruence.
Qed.

Lemma tracks_refl (e : DOMElement) : tracks e e (value e) [].
Proof.
  unfold tracks. rewrite app_nil_r. auto using quiet_refl.
Qed.

Lemma tracks_step (e e1 e2 : DOMElement) (s1 s2 : Spec.t)
  (c1 c2 : list JSval) :
  tracks e e1 s1 c1 -> tracks e1 e2 s2 c2 -> tracks e e2 s2 (c1 ++ c2).
Proof.
  unfold tracks. intros (V1 & Q1 & K1) (V2 & Q2 & K2).
  split; [exact V2|]. split; [eapply quiet_trans; eassumption|].
  now rewrite K2, K1, app_assoc.
Qed.

Lemma mounting_guard (node : Node.t) (m : Mutation) (e : DOMElement) :
  mounting_on node e -> guard m e = true.
Proof.
  intros (_ & D & _). destruct m; simpl; rewrite D; apply orb_true_r.
Qed.

(** Inside [onMount] every mutator runs, whatever the stored value. *)
Lemma mutate_mounting_on (node : Node.t) (m : Mutation) (e : DOMElement) :
  mounting_on node e ->
  tracks e (mutate m e) (described m (value e)) (command_of m).
Proof.
  intros M. pose proof (mounting_guard node m e M) as G.
  destruct (mutate_runs m e G) as (V & K & _).
  destruct M as (I & _). rewrite I in K.
  unfold tracks. auto using mutate_quiet.
Qed.

Lemma with_classes_same (s : Spec.t) : Spec.with_classes (Spec.classes s) s = s.
Proof. now destruct s. Qed.

Lemma with_properties_same (s : Spec.t) :
  Spec.with_properties (Spec.properties s) s = s.
Proof. now destruct s. Qed.

Lemma with_attributes_same (s : Spec.t) :
  Spec.with_attributes (Spec.attributes s) s = s.
Proof. now destruct s. Qed.

Lemma with_content_same (s : Spec.t) : Spec.with_content (Spec.content s) s = s.
Proof. now destruct s. Qed.

(** The loops of [onMount] enumerate own keys, and an own key reads its own
    value, not an inherited one. *)
Lemma own_lookup (k : string) (o : Obj JSval) :
  In k (keys o) -> get k o = Some (lookup k o).
Proof.
  intros H. apply get_keys in H. unfold lookup.
  destruct (get k o); [reflexivity | congruence].
Qed.

Lemma own_flag (k : string) (o : Obj bool) :
  In k (keys o) -> flag k o = true -> get k o = Some true.
Proof.
  intros H. apply get_keys in H. unfold flag.
  destruct (get k o) as [[|]|]; congruence.
Qed.

(** A loop of [onMount] whose steps keep the description. *)
Lemma fold_tracks {A : Type} (node : Node.t) (s : Spec.t)
  (step : DOMElement -> A -> DOMElement) (cmd : A -> list JSval)
  (l : list A) :
  (forall e x, In x l -> mounting_on node e -> value e = s ->
               tracks e (step e x) s (cmd x)) ->
  forall e, mounting_on node e -> value e = s ->
            tracks e (fold_left step l e) s (flat_map cmd l).
Proof.
  induction l as [|x l IH]; intros Hstep e M V; simpl.
  - rewrite <- V. apply tracks_refl.
  - pose proof (Hstep e x (or_introl eq_refl) M V) as T.
    eapply tracks_step; [exact T|].
    destruct T as (V' & Q' & _).
    apply IH; [| eapply quiet_mounting_on; eassumption | exact V'].
    intros e1 y Hy. apply Hstep. now right.
Qed.

Lemma replay_class (node : Node.t) (e : DOMElement) (k : string) :
  In k (keys (Spec.classes (value e))) ->
  mounting_on node e ->
  tracks e
    (if flag k (Spec.classes (value e)) then addClass k e else e)
    (value e)
    (if flag k (Spec.classes (value e))
     then [Opcode Commands.ADD_CLASS; Str k] else []).
Proof.
  intros Hk M. destruct (flag k (Spec.classes (value e))) eqn:F.
  - pose proof (mutate_mounting_on node (AddClass k) e M) as T.
    simpl in T. rewrite (set_get_id _ _ _ (own_flag _ _ Hk F)) in T.
    now rewrite with_classes_same in T.
  - apply tracks_refl.
Qed.

Lemma replay_property (node : Node.t) (e : DOMElement) (k : string) :
  In k (keys (Spec.properties (value e))) ->
  mounting_on node e ->
  tracks e
    (let val := lookup k (Spec.properties (value e)) in
     if truthy val then setProperty k val e else e)
    (value e)
    (if truthy (lookup k (Spec.properties (value e)))
     then [Opcode Commands.CHANGE_PROPERTY; Str k;
           lookup k (Spec.properties (value e))]
     else []).
Proof.
  intros Hk M. cbv zeta.
  destruct (truthy (lookup k (Spec.properties (value e)))) eqn:F.
  - pose proof (mutate_mounting_on node
                  (SetProperty k (lookup k (Spec.properties (value e)))) e M) as T.
    simpl in T. rewrite (set_get_id _ _ _ (own_lookup _ _ Hk)) in T.
    now rewrite with_properties_same in T.
  - apply tracks_refl.
Qed.

Lemma replay_attribute (node : Node.t) (e : DOMElement) (k : string) :
  In k (keys (Spec.attributes (value e))) ->
  mounting_on node e ->
  tracks e
    (let val := lookup k (Spec.attributes (value e)) in
     if truthy val then setAttribute k val e else e)
    (value e)
    (if truthy (lookup k (Spec.attributes (value e)))
     then [Opcode Commands.CHANGE_ATTRIBUTE; Str k;
           lookup k (Spec.attributes (value e))]
     else []).
Proof.
  intros Hk M. cbv zeta.
  destruct (truthy (lookup k (Spec.attributes (value e)))) eqn:F.
  - pose proof (mutate_mounting_on node
                  (SetAttribute k (lookup k (Spec.attributes (value e)))) e M) as T.
    simpl in T. rewrite (set_get_id _ _ _ (own_lookup _ _ Hk)) in T.
    now rewrite with_attributes_same in T.
  - apply tracks_refl.
Qed.

Lemma replay_content (node : Node.t) (e : DOMElement) :
  mounting_on node e ->
  tracks e
    (if negb (Spec.content (value e) =? "")%string
     then setContent (Spec.content (value e)) e else e)
    (value e)
    (if negb (Spec.content (value e) =? "")%string
     then [Opcode Commands.CHANGE_CONTENT; Str (Spec.content (value e))]
     else []).
Proof.
  intros M. destruct (negb _).
  - pose proof (mutate_mounting_on node
                  (SetContent (Spec.content (value e))) e M) as T.
    simpl in T. now rewrite with_content_same in T.
  - apply tracks_refl.
Qed.

Lemma replay_subscribe (node : Node.t) (e : DOMElement) (ev : string) :
  mounting_on node e ->
  tracks e (onAddUIEvent ev e) (value e) [Opcode Commands.SUBSCRIBE; Str ev].
Proof.
  intros (I & _). unfold tracks. split; [|split].
  - unfold onAddUIEvent, _subscribe. clear I. run_mutator; reflexivity.
  - apply event_calls_quiet.
  - unfold onAddUIEvent, _subscribe. revert I.
    run_mutator; intros; try discriminate; reflexivity.
Qed.

Lemma arm_tracks (e : DOMElement) :
  tracks e (if negb (_requestingUpdate e) then _requestUpdate e else e)
    (value e) [].
Proof.
  unfold tracks. split; [|split].
  - run_mutator; reflexivity.
  - run_mutator; solve_quiet.
  - rewrite app_nil_r. run_mutator; reflexivity.
Qed.

Lemma onSizeChange_mounting_on (node : Node.t) (width height : Z)
  (e : DOMElement) :
  mounting_on node e ->
  exists e' : DOMElement,
    onSizeChange width height e = Ok e' /\
    tracks e e' (value e)
      [Opcode Commands.CHANGE_SIZE;
       size_operand (fst (fst (Node.sizeMode node))) width;
       size_operand (snd (fst (Node.sizeMode node))) height].
Proof.
  intros (I & D & n & N & E).
  assert (Em : Node.sizeMode n = Node.sizeMode node)
    by (unfold node_data in E; congruence).
  unfold onSizeChange. rewrite I, N, Em.
  destruct (Node.sizeMode node) as [[mx my] mz]. simpl.
  rewrite !size_operand_sized.
  eexists. split; [reflexivity|].
  set (e1 := push _ e).
  assert (T1 : tracks e e1 (value e)
                 [Opcode Commands.CHANGE_SIZE; size_operand mx width;
                  size_operand my height]).
  { unfold tracks. split; [reflexivity|]. split; [|reflexivity].
    subst e1. clear. destruct e; solve_quiet.
    intros n H. exists n. auto. }
  pose proof (tracks_step _ _ _ _ _ _ _ T1 (arm_tracks e1)) as T.
  rewrite app_nil_r in T. exact T.
Qed.

Lemma onTransformChange_tracks (transform : list Z) (e : DOMElement) :
  tracks e (onTransformChange transform e) (value e)
    (Opcode Commands.CHANGE_TRANSFORM :: map Number transform).
Proof.
  unfold tracks. split; [|split; [apply onTransformChange_quiet|]];
    rewrite onTransformChange_pushes; cbv zeta;
    run_mutator; reflexivity.
Qed.

Lemma onSizeChange_arms (node : Node.t) (width height : Z)
  (e e' : DOMElement) :
  mounting_on node e ->
  onSizeChange width height e = Ok e' ->
  _requestingUpdate e' = true.
Proof.
  intros (I & D & n & N & E). unfold onSizeChange. rewrite I, N.
  destruct (Node.sizeMode n) as [[mx my] mz]. simpl. intros [= <-].
  set (e1 := push _ e).
  change (_requestingUpdate e) with (_requestingUpdate e1).
  assert (N1 : _node e1 = Some n) by exact N.
  now destruct (arm_with_node e1 n N1) as (A & _).
Qed.

(** [onMount], start to end: it returns normally; it queues the
    initialization pair, the replay of the description, the subscriptions
    of the node and the forced attribute, properties, transform and size;
    it keeps the description but for the path attribute and the two forced
    properties; and it leaves a request outstanding, asking the node for
    one update unless one was outstanding already. *)
Lemma onMount_characterised (node : Node.t) (id : JSval) (e : DOMElement) :
  exists e' : DOMElement,
    onMount node id e = Ok e' /\
    value e' = mounted_description node (value e) /\
    _changeQueue e' = _changeQueue e ++ mount_commands node (value e) /\
    _initialized e' = true /\
    _inDraw e' = false /\
    _id e' = id /\
    _requestingUpdate e' = true /\
    (exists n : Node.t,
        _node e' = Some n /\ node_data n = node_data node /\
        Node.drawCommands n = Node.drawCommands node /\
        Node.updateRequests n =
          Node.updateRequests node ++
          (if _requestingUpdate e then [] else [id])) /\
    _renderSized e' = _renderSized e /\
    _requestRenderSize e' = _requestRenderSize e /\
    (_renderSized e = false ->
     _requestingRenderSize e' = _requestingRenderSize e) /\
    (_UIEvents e = [] -> _UIEvents e' = []).
Proof.
  unfold onMount.
  set (b := with_inDraw true
              (with_initialized true
                 (with_id id
                    (with_node (Some (Node.makeBreakPoint node)) e)))).
  set (s := value e).
  assert (Mb : mounting_on node b).
  { split; [reflexivity|]. split; [reflexivity|].
    eexists. split; reflexivity. }
  set (e0 := push _ b).
  assert (T0 : tracks b e0 s
                 [Opcode Commands.INIT_DOM; Str (Spec.tagName s)]).
  { unfold tracks. split; [reflexivity|]. split; [|reflexivity].
    subst e0. clear. destruct b; solve_quiet.
    intros n H. exists n. auto. }
  assert (M0 : mounting_on node e0)
    by (eapply quiet_mounting_on; [exact Mb | apply T0]).
  clearbody e0.
  (* classes *)
  set (e1 := fold_left _ (keys (Spec.classes (value e0))) e0).
  assert (T1 : tracks e0 e1 s
                 (flat_map
                    (fun k => if flag k (Spec.classes s)
                              then [Opcode Commands.ADD_CLASS; Str k] else [])
                    (keys (Spec.classes (value e0))))).
  { apply (fold_tracks node s); [|exact M0|apply T0].
    intros e' k Hk M V. replace (value e0) with s in Hk by (symmetry; apply T0).
    rewrite <- V in Hk |- *. now apply (replay_class node). }
  assert (V0 : value e0 = s) by apply T0. rewrite V0 in T1.
  pose proof (tracks_step _ _ _ _ _ _ _ T0 T1) as T01.
  assert (M1 : mounting_on node e1)
    by (eapply quiet_mounting_on; [exact Mb | apply T01]).
  clearbody e1. clear T0 T1 M0 V0 e0.
  (* properties *)
  set (e2 := fold_left _ (keys (Spec.properties (value e1))) e1).
  assert (T2 : tracks e1 e2 s
                 (flat_map
                    (fun k =>
                       if truthy (lookup k (Spec.properties s))
                       then [Opcode Commands.CHANGE_PROPERTY; Str k;
                             lookup k (Spec.properties s)]
                       else [])
                    (keys (Spec.properties (value e1))))).
  { apply (fold_tracks node s); [|exact M1|apply T01].
    intros e' k Hk M V. replace (value e1) with s in Hk by (symmetry; apply T01).
    rewrite <- V in Hk |- *. now apply (replay_property node). }
  assert (V1 : value e1 = s) by apply T01. rewrite V1 in T2.
  pose proof (tracks_step _ _ _ _ _ _ _ T01 T2) as T02.
  assert (M2 : mounting_on node e2)
    by (eapply quiet_mounting_on; [exact Mb | apply T02]).
  clearbody e2. clear T01 T2 M1 V1 e1.
  (* attributes *)
  set (e3 := fold_left _ (keys (Spec.attributes (value e2))) e2).
  assert (T3 : tracks e2 e3 s
                 (flat_map
                    (fun k =>
                       if truthy (lookup k (Spec.attributes s))
                       then [Opcode Commands.CHANGE_ATTRIBUTE; Str k;
                             lookup k (Spec.attributes s)]
                       else [])
                    (keys (Spec.attributes (value e2))))).
  { apply (fold_tracks node s); [|exact M2|apply T02].
    intros e' k Hk M V. replace (value e2) with s in Hk by (symmetry; apply T02).
    rewrite <- V in Hk |- *. now apply (replay_attribute node). }
  assert (V2 : value e2 = s) by apply T02. rewrite V2 in T3.
  pose proof (tracks_step _ _ _ _ _ _ _ T02 T3) as T03.
  assert (M3 : mounting_on node e3)
    by (eapply quiet_mounting_on; [exact Mb | apply T03]).
  clearbody e3. clear T02 T3 M2 V2 e2.
  (* content *)
  pose proof (replay_content node e3 M3) as T4.
  assert (V3 : value e3 = s) by apply T03. rewrite V3 in T4 |- *.
  set (e4 := if negb (Spec.content s =? "")%string
             then setContent (Spec.content s) e3 else e3) in *.
  pose proof (tracks_step _ _ _ _ _ _ _ T03 T4) as T04.
  assert (M4 : mounting_on node e4)
    by (eapply quiet_mounting_on; [exact Mb | apply T04]).
  clearbody e4. clear T03 T4 M3 V3 e3.
  (* subscriptions *)
  set (e5 := fold_left _ (Node.uiEvents node) e4).
  assert (T5 : tracks e4 e5 s
                 (flat_map (fun ev => [Opcode Commands.SUBSCRIBE; Str ev])
                    (Node.uiEvents node))).
  { apply (fold_tracks node s); [|exact M4|apply T04].
    intros e' k _ M V. rewrite <- V. now apply (replay_subscribe node). }
  pose proof (tracks_step _ _ _ _ _ _ _ T04 T5) as T05.
  assert (M5 : mounting_on node e5)
    by (eapply quiet_mounting_on; [exact Mb | apply T05]).
  clearbody e5. clear T04 T5 M4 e4.
  (* the path attribute and the display property *)
  pose proof (mutate_mounting_on node
                (SetAttribute "data-fa-path" (Str (Node.location node)))
                e5 M5) as T6.
  simpl mutate in T6.
  set (e6 := setAttribute "data-fa-path" (Str (Node.location node)) e5) in *.
  pose proof (tracks_step _ _ _ _ _ _ _ T05 T6) as T06.
  assert (M6 : mounting_on node e6)
    by (eapply quiet_mounting_on; [exact Mb | apply T06]).
  assert (V5 : value e5 = s) by apply T05. rewrite V5 in T06.
  clearbody e6. clear T05 T6 M5 V5 e5.
  pose proof (mutate_mounting_on node
                (SetProperty "display" (Str "block")) e6 M6) as T7.
  simpl mutate in T7.
  set (e7 := setProperty "display" (Str "block") e6) in *.
  pose proof (tracks_step _ _ _ _ _ _ _ T06 T7) as T07.
  assert (M7 : mounting_on node e7)
    by (eapply quiet_mounting_on; [exact Mb | apply T07]).
  assert (V6 : value e6 = described
                 (SetAttribute "data-fa-path" (Str (Node.location node))) s)
    by apply T06.
  rewrite V6 in T07.
  clearbody e7. clear T06 T7 M6 V6 e6.
  (* size mode *)
  destruct (Node.sizeMode node) as [[mx my] mz] eqn:Hmode.
  unfold onSizeModeChange.
  destruct M7 as (I7 & D7 & n7 & N7 & E7). rewrite N7.
  assert (M7 : mounting_on node e7)
    by (split; [exact I7|]; split; [exact D7|]; exists n7; auto).
  assert (Hsize : Node.size n7 = Node.size node)
    by (unfold node_data in E7; congruence).
  rewrite Hsize. destruct (Node.size node) as [[w h] d] eqn:Hs.
  destruct (onSizeChange_mounting_on node w h e7 M7) as (e8 & -> & T8).
  pose proof (tracks_step _ _ _ _ _ _ _ T07 T8) as T08.
  assert (M8 : mounting_on node e8)
    by (eapply quiet_mounting_on; [exact Mb | apply T08]).
  assert (V7 : value e7 =
               described (SetProperty "display" (Str "block"))
                 (described
                    (SetAttribute "data-fa-path" (Str (Node.location node)))
                    s))
    by apply T07.
  rewrite V7 in T08.
  clear T07 T8 I7 D7 N7 E7 Hsize M7 V7 n7. clear e7.
  simpl bind.
  (* opacity *)
  pose proof (mutate_mounting_on node
                (SetProperty "opacity" (Number (Node.opacity node)))
                e8 M8) as T9.
  simpl mutate in T9.
  change (setProperty "opacity" (Number (Node.opacity node)) e8)
    with (onOpacityChange (Node.opacity node) e8) in T9.
  set (e9 := onOpacityChange (Node.opacity node) e8) in *.
  pose proof (tracks_step _ _ _ _ _ _ _ T08 T9) as T09.
  assert (M9 : mounting_on node e9)
    by (eapply quiet_mounting_on; [exact Mb | apply T09]).
  assert (V8 : value e8 =
               described (SetProperty "display" (Str "block"))
                 (described
                    (SetAttribute "data-fa-path" (Str (Node.location node)))
                    s))
    by apply T08.
  rewrite V8 in T09.
  clearbody e9. clear T08 T9 M8 V8 e8.
  (* transform *)
  destruct M9 as (I9 & D9 & n9 & N9 & E9). rewrite N9.
  assert (M9 : mounting_on node e9)
    by (split; [exact I9|]; split; [exact D9|]; exists n9; auto).
  assert (Ht : Node.transform n9 = Node.transform node)
    by (unfold node_data in E9; congruence).
  rewrite Ht. simpl bind.
  pose proof (onTransformChange_tracks (Node.transform node) e9) as T10.
  set (e10 := onTransformChange (Node.transform node) e9) in *.
  pose proof (tracks_step _ _ _ _ _ _ _ T09 T10) as T010.
  assert (M10 : mounting_on node e10)
    by (eapply quiet_mounting_on; [exact Mb | apply T010]).
  assert (V9 : value e9 = mounted_description node s) by apply T09.
  rewrite V9 in T010.
  clearbody e10. clear T09 T10 I9 D9 N9 E9 Ht M9 V9 n9. clear e9.
  (* size *)
  destruct M10 as (I10 & D10 & n10 & N10 & E10). rewrite N10.
  assert (M10 : mounting_on node e10)
    by (split; [exact I10|]; split; [exact D10|]; exists n10; auto).
  assert (Hsize : Node.size n10 = Node.size node)
    by (unfold node_data in E10; congruence).
  rewrite Hsize, Hs.
  destruct (onSizeChange_mounting_on node w h e10 M10) as (e11 & H11 & T11).
  rewrite H11. simpl bind.
  pose proof (onSizeChange_arms node w h e10 e11 M10 H11) as A11.
  pose proof (tracks_step _ _ _ _ _ _ _ T010 T11) as T.
  assert (V10 : value e10 = mounted_description node s) by apply T010.
  rewrite V10 in T.
  clear T010 T11 I10 D10 N10 E10 Hsize M10 V10 H11 n10. clear e10.
  (* the end *)
  destruct T as (V & Q & K).
  destruct Q as (Qi & Qd & Qr & Qq & Qs & Qn & _ & Qc & Qm & Qu).
  eexists. split; [reflexivity|]. simpl.
  split; [exact V|].
  split.
  { rewrite K. unfold mount_commands, replay_commands, size_command.
    rewrite Hmode, Hs. simpl fst. simpl snd.
    change (_changeQueue b) with (_changeQueue e).
    fold s. rewrite <- !app_assoc. reflexivity. }
  split; [exact Qi|]. split; [reflexivity|].
  destruct Qc as (Qid & Qc).
  split; [exact Qid|]. split; [exact A11|].
  split.
  { destruct (Qn _ eq_refl) as (n & N & E).
    exists n. split; [exact N|]. split; [exact E|].
    unfold sent, requests in Qs, Qc. rewrite N in Qs, Qc. simpl in Qs, Qc.
    split; [exact Qs|].
    change (_requestingUpdate b) with (_requestingUpdate e) in Qc.
    change (_id b) with id in Qc.
    destruct Qc as [(R & U) | (U0 & U1 & R)].
    - rewrite R. rewrite A11 in U. rewrite <- U. now rewrite app_nil_r.
    - now rewrite R, U0. }
  split; [exact Qr|]. split; [exact Qq|].
  split; [exact Qm | exact Qu].
Qed.

(** ** What each call does to the description and to the queue *)

Lemma mutate_mutated (m : Mutation) (e : DOMElement) :
  value (mutate m e) = mutated m e.
Proof. apply mutate_value. Qed.

Lemma mutate_queue (m : Mutation) (e : DOMElement) :
  _changeQueue (mutate m e) =
  _changeQueue e ++
  (if _initialized e then if guard m e then command_of m else [] else []).
Proof.
  destruct (guard m e) eqn:G.
  - now destruct (mutate_runs m e G) as (_ & K & _).
  - rewrite mutate_skips by exact G.
    destruct (_initialized e); now rewrite app_nil_r.
Qed.

Lemma event_calls_push (uiEvent : string) (e : DOMElement) :
  let pushed (op : Commands.t) (e' : DOMElement) :=
    value e' = value e /\
    _changeQueue e' =
      _changeQueue e ++
      (if _initialized e then [Opcode op; Str uiEvent] else []) in
  pushed Commands.SUBSCRIBE (_subscribe uiEvent e) /\
  pushed Commands.UNSUBSCRIBE (_unsubscribe uiEvent e) /\
  pushed Commands.PREVENT_DEFAULT (preventDefault uiEvent e) /\
  pushed Commands.ALLOW_DEFAULT (allowDefault uiEvent e).
Proof.
  unfold _subscribe, _unsubscribe, preventDefault, allowDefault.
  cbv zeta. repeat split; run_mutator; rewrite ?app_nil_r; reflexivity.
Qed.

Lemma onRemoveUIEvent_pushes (uiEvent : string) (e : DOMElement) :
  value (onRemoveUIEvent uiEvent e) = value e /\
  _changeQueue (onRemoveUIEvent uiEvent e) =
    _changeQueue e ++
    (if _initialized e
     then match indexOf uiEvent (_UIEvents e) with
          | Some _ => [Opcode Commands.UNSUBSCRIBE; Str uiEvent]
          | None => if _inDraw e
                    then [Opcode Commands.UNSUBSCRIBE; Str uiEvent] else []
          end
     else []).
Proof.
  destruct (event_calls_push uiEvent e) as (_ & (V & K) & _).
  unfold onRemoveUIEvent.
  destruct (indexOf uiEvent (_UIEvents e)).
  - simpl. auto.
  - destruct (_inDraw e); [auto|].
    destruct (_initialized e); now rewrite app_nil_r.
Qed.

Lemma onSizeChange_pushes (width height : Z) (e e' : DOMElement) :
  onSizeChange width height e = Ok e' ->
  value e' = value e /\
  _changeQueue e' =
    _changeQueue e ++
    (if _initialized e
     then match _node e with
          | Some node =>
              [Opcode Commands.CHANGE_SIZE;
               size_operand (fst (fst (Node.sizeMode node))) width;
               size_operand (snd (fst (Node.sizeMode node))) height]
          | None => []
          end
     else []).
Proof.
  unfold onSizeChange. destruct (_initialized e) eqn:I.
  - destruct (_node e) as [node|] eqn:N; [|discriminate].
    destruct (Node.sizeMode node) as [[mx my] mz]. simpl.
    rewrite !size_operand_sized. intros [= <-].
    destruct (arm_tracks (push [Opcode Commands.CHANGE_SIZE;
                                size_operand mx width;
                                size_operand my height] e))
      as (V & _ & K).
    rewrite app_nil_r in K. split; [exact V | exact K].
  - simpl. intros [= <-].
    destruct (arm_tracks e) as (V & _ & K). split; [exact V | exact K].
Qed.

Lemma onReceive_value (event : string) (payload : Payload) (e : DOMElement) :
  value (onReceive event payload e) =
    (if (event =? "resize")%string
     then Spec.with_renderSize (val_at 0 payload, val_at 1 payload) (value e)
     else value e) /\
  _changeQueue (onReceive event payload e) = _changeQueue e.
Proof.
  unfold onReceive. destruct (event =? "resize")%string.
  - run_mutator; split; reflexivity.
  - split; reflexivity.
Qed.

Lemma reset_is_push (e : DOMElement) :
  reset e = push (reset_commands (value e)) e.
Proof.
  unfold reset, reset_commands.
  rewrite (fold_left_push
             (fun k => [Opcode Commands.REMOVE_CLASS; Str k])).
  set (e1 := push _ e).
  assert (V1 : value e1 = value e) by reflexivity. rewrite V1.
  rewrite (fold_left_push
             (fun k => [Opcode Commands.CHANGE_PROPERTY; Str k; Str ""])).
  set (e2 := push _ e1).
  assert (V2 : value e2 = value e) by reflexivity. rewrite V2.
  rewrite (fold_left_push
             (fun k => [Opcode Commands.CHANGE_ATTRIBUTE; Str k; Str ""])).
  set (e3 := push _ e2).
  assert (V3 : value e3 = value e) by reflexivity. rewrite V3.
  subst e3 e2 e1. rewrite !push_push.
  destruct (negb (Spec.content (value e) =? "")%string);
    rewrite !push_push; rewrite <- ?app_assoc; reflexivity.
Qed.

Lemma push_quiet (cmds : list JSval) (e : DOMElement) : quiet e (push cmds e).
Proof. destruct e; solve_quiet. intros n H. exists n. auto. Qed.

(** A drain keeps everything but the queue, the node's log and the two
    flags it clears. *)
Lemma onUpdate_frame (e e' : DOMElement) :
  onUpdate e = Ok e' ->
  value e' = value e /\
  _initialized e' = _initialized e /\
  _inDraw e' = _inDraw e /\
  _id e' = _id e /\
  _UIEvents e' = _UIEvents e /\
  _callbackStore e' = _callbackStore e /\
  _renderSized e' = _renderSized e /\
  _requestingRenderSize e' = _requestingRenderSize e /\
  (_requestRenderSize e = false -> _requestRenderSize e' = false) /\
  _changeQueue e' = [] /\
  _requestingUpdate e' = false /\
  exists n n' : Node.t,
    _node e = Some n /\ _node e' = Some n' /\ node_data n' = node_data n /\
    Node.updateRequests n' = Node.updateRequests n /\
    Node.drawCommands n' =
      Node.drawCommands n ++
      burst (Node.location n) (_changeQueue e) (_requestRenderSize e).
Proof.
  unfold onUpdate. destruct (_node e) as [node|] eqn:N; [|discriminate].
  destruct (_changeQueue e) as [|c q] eqn:Q.
  - simpl. intros [= <-]. destruct e; simpl in *. subst.
    repeat split; auto. exists node, node. rewrite app_nil_r. auto.
  - rewrite flush_all.
    set (n1 := Node.sendDrawCommand _ (Node.sendDrawCommand _ node)).
    destruct (sendDrawCommands_log (c :: q) n1) as (D & U & L).
    set (n2 := fold_left _ (c :: q) n1) in *.
    cbv zeta in D, U, L.
    assert (E2 : node_data n2 = node_data node).
    { subst n2 n1. clear. generalize (c :: q). intros l.
      set (n := Node.sendDrawCommand _ (Node.sendDrawCommand _ node)).
      assert (H : node_data n = node_data node) by reflexivity.
      clearbody n. revert n H.
      induction l as [|x l IH]; intros n H; simpl; [exact H|].
      apply IH. rewrite <- H. reflexivity. }
    simpl negb. cbv iota.
    intros [= <-].
    destruct e as [nd idv ru rs rrs rr ini ind cq cbs vl uie];
      simpl in *. subst nd cq.
    destruct rr; simpl;
      (repeat split; auto; try discriminate);
      eexists node, _; (split; [reflexivity|]); (split; [reflexivity|]);
      simpl; rewrite ?D, ?U; subst n1; simpl;
      rewrite <- ?app_assoc; simpl; rewrite ?app_nil_r;
      repeat split; auto.
Qed.

Lemma onDismount_steps (e : DOMElement) :
  let m := SetProperty "display" (Str "none") in
  let e1 := setProperty "display" (Str "none") (reset e) in
  value e1 = mutated m e /\
  quiet e e1 /\
  _changeQueue e1 =
    _changeQueue e ++ reset_commands (value e) ++
    (if _initialized e then if guard m e then command_of m else [] else []) /\
  onDismount e = (e2 <- onUpdate e1 ;; Ok (with_initialized false e2)).
Proof.
  cbv zeta. rewrite reset_is_push.
  set (e0 := push (reset_commands (value e)) e).
  split; [apply (mutate_mutated (SetProperty "display" (Str "none")) e0)|].
  split.
  { eapply quiet_trans; [apply push_quiet|].
    apply (mutate_quiet (SetProperty "display" (Str "none")) e0). }
  split.
  { pose proof (mutate_queue (SetProperty "display" (Str "none")) e0) as K.
    simpl mutate in K. rewrite K.
    subst e0. simpl. now rewrite <- app_assoc. }
  unfold onDismount. now rewrite reset_is_push.
Qed.

(** The description after a call, whether the call returns or throws. *)
Lemma leaves_description (c : Call) (e : DOMElement) :
  value (leaves c e) = description_after c e.
Proof.
  unfold leaves, perform, description_after. destruct c; cbv beta iota.
  - apply mutate_mutated.
  - apply (mutate_mutated (SetAttribute "id" id)).
  - apply (mutate_mutated (SetProperty "display" (Str "block"))).
  - apply (mutate_mutated (SetProperty "display" (Str "none"))).
  - apply (mutate_mutated (SetProperty "opacity" (Number opacity))).
  - apply onTransformChange_tracks.
  - destruct (onSizeChange width height e) as [e'|] eqn:H; [|reflexivity].
    now apply onSizeChange_pushes in H.
  - unfold onSizeModeChange. destruct (_node e) as [n|]; [|reflexivity].
    destruct (Node.size n) as [[w h] d].
    destruct (onSizeChange w h e) as [e'|] eqn:H; [|reflexivity].
    now apply onSizeChange_pushes in H.
  - apply event_calls_push.
  - apply onRemoveUIEvent_pushes.
  - apply event_calls_push.
  - apply event_calls_push.
  - reflexivity.
  - apply onReceive_value.
  - destruct (onUpdate e) as [e'|] eqn:H; [|reflexivity].
    now apply onUpdate_frame in H.
  - destruct (onMount_characterised node id e) as (e' & -> & V & _).
    exact V.
  - destruct (onDismount_steps e) as (V & _ & _ & ->). cbv zeta in V.
    destruct (onUpdate _) as [e2|] eqn:H; unfold bind; [|exact V].
    apply onUpdate_frame in H. destruct H as (V2 & _).
    change (value (with_initialized false e2)) with (value e2). congruence.
Qed.

(** What a call that pushes on an initialized element only, pushes. *)
Lemma perform_pushes (c : Call) (e e' : DOMElement) (cmd : list JSval) :
  guarded_command c e = Some cmd ->
  perform c e = Ok e' ->
  _changeQueue e' = _changeQueue e ++ (if _initialized e then cmd else []).
Proof.
  destruct c; simpl; try discriminate; intros [= <-] H;
    try (injection H as <-).
  - apply mutate_queue.
  - apply (mutate_queue (SetAttribute "id" id)).
  - apply (mutate_queue (SetProperty "display" (Str "block"))).
  - apply (mutate_queue (SetProperty "display" (Str "none"))).
  - apply (mutate_queue (SetProperty "opacity" (Number opacity))).
  - now apply onSizeChange_pushes in H.
  - unfold onSizeModeChange in H. unfold size_command.
    destruct (_node e) as [n|] eqn:N; [|discriminate].
    destruct (Node.size n) as [[w h] d]. simpl.
    apply onSizeChange_pushes in H. now rewrite N in H.
  - apply event_calls_push.
  - apply onRemoveUIEvent_pushes.
  - apply event_calls_push.
  - apply event_calls_push.
  - simpl. destruct (_initialized e); now rewrite app_nil_r.
  - destruct (onReceive_value event payload e) as (_ & ->).
    destruct (_initialized e); now rewrite app_nil_r.
Qed.

(** ** Between calls *)

Lemma new_settled (options : Options) : settled (DOMElement_new options).
Proof. unfold settled. simpl. repeat split; discriminate. Qed.

Lemma quiet_settled (e e' : DOMElement) :
  settled e -> quiet e e' -> settled e'.
Proof.
  unfold settled, quiet.
  intros (D & U & R & M & Q & I & P)
         (I' & D' & R' & Q' & _ & N' & _ & (_ & C') & M' & U').
  split; [congruence|]. split; [auto|]. split; [congruence|].
  split; [rewrite M'; assumption|]. split; [congruence|].
  assert (K : _node e <> None -> _node e' <> None).
  { destruct (_node e) as [n|]; [|congruence]. intros _.
    destruct (N' n eq_refl) as (n' & -> & _). discriminate. }
  split.
  - intros H. apply K, I. congruence.
  - intros H. destruct C' as [(_ & F) | (_ & _ & F)].
    + apply K, P. congruence.
    + unfold requests in F. destruct (_node e'); [discriminate|].
      destruct (match _node e with Some n => _ | None => _ end);
        discriminate.
Qed.

Lemma leaves_settled (c : Call) (e : DOMElement) :
  settled e -> settled (leaves c e).
Proof.
  intros S. destruct (between_drains c) eqn:B.
  - unfold leaves. destruct (perform c e) as [e'|] eqn:H.
    + eapply quiet_settled; [exact S|]. eapply perform_quiet; eassumption.
    + destruct c; try exact S; discriminate.
  - destruct c; try discriminate; unfold leaves, perform; cbv beta iota.
    + destruct (onUpdate e) as [e'|] eqn:H; [|exact S].
      apply onUpdate_frame in H.
      destruct H as (_ & I & D & _ & U & _ & R & M & Q & _ & P
                     & n & n' & _ & N' & _).
      destruct S as (SD & SU & SR & SM & SQ & _ & _).
      unfold settled. rewrite N'.
      repeat split; try congruence; auto.
    + destruct (onMount_characterised node id e)
        as (e' & -> & _ & _ & I & D & _ & P & (n & N & _) & R & Q & M & U).
      destruct S as (SD & SU & SR & SM & SQ & _ & _).
      unfold settled. rewrite N.
      repeat split; try congruence; auto. rewrite M; assumption.
    + destruct (onDismount_steps e) as (_ & Q1 & _ & ->).
      pose proof (quiet_settled _ _ S Q1) as S1.
      destruct (onUpdate _) as [e2|] eqn:H; unfold bind; [|exact S1].
      apply onUpdate_frame in H.
      destruct H as (_ & I & D & _ & U & _ & R & M & Q & _ & P
                     & n & n' & _ & N' & _).
      destruct S1 as (SD & SU & SR & SM & SQ & _ & _).
      unfold settled. cbn [with_initialized _inDraw _UIEvents _renderSized
                             _requestingRenderSize _requestRenderSize
                             _initialized _node _requestingUpdate].
      rewrite N'.
      repeat split; try congruence; auto.
Qed.

Lemma after_settled (cs : list Call) (e : DOMElement) :
  settled e -> settled (after cs e).
Proof.
  unfold after. revert e. induction cs as [|c cs IH]; intros e S; simpl.
  - exact S.
  - apply IH, leaves_settled, S.
Qed.

Lemma after_app (cs cs' : list Call) (e : DOMElement) :
  after (cs ++ cs') e = after cs' (after cs e).
Proof. unfold after. apply fold_left_app. Qed.

(** ** Setters and getters *)

Lemma mutated_reads_back (m : Mutation) (e : DOMElement) :
  match m with
  | SetProperty name v =>
      storable name (Spec.properties (value e)) ->
      lookup name (Spec.properties (mutated m e)) = v
  | SetAttribute name v =>
      storable name (Spec.attributes (value e)) ->
      lookup name (Spec.attributes (mutated m e)) = v
  | SetContent c => Spec.content (mutated m e) = c
  | AddClass c => flag c (Spec.classes (mutated m e)) = true
  | RemoveClass c => True
  | SetCutoutState b => Spec.cutout (mutated m e) = b
  end.
Proof.
  unfold mutated. destruct m; simpl; trivial.
  - intros S. destruct (strict_neq _ v) eqn:G; simpl.
    + now apply lookup_set_same.
    + destruct (_inDraw e); simpl;
        [now apply lookup_set_same | now apply strict_neq_false].
  - intros S. destruct (strict_neq _ v) eqn:G; simpl.
    + now apply lookup_set_same.
    + destruct (_inDraw e); simpl;
        [now apply lookup_set_same | now apply strict_neq_false].
  - destruct (Spec.content (value e) =? content)%string eqn:G; simpl.
    + apply String.eqb_eq in G. now destruct (_inDraw e).
    + reflexivity.
  - destruct (flag c (Spec.classes (value e))) eqn:G; simpl.
    + destruct (_inDraw e); simpl; [apply flag_set_true | exact G].
    + apply flag_set_true.
  - destruct (Bool.eqb (Spec.cutout (value e)) usesCutout) eqn:G; simpl.
    + apply Bool.eqb_prop in G. now destruct (_inDraw e).
    + reflexivity.
Qed.

Lemma mutate_reads_back (m : Mutation) (e : DOMElement) :
  match m with
  | SetProperty name v =>
      storable name (Spec.properties (value e)) ->
      lookup name (Spec.properties (value (mutate m e))) = v
  | SetAttribute name v =>
      storable name (Spec.attributes (value e)) ->
      lookup name (Spec.attributes (value (mutate m e))) = v
  | SetContent c => Spec.content (value (mutate m e)) = c
  | AddClass c => flag c (Spec.classes (value (mutate m e))) = true
  | RemoveClass c => True
  | SetCutoutState b => Spec.cutout (value (mutate m e)) = b
  end.
Proof. rewrite mutate_mutated. apply mutated_reads_back. Qed.

Lemma storable_name (k : string) {V : Type} (o : Obj V) :
  (k =? "__proto__")%string = false -> storable k o.
Proof. intros H. left. now apply String.eqb_neq. Qed.

(** X1: a getter called after the matching setter returns the value that
    was set, whether the setter had to write it or found it there.  For
    [getProperty] after [setProperty] and [getAttribute] after
    [setAttribute] this holds of every name whose write is stored: every
    name but [__proto__], and [__proto__] too where the map owns such a
    key.  It holds of [getId] after [setId], [getContent] after
    [setContent], [hasClass] after [addClass], the cutout after
    [setCutoutState], and of the properties that [onShow], [onHide] and
    [onOpacityChange] set.  A property written under [__proto__] on a new
    element is not read back. *)
Theorem getters_read_back (e : DOMElement) :
  (forall name v,
      storable name (Spec.properties (value e)) ->
      getProperty name (setProperty name v e) = v) /\
  (forall name v,
      storable name (Spec.attributes (value e)) ->
      getAttribute name (setAttribute name v e) = v) /\
  (forall id, getId (setId id e) = id) /\
  (forall c, getContent (setContent c e) = c) /\
  (forall c, hasClass c (addClass c e) = true) /\
  (forall b, Spec.cutout (value (setCutoutState b e)) = b) /\
  getProperty "display" (onShow e) = Str "block" /\
  getProperty "display" (onHide e) = Str "none" /\
  (forall opacity,
      getProperty "opacity" (onOpacityChange opacity e) = Number opacity) /\
  getProperty "__proto__"
    (setProperty "__proto__" (Str "red") detached) <> Str "red".
Proof.
  unfold getProperty, getAttribute, getId, getContent, hasClass, setId,
    onShow, onHide, onOpacityChange.
  repeat split; intros.
  - now apply (mutate_reads_back (SetProperty name v) e).
  - now apply (mutate_reads_back (SetAttribute name v) e).
  - now apply (mutate_reads_back (SetAttribute "id" id) e), storable_name.
  - exact (mutate_reads_back (SetContent c) e).
  - exact (mutate_reads_back (AddClass c) e).
  - exact (mutate_reads_back (SetCutoutState b) e).
  - now apply (mutate_reads_back (SetProperty "display" (Str "block")) e),
      storable_name.
  - now apply (mutate_reads_back (SetProperty "display" (Str "none")) e),
      storable_name.
  - now apply (mutate_reads_back (SetProperty "opacity" (Number opacity)) e),
      storable_name.
  - discriminate.
Qed.

Lemma getters_read_back_witness :
  storable "color" (Spec.properties (value mounted)) /\
  getProperty "color" (setProperty "color" (Str "red") mounted) = Str "red".
Proof.
  assert (S : storable "color" (Spec.properties (value mounted)))
    by (left; discriminate).
  split; [exact S|].
  exact (proj1 (getters_read_back mounted) "color" (Str "red") S).
Defined.

Lemma lookup_set_other (k k' : string) (v : JSval) (o : Obj JSval) :
  k <> k' -> lookup k' (set k v o) = lookup k' o.
Proof. intros H. unfold lookup. now rewrite get_set_other. Qed.

Lemma flag_set_other (k k' : string) (v : bool) (o : Obj bool) :
  k <> k' -> flag k' (set k v o) = flag k' o.
Proof. intros H. unfold flag. now rewrite get_set_other. Qed.

(** X2: a mutator touches its own key only.  [setProperty(name, v)]
    leaves every other property as it was, and the attributes, classes,
    content, cutout, tag and render size; likewise [setAttribute];
    [addClass(c)] and [removeClass(c)] leave [hasClass] of every other
    class; [setContent] and [setCutoutState] leave the three maps. *)
Theorem mutators_touch_their_key_only (m : Mutation) (e : DOMElement) :
  Spec.tagName (value (mutate m e)) = Spec.tagName (value e) /\
  Spec.renderSize (value (mutate m e)) = Spec.renderSize (value e) /\
  (forall name,
      (forall v, m <> SetProperty name v) ->
      getProperty name (mutate m e) = getProperty name e) /\
  (forall name,
      (forall v, m <> SetAttribute name v) ->
      getAttribute name (mutate m e) = getAttribute name e) /\
  (forall c,
      m <> AddClass c -> m <> RemoveClass c ->
      hasClass c (mutate m e) = hasClass c e) /\
  ((forall c, m <> SetContent c) ->
   getContent (mutate m e) = getContent e) /\
  ((forall b, m <> SetCutoutState b) ->
   Spec.cutout (value (mutate m e)) = Spec.cutout (value e)).
Proof.
  unfold getProperty, getAttribute, getContent, hasClass.
  rewrite mutate_mutated. unfold mutated.
  destruct (guard m e); [|repeat split; reflexivity].
  destruct m; simpl; repeat split; intros; try reflexivity.
  - apply lookup_set_other. intros ->. now apply (H v).
  - apply lookup_set_other. intros ->. now apply (H v).
  - exfalso. now apply (H content).
  - apply flag_set_other. congruence.
  - apply flag_set_other. congruence.
  - exfalso. now apply (H usesCutout).
Qed.

Lemma mutators_touch_their_key_only_witness :
  getProperty "opacity" (setProperty "color" (Str "red") mounted) = Number 1 /\
  hasClass "famous-dom-element" (addClass "big" mounted) = true.
Proof.
  split.
  - refine (proj1 (proj2 (proj2
              (mutators_touch_their_key_only
                 (SetProperty "color" (Str "red")) mounted))) "opacity" _).
    discriminate.
  - refine (proj1 (proj2 (proj2 (proj2 (proj2
              (mutators_touch_their_key_only (AddClass "big") mounted)))))
              "famous-dom-element" _ _); discriminate.
Defined.

(** X3: what [getValue] and [getClasses] list is the set of the class
    map's own keys.  A class that [hasClass] reports is listed, or is a
    name that every object inherits; a key stored with a false flag is
    listed though [hasClass] denies it, and on a new element [hasClass]
    reports the inherited name [toString], which is not listed; the
    deprecated fields repeat [properties] and [getId]. *)
Theorem getValue_lists_class_keys (e : DOMElement) (c : string) :
  s_classes (getValue e) = getClasses e /\
  (In c (getClasses e) <-> get c (Spec.classes (value e)) <> None) /\
  (hasClass c e = true -> In c (getClasses e) \/ inherited c = true) /\
  (hasClass c e = true -> inherited c = false -> In c (getClasses e)) /\
  s_styles (getValue e) = s_properties (getValue e) /\
  s_id (getValue e) = getId e /\
  (let e0 :=
     DOMElement_new
       (mkOptions None (Some [("hidden", false)]) None None None None None
          None None) in
   In "hidden" (getClasses e0) /\ hasClass "hidden" e0 = false) /\
  (hasClass "toString" detached = true /\
   ~ In "toString" (getClasses detached)).
Proof.
  assert (K : hasClass c e = true ->
              In c (getClasses e) \/ inherited c = true).
  { unfold hasClass, getClasses, flag. intros H.
    destruct (get c (Spec.classes (value e))) eqn:G; [left | now right].
    apply get_keys. congruence. }
  split; [reflexivity|]. split; [apply get_keys|].
  split; [exact K|].
  split; [intros H I; destruct (K H); congruence|].
  split; [reflexivity|]. split; [reflexivity|].
  split; [simpl; auto|].
  split; [reflexivity|].
  simpl. intros [H|[]]. discriminate H.
Qed.

Lemma getValue_lists_class_keys_witness :
  hasClass "famous-dom-element" mounted = true /\
  inherited "famous-dom-element" = false /\
  In "famous-dom-element" (getClasses mounted).
Proof.
  split; [reflexivity|]. split; [reflexivity|].
  exact (proj1 (proj2 (proj2 (proj2
           (getValue_lists_class_keys mounted "famous-dom-element"))))
           eq_refl eq_refl).
Defined.

(** ** Calls and the queue *)

(** X5: every public call other than [onTransformChange], [onUpdate],
    [onMount] and [onDismount] pushes on an initialized element only.
    When it returns, the queue has grown by the call's one command
    ([guarded_command]) if the element is initialized, and is unchanged if
    it is not. *)
Theorem calls_push_when_initialized
  (c : Call) (e e' : DOMElement) (cmd : list JSval) :
  guarded_command c e = Some cmd ->
  perform c e = Ok e' ->
  _changeQueue e' = _changeQueue e ++ (if _initialized e then cmd else []) /\
  (_initialized e = false -> _changeQueue e' = _changeQueue e).
Proof.
  intros G H. pose proof (perform_pushes c e e' cmd G H) as K.
  split; [exact K|]. intros I. rewrite K, I. apply app_nil_r.
Qed.

Lemma calls_push_when_initialized_witness :
  _changeQueue (preventDefault "wheel" detached) = [] /\
  _changeQueue (preventDefault "wheel" mounted) =
    [Opcode Commands.PREVENT_DEFAULT; Str "wheel"].
Proof.
  split.
  - exact (proj2 (calls_push_when_initialized (PreventDefault "wheel")
                    detached _ _ eq_refl eq_refl) eq_refl).
  - exact (proj1 (calls_push_when_initialized (PreventDefault "wheel")
                    mounted _ _ eq_refl eq_refl)).
Defined.

Lemma leaves_quiet (c : Call) (e : DOMElement) :
  between_drains c = true -> quiet e (leaves c e).
Proof.
  intros B. unfold leaves. destruct (perform c e) as [e'|] eqn:H.
  - eapply perform_quiet; eassumption.
  - destruct c; try discriminate; apply quiet_refl.
Qed.

Lemma after_quiet (cs : list Call) (e : DOMElement) :
  forallb between_drains cs = true -> quiet e (after cs e).
Proof.
  unfold after. revert e. induction cs as [|c cs IH]; intros e B; simpl.
  - apply quiet_refl.
  - simpl in B. apply andb_prop in B. destruct B as (B1 & B2).
    eapply quiet_trans; [apply leaves_quiet, B1 | apply IH, B2].
Qed.

(** X6: between two drains the node is asked for at most one update,
    whatever is called and however often.  Over any series of calls
    without [onUpdate], [onMount] and [onDismount], the node receives
    either no request, or exactly one, carrying the element's id, and that
    only if none was outstanding at the start; no draw command is sent;
    and the element stays mounted or unmounted as it was. *)
Theorem calls_between_drains_coalesce (cs : list Call) (e : DOMElement) :
  forallb between_drains cs = true ->
  coalesced e (after cs e) /\
  sent (after cs e) = sent e /\
  _initialized (after cs e) = _initialized e.
Proof.
  intros B. destruct (after_quiet cs e B)
    as (I & _ & _ & _ & S & _ & _ & C & _).
  auto.
Qed.

Lemma calls_between_drains_coalesce_witness :
  let cs := [Mutate (SetProperty "color" (Str "red"));
             OnTransformChange [1; 0; 0; 1];
             PreventDefault "wheel";
             OnSizeChange 10 20;
             Mutate (AddClass "big")] in
  requests (after cs mounted) = requests mounted ++ [Number 0] /\
  sent (after cs mounted) = sent mounted.
Proof.
  cbv zeta.
  destruct (calls_between_drains_coalesce
              [Mutate (SetProperty "color" (Str "red"));
               OnTransformChange [1; 0; 0; 1];
               PreventDefault "wheel";
               OnSizeChange 10 20;
               Mutate (AddClass "big")] mounted eq_refl) as (_ & S & _).
  split; [vm_compute; reflexivity | exact S].
Defined.

(** ** Drains *)

Lemma drained_again (e : DOMElement) (n : Node.t) :
  _node e = Some n -> _changeQueue e = [] -> _requestingUpdate e = false ->
  onUpdate e = Ok e.
Proof.
  intros N Q U. unfold onUpdate. rewrite N, Q. simpl.
  destruct e; simpl in *. now subst.
Qed.

(** X7: a drain on an element whose node is bound returns normally.  An
    empty queue sends nothing.  Otherwise the node is sent one burst: the
    scope command and the location, then the queue, oldest command first
    (then the measurement request if [_requestRenderSize] is set).  The
    queue is empty afterwards and no request is outstanding; the
    description and the node's requests are untouched; and draining again
    at once changes nothing. *)
Theorem drain_sends_one_burst (e : DOMElement) (node : Node.t) :
  _node e = Some node ->
  exists e' : DOMElement,
    onUpdate e = Ok e' /\
    sent e' =
      sent e ++
      burst (Node.location node) (_changeQueue e) (_requestRenderSize e) /\
    _changeQueue e' = [] /\
    _requestingUpdate e' = false /\
    requests e' = requests e /\
    value e' = value e /\
    _initialized e' = _initialized e /\
    onUpdate e' = Ok e'.
Proof.
  intros N. destruct (onUpdate e) as [e'|] eqn:H.
  - exists e'. split; [reflexivity|].
    destruct (onUpdate_frame e e' H)
      as (V & I & _ & _ & _ & _ & _ & _ & _ & Q & U
          & n & n' & N0 & N' & _ & R & S).
    rewrite N in N0. injection N0 as <-.
    unfold sent, requests. rewrite N, N'.
    repeat split; auto. eapply drained_again; eassumption.
  - unfold onUpdate in H. rewrite N in H. discriminate.
Qed.

Lemma drain_sends_one_burst_witness :
  exists e' : DOMElement,
    onUpdate (setProperty "color" (Str "red") mounted) = Ok e' /\
    sent e' =
      sent mounted ++
      [Opcode Commands.WITH; Str "body/0";
       Opcode Commands.CHANGE_PROPERTY; Str "color"; Str "red"] /\
    _changeQueue e' = [] /\
    onUpdate e' = Ok e'.
Proof.
  destruct (drain_sends_one_burst
              (setProperty "color" (Str "red") mounted) _ eq_refl)
    as (e' & H & S & Q & _ & _ & _ & _ & A).
  exists e'. auto.
Defined.

(** ** Mounting, start to end *)

(** X8: [onMount] never throws and keeps the description.  Whatever the
    element and the node, it returns an element that is initialized, out
    of forced resync and bound to the node under the given id.  Classes,
    content, cutout and tag are those it found; the attributes are those
    it found plus [data-fa-path] set to the node's location; the
    properties are those it found plus [display] set to [block] and
    [opacity] set to the node's opacity. *)
Theorem onMount_keeps_description
  (node : Node.t) (id : JSval) (e : DOMElement) :
  exists e' : DOMElement,
    onMount node id e = Ok e' /\
    _initialized e' = true /\ _inDraw e' = false /\ _id e' = id /\
    (exists n, _node e' = Some n /\ node_data n = node_data node) /\
    Spec.classes (value e') = Spec.classes (value e) /\
    Spec.content (value e') = Spec.content (value e) /\
    Spec.cutout (value e') = Spec.cutout (value e) /\
    Spec.tagName (value e') = Spec.tagName (value e) /\
    Spec.attributes (value e') =
      set "data-fa-path" (Str (Node.location node))
        (Spec.attributes (value e)) /\
    Spec.properties (value e') =
      set "opacity" (Number (Node.opacity node))
        (set "display" (Str "block") (Spec.properties (value e))).
Proof.
  destruct (onMount_characterised node id e)
    as (e' & H & V & _ & I & D & J & _ & (n & N & E & _) & _).
  exists e'. rewrite V. repeat split; auto. exists n. auto.
Qed.

(** X9: what [onMount] queues, in order: [INIT_DOM] and the tag; an
    [ADD_CLASS] for every class that is set; a [CHANGE_PROPERTY] and a
    [CHANGE_ATTRIBUTE] for every property and attribute with a truthy
    value (a value of 0 or the empty string is not replayed); the content
    if it is not empty; a [SUBSCRIBE] for every UI event of the node; the
    path attribute; [display: block]; the size; the opacity; the
    transform with all its scalars; and the size once more.  Nothing
    else is queued and nothing is sent. *)
Theorem onMount_queues_replay (node : Node.t) (id : JSval) (e : DOMElement) :
  exists e' : DOMElement,
    onMount node id e = Ok e' /\
    _changeQueue e' = _changeQueue e ++ mount_commands node (value e) /\
    sent e' = Node.drawCommands node.
Proof.
  destruct (onMount_characterised node id e)
    as (e' & H & _ & K & _ & _ & _ & _ & (n & N & _ & S & _) & _).
  exists e'. unfold sent. rewrite N. auto.
Qed.

Lemma onMount_queues_replay_witness :
  exists e' : DOMElement,
    onMount sampleNode (Number 0) (addClass "1" (addClass "b" detached)) =
      Ok e' /\
    firstn 8 (_changeQueue e') =
      [Opcode Commands.INIT_DOM; Str "DIV";
       Opcode Commands.ADD_CLASS; Str "1";
       Opcode Commands.ADD_CLASS; Str "famous-dom-element";
       Opcode Commands.ADD_CLASS; Str "b"].
Proof.
  destruct (onMount_queues_replay sampleNode (Number 0)
              (addClass "1" (addClass "b" detached)))
    as (e' & H & K & _).
  exists e'. split; [exact H|]. rewrite K. reflexivity.
Defined.

(** X10: [onMount] leaves exactly one update request outstanding.  The
    node it is given is asked for one update, under the new id, unless
    the element already had a request outstanding, and then it is asked
    for none. *)
Theorem onMount_requests_one_update
  (node : Node.t) (id : JSval) (e : DOMElement) :
  exists e' : DOMElement,
    onMount node id e = Ok e' /\
    _requestingUpdate e' = true /\
    requests e' =
      Node.updateRequests node ++ (if _requestingUpdate e then [] else [id]).
Proof.
  destruct (onMount_characterised node id e)
    as (e' & H & _ & _ & _ & _ & _ & U & (n & N & _ & _ & R) & _).
  exists e'. unfold requests. rewrite N. auto.
Qed.

(** X11: mount, then the first drain.  The node receives one burst: the
    scope command and its location, whatever was queued before the mount,
    then the replay in the order [onMount] queued it, which starts with
    [INIT_DOM] and the tag, and a measurement request at the end if
    [_requestRenderSize] is set.  Afterwards the queue is empty, no
    request is outstanding and the element is initialized. *)
Theorem mount_then_drain (node : Node.t) (id : JSval) (e : DOMElement) :
  exists e1 e2 : DOMElement,
    onMount node id e = Ok e1 /\
    onUpdate e1 = Ok e2 /\
    sent e2 =
      Node.drawCommands node ++
      [Opcode Commands.WITH; Str (Node.location node)] ++
      _changeQueue e ++
      [Opcode Commands.INIT_DOM; Str (Spec.tagName (value e))] ++
      skipn 2 (mount_commands node (value e)) ++
      (if _requestRenderSize e
       then [Opcode Commands.DOM_RENDER_SIZE; Str (Node.location node)]
       else []) /\
    _changeQueue e2 = [] /\
    _requestingUpdate e2 = false /\
    _initialized e2 = true.
Proof.
  destruct (onMount_characterised node id e)
    as (e1 & H & _ & K & I & _ & _ & _ & (n & N & E & S & _) & _ & M1 & _).
  exists e1.
  destruct (onUpdate e1) as [e2|] eqn:H2.
  - exists e2. split; [exact H|]. split; [reflexivity|].
    destruct (onUpdate_frame e1 e2 H2)
      as (_ & I2 & _ & _ & _ & _ & _ & _ & _ & Q2 & U2
          & n1 & n2 & N1 & N2 & _ & _ & S2).
    rewrite N in N1. injection N1 as <-.
    unfold sent. rewrite N2, S2, S, K, M1.
    assert (L : Node.location n = Node.location node)
      by (unfold node_data in E; congruence).
    rewrite L. repeat split; auto; try congruence.
    f_equal. unfold mount_commands, burst.
    destruct (_changeQueue e); simpl; [reflexivity|].
    rewrite <- app_assoc. reflexivity.
  - unfold onUpdate in H2. rewrite N in H2. discriminate.
Qed.

Lemma mount_then_drain_witness :
  exists e1 e2 : DOMElement,
    onMount sampleNode (Number 0) detached = Ok e1 /\
    onUpdate e1 = Ok e2 /\
    firstn 6 (sent e2) =
      [Opcode Commands.WITH; Str "body/0";
       Opcode Commands.INIT_DOM; Str "DIV";
       Opcode Commands.ADD_CLASS; Str "famous-dom-element"] /\
    _changeQueue e2 = [].
Proof.
  destruct (mount_then_drain sampleNode (Number 0) detached)
    as (e1 & e2 & H1 & H2 & S & Q & _).
  exists e1, e2. rewrite S. auto.
Defined.

(** ** Dismounting *)

Lemma reset_commands_not_empty (s : Spec.t) : reset_commands s <> [].
Proof.
  unfold reset_commands. intros H.
  repeat (apply app_eq_nil in H; destruct H as (_ & H)).
  discriminate.
Qed.

(** [onDismount] with a node bound, start to end. *)
Lemma onDismount_characterised (e : DOMElement) (node : Node.t) :
  _node e = Some node ->
  let hide := SetProperty "display" (Str "none") in
  exists e' : DOMElement,
    onDismount e = Ok e' /\
    sent e' =
      sent e ++
      [Opcode Commands.WITH; Str (Node.location node)] ++
      _changeQueue e ++ reset_commands (value e) ++
      (if _initialized e && guard hide e then command_of hide else []) ++
      (if _requestRenderSize e
       then [Opcode Commands.DOM_RENDER_SIZE; Str (Node.location node)]
       else []) /\
    _initialized e' = false /\
    _changeQueue e' = [] /\
    _requestingUpdate e' = false /\
    (exists n, _node e' = Some n /\ node_data n = node_data node) /\
    Spec.classes (value e') = Spec.classes (value e) /\
    Spec.attributes (value e') = Spec.attributes (value e) /\
    Spec.content (value e') = Spec.content (value e) /\
    Spec.cutout (value e') = Spec.cutout (value e) /\
    getProperty "display" e' = Str "none".
Proof.
  intros N hide.
  destruct (onDismount_steps e) as (V1 & Q1 & K1 & ->).
  cbv zeta in V1, Q1, K1. fold hide in V1, K1.
  set (e1 := setProperty "display" (Str "none") (reset e)) in *.
  destruct Q1 as (_ & _ & _ & M1 & S1 & N1 & _).
  destruct (N1 node N) as (n1 & N1' & E1).
  destruct (onUpdate e1) as [e2|] eqn:H2;
    [|unfold onUpdate in H2; rewrite N1' in H2; discriminate].
  exists (with_initialized false e2). split; [reflexivity|].
  destruct (onUpdate_frame e1 e2 H2)
    as (V2 & _ & _ & _ & _ & _ & _ & _ & _ & Q2 & U2
        & n1' & n2 & N1'' & N2 & E2 & _ & S2).
  rewrite N1' in N1''. injection N1'' as <-.
  assert (L : Node.location n1 = Node.location node)
    by (unfold node_data in E1; congruence).
  assert (B : burst (Node.location n1) (_changeQueue e1)
                (_requestRenderSize e1) =
              [Opcode Commands.WITH; Str (Node.location node)] ++
              _changeQueue e ++ reset_commands (value e) ++
              (if _initialized e && guard hide e
               then command_of hide else []) ++
              (if _requestRenderSize e
               then [Opcode Commands.DOM_RENDER_SIZE;
                     Str (Node.location node)]
               else [])).
  { rewrite K1, M1, L.
    replace (if _initialized e && guard hide e then command_of hide else [])
      with (if _initialized e
            then if guard hide e then command_of hide else [] else [])
      by now destruct (_initialized e), (guard hide e).
    set (h := if _initialized e then _ else _).
    set (q := _changeQueue e ++ reset_commands (value e) ++ h).
    assert (Z : q <> []).
    { subst q. intros Z. apply app_eq_nil in Z. destruct Z as (_ & Z).
      apply app_eq_nil in Z. destruct Z as (Z & _).
      now apply reset_commands_not_empty in Z. }
    unfold burst. destruct q eqn:Eq; [congruence|].
    rewrite <- Eq. subst q. now rewrite <- !app_assoc. }
  split.
  { rewrite <- B. unfold sent in *. cbn [with_initialized _node].
    rewrite N2, S2. rewrite N1' in S1. now rewrite S1. }
  split; [reflexivity|]. split; [exact Q2|]. split; [exact U2|].
  split; [exists n2; split; [exact N2 | congruence]|].
  assert (V : value (with_initialized false e2) = mutated hide e)
    by (cbn [with_initialized value]; congruence).
  unfold getProperty. rewrite V.
  pose proof (mutated_reads_back hide e) as R. cbv iota beta in R.
  specialize (R (storable_name "display" _ eq_refl)).
  unfold hide in *.
  repeat split; auto;
    unfold mutated; destruct (guard _ e); reflexivity.
Qed.

(** X12: [onDismount] on an element whose node is bound returns normally
    and tears the remote element down in one burst: the scope prefix,
    whatever was queued, a [REMOVE_CLASS] for every class key, an emptying
    [CHANGE_PROPERTY] and [CHANGE_ATTRIBUTE] for every property and
    attribute key, an emptying [CHANGE_CONTENT] if there is content, the
    cutout switched off, [display: none] if the element is initialized
    and was not hidden, and a measurement request if [_requestRenderSize]
    is set.  The keys come in the order in which the object enumerates
    them.  The element is left uninitialized, with an empty queue and no
    request outstanding, still bound to its node, and with its classes,
    attributes, content and cutout as they were: only [display] is now
    [none]. *)
Theorem onDismount_tears_down (e : DOMElement) (node : Node.t) :
  _node e = Some node ->
  let hide := SetProperty "display" (Str "none") in
  exists e' : DOMElement,
    onDismount e = Ok e' /\
    sent e' =
      sent e ++
      [Opcode Commands.WITH; Str (Node.location node)] ++
      _changeQueue e ++ reset_commands (value e) ++
      (if _initialized e && guard hide e then command_of hide else []) ++
      (if _requestRenderSize e
       then [Opcode Commands.DOM_RENDER_SIZE; Str (Node.location node)]
       else []) /\
    _initialized e' = false /\
    _changeQueue e' = [] /\
    _requestingUpdate e' = false /\
    (exists n, _node e' = Some n /\ node_data n = node_data node) /\
    Spec.classes (value e') = Spec.classes (value e) /\
    Spec.attributes (value e') = Spec.attributes (value e) /\
    Spec.content (value e') = Spec.content (value e) /\
    Spec.cutout (value e') = Spec.cutout (value e) /\
    getProperty "display" e' = Str "none".
Proof. apply onDismount_characterised. Qed.

Lemma onDismount_tears_down_witness :
  exists e' : DOMElement,
    onDismount indexed = Ok e' /\
    sent e' =
      sent indexed ++
      [Opcode Commands.WITH; Str "body/0";
       Opcode Commands.REMOVE_CLASS; Str "1";
       Opcode Commands.REMOVE_CLASS; Str "famous-dom-element";
       Opcode Commands.REMOVE_CLASS; Str "b";
       Opcode Commands.CHANGE_PROPERTY; Str "display"; Str "";
       Opcode Commands.CHANGE_PROPERTY; Str "opacity"; Str "";
       Opcode Commands.CHANGE_ATTRIBUTE; Str "data-fa-path"; Str "";
       Opcode Commands.CHANGE_CONTENT; Str "";
       Opcode Commands.GL_CUTOUT_STATE; Bool false;
       Opcode Commands.CHANGE_PROPERTY; Str "display"; Str "none"] /\
    _initialized e' = false /\
    hasClass "famous-dom-element" e' = true.
Proof.
  destruct (onDismount_tears_down indexed _ eq_refl)
    as (e' & H & S & I & _ & _ & _ & C & _).
  exists e'. split; [exact H|]. split; [exact S|]. split; [exact I|].
  unfold hasClass. rewrite C. reflexivity.
Defined.

(** X13: the description survives a dismount and a second mount.  After
    [onDismount] on an element whose node is bound and [onMount] on
    another node, the classes, content and cutout are those of before the
    dismount and the attributes are those of before with the new path;
    the second mount queues the whole replay again, so every class that
    was set is added again on the new node. *)
Theorem remount_replays_description
  (e : DOMElement) (node node' : Node.t) (id' : JSval) :
  _node e = Some node ->
  exists e1 e2 : DOMElement,
    onDismount e = Ok e1 /\
    onMount node' id' e1 = Ok e2 /\
    Spec.classes (value e2) = Spec.classes (value e) /\
    Spec.content (value e2) = Spec.content (value e) /\
    Spec.cutout (value e2) = Spec.cutout (value e) /\
    Spec.attributes (value e2) =
      set "data-fa-path" (Str (Node.location node'))
        (Spec.attributes (value e)) /\
    _changeQueue e2 = mount_commands node' (value e1) /\
    (forall c, hasClass c e = true -> In c (getClasses e) ->
               exists before after_,
                 _changeQueue e2 =
                   before ++ [Opcode Commands.ADD_CLASS; Str c] ++ after_).
Proof.
  intros N.
  destruct (onDismount_characterised e node N)
    as (e1 & H1 & _ & _ & Q1 & _ & _ & C1 & A1 & T1 & U1 & _).
  destruct (onMount_characterised node' id' e1)
    as (e2 & H2 & V2 & K2 & _).
  exists e1, e2. rewrite V2, K2, Q1. simpl.
  rewrite C1, A1, T1, U1. repeat split; auto.
  intros c F L. unfold mount_commands, replay_commands. rewrite C1.
  unfold getClasses in L. unfold hasClass in F.
  apply in_split in L. destruct L as (l1 & l2 & L).
  rewrite L, flat_map_app. cbn [flat_map]. rewrite F.
  rewrite <- !app_assoc.
  exists ([Opcode Commands.INIT_DOM; Str (Spec.tagName (value e1))] ++
          flat_map
            (fun k =>
               if flag k (Spec.classes (value e))
               then [Opcode Commands.ADD_CLASS; Str k] else []) l1).
  eexists. rewrite <- !app_assoc. reflexivity.
Qed.

Lemma remount_replays_description_witness :
  exists e1 e2 : DOMElement,
    onDismount mounted = Ok e1 /\
    onMount sampleNode (Number 1) e1 = Ok e2 /\
    Spec.classes (value e2) = [("famous-dom-element", true)] /\
    firstn 4 (_changeQueue e2) =
      [Opcode Commands.INIT_DOM; Str "SPAN";
       Opcode Commands.ADD_CLASS; Str "famous-dom-element"].
Proof.
  destruct (remount_replays_description mounted _ sampleNode (Number 1)
              eq_refl)
    as (e1 & e2 & H1 & H2 & C & _ & _ & _ & K & _).
  exists e1, e2. split; [exact H1|]. split; [exact H2|].
  split; [exact C|].
  rewrite K. unfold mount_commands, replay_commands.
  assert (V : Spec.tagName (value e1) = "SPAN" /\
              Spec.classes (value e1) = [("famous-dom-element", true)]).
  { revert H1. vm_compute. intros [= <-]. split; reflexivity. }
  destruct V as (-> & ->). reflexivity.
Defined.

(** ** Elements built by the constructor *)

(** X14: what holds of every element between calls.  Start from
    [new DOMElement(undefined, options)] and make any public calls, some
    of which may throw.  Then the element is never left in forced resync,
    its list of tracked UI events is empty, render-size tracking and both
    measurement flags are off, and an element that is initialized or has
    a request outstanding has a node bound. *)
Theorem constructed_elements_are_settled
  (options : Options) (cs : list Call) :
  let e := after cs (DOMElement_new options) in
  _inDraw e = false /\
  _UIEvents e = [] /\
  _renderSized e = false /\
  _requestingRenderSize e = false /\
  _requestRenderSize e = false /\
  (_initialized e = true -> _node e <> None) /\
  (_requestingUpdate e = true -> _node e <> None).
Proof. apply after_settled, new_settled. Qed.



Lemma leaves_keeps_description (c : Call) (e : DOMElement) :
  keeps_description c = true -> value (leaves c e) = value e.
Proof.
  intros H. rewrite leaves_description.
  destruct c; try discriminate H; try reflexivity.
  simpl in *. now destruct (event =? "resize")%string.
Qed.

(** X16: the calls that are no setters leave the description alone.  Over
    any series of drains, geometry hooks ([onTransformChange],
    [onSizeChange], [onSizeModeChange]), event calls ([onAddUIEvent],
    [onRemoveUIEvent], [preventDefault], [allowDefault], [on]) and
    deliveries of events other than ['resize'], whether the calls return
    or throw, the description is the one the series started with, and so
    is what [getValue] serialises. *)
Theorem hooks_keep_description (cs : list Call) (e : DOMElement) :
  forallb keeps_description cs = true ->
  value (after cs e) = value e /\ getValue (after cs e) = getValue e.
Proof.
  intros H.
  assert (V : value (after cs e) = value e).
  { unfold after. revert e. induction cs as [|c cs IH]; intros e; simpl.
    - reflexivity.
    - simpl in H. apply andb_true_iff in H. destruct H as (Hc & Hcs).
      rewrite (IH Hcs). now apply leaves_keeps_description. }
  split; [exact V|]. unfold getValue. now rewrite V.
Qed.

Lemma hooks_keep_description_witness :
  value
    (after [OnTransformChange [1; 0; 0; 1]; OnSizeChange 10 20;
            OnAddUIEvent "click"; OnReceive "click" (mkPayload []);
            OnUpdate]
       mounted) = value mounted.
Proof.
  exact (proj1 (hooks_keep_description
                  [OnTransformChange [1; 0; 0; 1]; OnSizeChange 10 20;
                   OnAddUIEvent "click"; OnReceive "click" (mkPayload []);
                   OnUpdate]
                  mounted eq_refl)).
Defined.

Lemma flag_set_mono (k k' : string) (o : Obj bool) :
  flag k o = true -> flag k (set k' true o) = true.
Proof.
  intros H. destruct (String.eqb_spec k' k) as [->|N].
  - apply flag_set_true.
  - now rewrite flag_set_other.
Qed.

Lemma mutated_classes (m : Mutation) (e : DOMElement) :
  Spec.classes (mutated m e) = Spec.classes (value e) \/
  exists k, Spec.classes (mutated m e) = set k true (Spec.classes (value e)).
Proof.
  unfold mutated. destruct (guard m e); [|now left].
  destruct m; simpl; eauto.
Qed.

Lemma description_after_frame (c : Call) (e : DOMElement) :
  Spec.tagName (description_after c e) = Spec.tagName (value e) /\
  (Spec.classes (description_after c e) = Spec.classes (value e) \/
   exists k,
     Spec.classes (description_after c e) =
     set k true (Spec.classes (value e))) /\
  ((forall payload, c <> OnReceive "resize" payload) ->
   Spec.renderSize (description_after c e) = Spec.renderSize (value e)).
Proof.
  assert (T : forall m, Spec.tagName (mutated m e) = Spec.tagName (value e) /\
                        Spec.renderSize (mutated m e) =
                        Spec.renderSize (value e)).
  { intros m. unfold mutated. destruct (guard m e); [|auto].
    destruct m; simpl; auto. }
  destruct c; unfold description_after;
    try (split; [apply T|]; split; [apply mutated_classes | intros; apply T]);
    try (split; [reflexivity|]; split; [now left | reflexivity]).
  destruct (event =? "resize")%string eqn:E.
  - split; [reflexivity|]. split; [now left|].
    intros H. apply String.eqb_eq in E. subst. now destruct (H payload).
  - split; [reflexivity|]. split; [now left | reflexivity].
Qed.

Lemma leaves_classes (c : Call) (e : DOMElement) (k : string) :
  (hasClass k e = true -> hasClass k (leaves c e) = true) /\
  (In k (getClasses e) -> In k (getClasses (leaves c e))).
Proof.
  unfold hasClass, getClasses. rewrite leaves_description.
  destruct (description_after_frame c e) as (_ & [-> | (k' & ->)] & _).
  - auto.
  - split; [apply flag_set_mono | apply keys_set_incl].
Qed.

Lemma after_classes (cs : list Call) (e : DOMElement) (k : string) :
  (hasClass k e = true -> hasClass k (after cs e) = true) /\
  (In k (getClasses e) -> In k (getClasses (after cs e))).
Proof.
  unfold after. revert e. induction cs as [|c cs IH]; intros e; simpl.
  - auto.
  - destruct (leaves_classes c e k) as (H1 & H2).
    destruct (IH (leaves c e)) as (H3 & H4). auto.
Qed.

(** X17: classes are never taken away.  No public call, [removeClass]
    and [onDismount] included, makes [hasClass(c)] false once it is true
    or drops [c] from [getClasses()]: over any series of calls a class
    that is present stays present and a class that is listed stays
    listed. *)
Theorem classes_are_never_taken_away
  (cs : list Call) (e : DOMElement) (c : string) :
  (hasClass c e = true -> hasClass c (after cs e) = true) /\
  (In c (getClasses e) -> In c (getClasses (after cs e))).
Proof. apply after_classes. Qed.

Lemma classes_are_never_taken_away_witness :
  hasClass "big" (addClass "big" mounted) = true /\
  hasClass "big"
    (after [Mutate (RemoveClass "big"); OnDismount;
            OnMount sampleNode (Number 1)]
       (addClass "big" mounted)) = true.
Proof.
  split; [reflexivity|].
  exact (proj1 (classes_are_never_taken_away
                  [Mutate (RemoveClass "big"); OnDismount;
                   OnMount sampleNode (Number 1)]
                  (addClass "big" mounted) "big") eq_refl).
Defined.

(** X18: the marker class.  Whatever the options (also when they list
    [famous-dom-element] as false) and whatever is called afterwards, the
    element has the class [famous-dom-element] and lists it. *)
Theorem marker_class_is_always_present
  (options : Options) (cs : list Call) :
  let e := after cs (DOMElement_new options) in
  hasClass "famous-dom-element" e = true /\
  In "famous-dom-element" (getClasses e).
Proof.
  cbv zeta.
  destruct (after_classes cs (DOMElement_new options) "famous-dom-element")
    as (H1 & H2).
  assert (F : hasClass "famous-dom-element" (DOMElement_new options) = true)
    by (unfold hasClass; simpl; apply flag_set_true).
  split; [now apply H1|]. apply H2.
  unfold getClasses. apply get_keys. simpl.
  rewrite get_set_same; [discriminate | left; discriminate].
Qed.

Lemma after_frame (cs : list Call) (e : DOMElement) :
  Spec.tagName (value (after cs e)) = Spec.tagName (value e) /\
  ((forall payload, ~ In (OnReceive "resize" payload) cs) ->
   Spec.renderSize (value (after cs e)) = Spec.renderSize (value e)).
Proof.
  unfold after. revert e. induction cs as [|c cs IH]; intros e; simpl.
  - auto.
  - destruct (IH (leaves c e)) as (T & R).
    rewrite leaves_description in T, R.
    destruct (description_after_frame c e) as (T' & _ & R').
    split; [congruence|].
    intros H. rewrite R, R'; [reflexivity| |].
    + intros p ->. apply (H p). now left.
    + intros p Hp. apply (H p). now right.
Qed.

(** X19: the tag and the render size.  No public call changes the tag
    name: after any series of calls it is the one the constructor stored.
    The render size starts as (0, 0) and is written by
    [onReceive('resize', ...)] only: a series of calls without one leaves
    it at (0, 0). *)
Theorem tag_is_fixed_and_size_is_measured
  (options : Options) (cs : list Call) :
  let e0 := DOMElement_new options in
  let e := after cs e0 in
  Spec.tagName (value e) = Spec.tagName (value e0) /\
  getRenderSize e0 = (0, 0) /\
  ((forall payload, ~ In (OnReceive "resize" payload) cs) ->
   getRenderSize e = (0, 0)).
Proof.
  cbv zeta. destruct (after_frame cs (DOMElement_new options)) as (T & R).
  split; [exact T|]. split; [reflexivity|].
  intros H. unfold getRenderSize. now rewrite R.
Qed.

Lemma tag_is_fixed_and_size_is_measured_witness :
  let e0 :=
    DOMElement_new
      (mkOptions (Some "span") None None None None None None None None) in
  let e :=
    after [Mutate (SetProperty "color" (Str "red"));
           OnMount sampleNode (Number 0); OnUpdate] e0 in
  Spec.tagName (value e) = Spec.tagName (value e0) /\
  getRenderSize e = (0, 0).
Proof.
  cbv zeta.
  destruct (tag_is_fixed_and_size_is_measured
              (mkOptions (Some "span") None None None None None None None None)
              [Mutate (SetProperty "color" (Str "red"));
               OnMount sampleNode (Number 0); OnUpdate]) as (T & _ & R).
  split; [exact T|]. apply R.
  intros p [H|[H|[H|[]]]]; discriminate.
Defined.

(** X20: [onRemoveUIEvent] does nothing on an element built by the
    constructor.  Since no call ever records an event, the name is never
    found, and outside [onMount] the call returns the element as it is:
    no [UNSUBSCRIBE] is queued and no update requested, for any event and
    after any calls. *)
Theorem onRemoveUIEvent_is_idle
  (options : Options) (cs : list Call) (uiEvent : string) :
  let e := after cs (DOMElement_new options) in
  onRemoveUIEvent uiEvent e = e.
Proof.
  cbv zeta.
  destruct (after_settled cs _ (new_settled options)) as (D & U & _).
  unfold onRemoveUIEvent. now rewrite U, D.
Qed.
